(** * Credential bootstrap of the k3s control plane (package [deps])

    A shallow embedding of [pkg/daemons/control/deps/deps.go]: the functions
    that create the certificate authorities, the leaf certificates, the
    service-account key, the join tokens, the encryption configuration and the
    derived configuration files of a server, together with the properties of
    the specification that concern them.

    The Go code works on the file system, the clock and the random source of
    the operating system.  They are modelled by an explicit [World] that every
    function threads through a state-and-error monad [M]. *)

From stdpp Require Import gmap strings list fin_maps fin_sets pretty.
From Stdlib Require Import ZArith Ascii String Lia.

Local Open Scope string_scope.
Local Open Scope Z_scope.

(** ** Errors and the monad *)

(** The errors the code distinguishes.  [errors.Is(err, os.ErrNotExist)] is the
    test for the first constructor. *)
Inductive error : Type :=
| ErrNotExist
| ErrExist
| ErrPermission
| ErrData (msg : string)
| ErrConfig (msg : string).

Inductive result (A : Type) : Type :=
| Ok (a : A)
| Err (e : error).
Arguments Ok {A} a.
Arguments Err {A} e.

Definition is_Ok {A} (r : result A) : bool :=
  match r with Ok _ => true | Err _ => false end.

(** ** Certificates, keys and file contents *)

Definition PrivateKey := string.

Inductive ExtKeyUsage : Type :=
| ExtKeyUsageServerAuth
| ExtKeyUsageClientAuth.

(** The fields of [x509.Certificate] that the package reads or sets.  An IP
    address is kept in the textual form that [net.IP.String] returns. *)
Record Certificate : Type := mkCertificate {
  Subject_CommonName : string;
  Subject_Organization : list string;
  DNSNames : list string;
  IPAddresses : list string;
  NotAfter : Z;
  ExtKeyUsages : list ExtKeyUsage;
  IsCA : bool;
  SubjectKeyId : string;
  AuthorityKeyId : string
}.

Inductive PEMBlock : Type :=
| CertBlock (c : Certificate)
| KeyBlock (k : PrivateKey).

(** One line of the credential table: [passwd.entry]. *)
Record entry : Type := mkEntry { e_role : string; e_passwd : string }.

(** What a file holds: a sequence of PEM blocks, the credential table, or
    bytes without further structure.  Parsing is then a pattern match, and
    encoding followed by parsing is the identity by construction. *)
Inductive FileData : Type :=
| FPEM (blocks : list PEMBlock)
| FPasswd (table : gmap string entry)
| FText (bytes : string).

(** ** Documents that are serialised to JSON *)

Record Key : Type := mkKey { Name : string; Secret : string }.

(** [apiserverconfigv1.ProviderConfiguration]: one optional field per kind of
    provider; the package fills exactly one of them. *)
Record ProviderConfiguration : Type := mkProvider {
  AESCBC : option (list Key);
  Secretbox : option (list Key);
  Identity : option unit
}.

Record ResourceConfiguration : Type := mkResource {
  rc_Resources : list string;
  rc_Providers : list ProviderConfiguration
}.

Record EncryptionConfiguration : Type := mkEncryptionConfiguration {
  ec_Kind : string;
  ec_APIVersion : string;
  ec_Resources : list ResourceConfiguration
}.

Inductive ProxyProtocol : Type := ProtocolDirect | ProtocolHTTPConnect.

Record TCPTransport : Type := mkTCPTransport {
  tcp_URL : string;
  tls_CABundle : string;
  tls_ClientKey : string;
  tls_ClientCert : string
}.

Record Connection : Type := mkConnection {
  conn_ProxyProtocol : ProxyProtocol;
  conn_Transport : option TCPTransport
}.

Record EgressSelection : Type := mkEgressSelection {
  es_Name : string;
  es_Connection : Connection
}.

Record EgressSelectorConfiguration : Type := mkEgressSelectorConfiguration {
  esc_Kind : string;
  esc_APIVersion : string;
  esc_EgressSelections : list EgressSelection
}.

Record cloudprovider_Config : Type := mkCloudConfig {
  LBDefaultPriorityClassName : string;
  LBEnabled : bool;
  LBNamespace : string;
  LBImage : string;
  cc_Rootless : bool;
  NodeEnabled : bool
}.

(** ** What the package takes from outside

    Functions and constants of the Go standard library and of the imported
    packages whose result is only passed on: they stay parameters. *)
Class Libs : Type := {
  (** [crypto/sha256.Sum256] *)
  sha256_Sum256 : string -> string;
  (** [encoding/base64.StdEncoding.EncodeToString] *)
  base64_EncodeToString : string -> string;
  (** [encoding/json.Marshal] at the three document types *)
  json_Marshal_encryption : EncryptionConfiguration -> string;
  json_Marshal_egress : EgressSelectorConfiguration -> string;
  json_Marshal_cloud : cloudprovider_Config -> string;
  (** the bytes of a file of PEM blocks and of a credential table *)
  pem_bytes : list PEMBlock -> string;
  passwd_bytes : gmap string entry -> string;
  (** the subject key identifier x509 derives from a key pair *)
  key_id : PrivateKey -> string;
  (** [net.ParseIP], followed by [String] on the address found *)
  net_ParseIP : string -> option string;
  (** [clientaccess.ParseUsernamePassword]: user name and password portion
      of a token, when it parses *)
  clientaccess_ParseUsernamePassword : string -> option (string * string);
  (** lifetime in seconds of a signed certificate and of a CA certificate *)
  cert_validity : Z;
  ca_validity : Z;
  (** [config.CertificateRenewDays] *)
  CertificateRenewDays : Z;
  (** [secretsencrypt.KeySize] *)
  secretsencrypt_KeySize : nat;
  (** [cloudprovider.DefaultLBPriorityClassName], [cloudprovider.DefaultLBImage] *)
  cloudprovider_DefaultLBPriorityClassName : string;
  cloudprovider_DefaultLBImage : string
}.

(** ** The world: files, clock, random source *)

(** A directory entry binds a path to an inode number and the content of that
    inode; two paths with one inode number are hard links to one file.
    [denied] holds the paths on which the operating system refuses every
    call.  [wlog] lists the paths opened for writing, the latest first.  The
    last three fields are the fields of the configuration object that the
    bootstrap assigns. *)
Record World : Type := mkWorld {
  files : gmap string (nat * FileData);
  denied : gset string;
  clock : Z;
  entropy : nat -> ascii;
  rpos : nat;
  wlog : list string;
  IPSECPSK : string;
  rt_AgentToken : string;
  rt_ServerToken : string
}.

Definition M (A : Type) : Type := World -> result A * World.

Definition ret {A} (a : A) : M A := fun w => (Ok a, w).
Definition fail {A} (e : error) : M A := fun w => (Err e, w).
Definition bind {A B} (m : M A) (k : A -> M B) : M B :=
  fun w => match m w with
           | (Ok a, w') => k a w'
           | (Err e, w') => (Err e, w')
           end.
(** A call that only inspects the world. *)
Definition look {A} (f : World -> result A) : M A := fun w => (f w, w).

Declare Scope m_scope.
Delimit Scope m_scope with m.
Notation "x <- m ;; k" := (bind m (fun x => k))
  (at level 100, m at next level, right associativity) : m_scope.
Notation "m ;;; k" := (bind m (fun _ => k))
  (at level 100, right associativity) : m_scope.
Local Open Scope m_scope.

Definition set_files (fs : gmap string (nat * FileData)) (w : World) : World :=
  mkWorld fs (denied w) (clock w) (entropy w) (rpos w) (wlog w)
          (IPSECPSK w) (rt_AgentToken w) (rt_ServerToken w).
Definition log_write (p : string) (w : World) : World :=
  mkWorld (files w) (denied w) (clock w) (entropy w) (rpos w) (p :: wlog w)
          (IPSECPSK w) (rt_AgentToken w) (rt_ServerToken w).
Definition set_rpos (n : nat) (w : World) : World :=
  mkWorld (files w) (denied w) (clock w) (entropy w) n (wlog w)
          (IPSECPSK w) (rt_AgentToken w) (rt_ServerToken w).
Definition set_IPSECPSK (s : string) : M unit := fun w =>
  (Ok tt, mkWorld (files w) (denied w) (clock w) (entropy w) (rpos w) (wlog w)
                  s (rt_AgentToken w) (rt_ServerToken w)).
Definition set_AgentToken (s : string) : M unit := fun w =>
  (Ok tt, mkWorld (files w) (denied w) (clock w) (entropy w) (rpos w) (wlog w)
                  (IPSECPSK w) s (rt_ServerToken w)).
Definition set_ServerToken (s : string) : M unit := fun w =>
  (Ok tt, mkWorld (files w) (denied w) (clock w) (entropy w) (rpos w) (wlog w)
                  (IPSECPSK w) (rt_AgentToken w) s).

(** [crypto/rand.Read]: the next [n] bytes of the random source. *)
Definition rand_Read (n : nat) : M string := fun w =>
  (Ok (string_of_list_ascii (map (entropy w) (seq (rpos w) n))),
   set_rpos (rpos w + n)%nat w).

(** [time.Now().Unix()] *)
Definition time_Now : M Z := fun w => (Ok (clock w), w).

(** The concrete functions of the Go standard library that the package calls
    on strings. *)

(** [encoding/hex.EncodeToString] *)
Definition hex_digit (n : N) : ascii :=
  match n with
  | 0%N => "0" | 1%N => "1" | 2%N => "2" | 3%N => "3" | 4%N => "4"
  | 5%N => "5" | 6%N => "6" | 7%N => "7" | 8%N => "8" | 9%N => "9"
  | 10%N => "a" | 11%N => "b" | 12%N => "c" | 13%N => "d" | 14%N => "e"
  | _ => "f"
  end%char.

Fixpoint hex_EncodeToString (s : string) : string :=
  match s with
  | EmptyString => EmptyString
  | String a rest =>
      let n := N_of_ascii a in
      String (hex_digit (N.div n 16)) (String (hex_digit (N.modulo n 16))
             (hex_EncodeToString rest))
  end.

(** [strings.TrimSpace], on the ASCII white space characters. *)
Definition is_space (a : ascii) : bool :=
  let n := N_of_ascii a in
  (N.eqb n 32 || (N.leb 9 n && N.leb n 13))%bool.

Fixpoint trim_left (s : string) : string :=
  match s with
  | String a rest => if is_space a then trim_left rest else s
  | EmptyString => EmptyString
  end.

Fixpoint trim_right (s : string) : string :=
  match s with
  | EmptyString => EmptyString
  | String a rest =>
      match trim_right rest with
      | EmptyString => if is_space a then EmptyString else String a EmptyString
      | r => String a r
      end
  end.

Definition strings_TrimSpace (s : string) : string := trim_right (trim_left s).

(** [filepath.Join] on elements that are clean and not empty: the elements
    separated by a slash. *)
Fixpoint filepath_Join (elems : list string) : string :=
  match elems with
  | [] => ""
  | [e] => e
  | e :: rest => e +:+ "/" +:+ filepath_Join rest
  end.

(** [version.Program], the name of the program. *)
Definition version_Program : string := "k3s".

(** Constants of [k8s.io/apiserver/pkg/authentication/user]. *)
Definition user_SystemPrivilegedGroup : string := "system:masters".
Definition user_KubeControllerManager : string := "system:kube-controller-manager".
Definition user_KubeScheduler : string := "system:kube-scheduler".
Definition user_APIServerUser : string := "system:apiserver".

(** Constants of [secretsencrypt]. *)
Definition secretsencrypt_AESCBCProvider : string := "aescbc".
Definition secretsencrypt_SecretBoxProvider : string := "secretbox".

Definition ipsecTokenSize : nat := 48.
Definition RequestHeaderCN : string := "system:auth-proxy".

(** ** The configuration *)

(** [certutil.AltNames] *)
Record AltNames : Type := mkAltNames {
  an_DNSNames : list string;
  an_IPs : list string
}.

(** [certutil.Config] *)
Record certutil_Config : Type := mkCertConfig {
  cfg_CommonName : string;
  cfg_Organization : list string;
  cfg_AltNames : AltNames;
  cfg_Usages : list ExtKeyUsage
}.

(** The file names of [config.ControlRuntime]. *)
Record ControlRuntime : Type := mkControlRuntime {
  ClientCA : string;
  ClientCAKey : string;
  ServerCA : string;
  ServerCAKey : string;
  RequestHeaderCA : string;
  RequestHeaderCAKey : string;
  IPSECKey : string;
  ServiceKey : string;
  PasswdFile : string;
  NodePasswdFile : string;
  SigningClientCA : string;
  SigningServerCA : string;
  ServiceCurrentKey : string;
  KubeConfigAdmin : string;
  KubeConfigSupervisor : string;
  KubeConfigController : string;
  KubeConfigScheduler : string;
  KubeConfigAPIServer : string;
  KubeConfigCloudController : string;
  ClientAdminCert : string;
  ClientAdminKey : string;
  ClientSupervisorCert : string;
  ClientSupervisorKey : string;
  ClientControllerCert : string;
  ClientControllerKey : string;
  ClientCloudControllerCert : string;
  ClientCloudControllerKey : string;
  ClientSchedulerCert : string;
  ClientSchedulerKey : string;
  ClientKubeAPICert : string;
  ClientKubeAPIKey : string;
  ClientKubeProxyCert : string;
  ClientKubeProxyKey : string;
  ClientK3sControllerCert : string;
  ClientK3sControllerKey : string;
  ServingKubeAPICert : string;
  ServingKubeAPIKey : string;
  ServingKubeSchedulerCert : string;
  ServingKubeSchedulerKey : string;
  ServingKubeControllerCert : string;
  ServingKubeControllerKey : string;
  ClientKubeletKey : string;
  ServingKubeletKey : string;
  EgressSelectorConfig : string;
  CloudControllerConfig : string;
  ClientAuthProxyCert : string;
  ClientAuthProxyKey : string;
  ETCDServerCA : string;
  ETCDServerCAKey : string;
  ETCDPeerCA : string;
  ETCDPeerCAKey : string;
  ServerETCDCert : string;
  ServerETCDKey : string;
  PeerServerClientETCDCert : string;
  PeerServerClientETCDKey : string;
  ClientETCDCert : string;
  ClientETCDKey : string;
  EncryptionConfig : string;
  EncryptionHash : string
}.

Inductive EgressSelectorMode : Type :=
| EgressSelectorModeDisabled
| EgressSelectorModeEnabled.

(** The fields of [config.Control] that the package reads.  [Loopback] and
    [BindAddressOrLoopback] are its two methods of that name. *)
Record Control : Type := mkControl {
  DataDir : string;
  Token : string;
  AgentToken : string;
  SANs : list string;
  ClusterDomain : string;
  APIServerPort : Z;
  SupervisorPort : Z;
  DisableETCD : bool;
  EncryptSecrets : bool;
  EncryptProvider : string;
  EgressSelectorMode_ : EgressSelectorMode;
  DisableServiceLB : bool;
  ServiceLBNamespace : string;
  Rootless : bool;
  DisableCCM : bool;
  SystemDefaultRegistry : string;
  Loopback : bool -> string;
  BindAddressOrLoopback : bool -> bool -> string;
  Runtime : ControlRuntime
}.

Definition with_Runtime (config : Control) (runtime : ControlRuntime) : Control :=
  mkControl (DataDir config) (Token config) (AgentToken config) (SANs config)
    (ClusterDomain config) (APIServerPort config) (SupervisorPort config)
    (DisableETCD config) (EncryptSecrets config) (EncryptProvider config)
    (EgressSelectorMode_ config) (DisableServiceLB config)
    (ServiceLBNamespace config) (Rootless config) (DisableCCM config)
    (SystemDefaultRegistry config) (Loopback config)
    (BindAddressOrLoopback config) runtime.

Definition with_DisableETCD (config : Control) (b : bool) : Control :=
  mkControl (DataDir config) (Token config) (AgentToken config) (SANs config)
    (ClusterDomain config) (APIServerPort config) (SupervisorPort config)
    b (EncryptSecrets config) (EncryptProvider config)
    (EgressSelectorMode_ config) (DisableServiceLB config)
    (ServiceLBNamespace config) (Rootless config) (DisableCCM config)
    (SystemDefaultRegistry config) (Loopback config)
    (BindAddressOrLoopback config) (Runtime config).

(** [CreateRuntimeCertFiles] fills in the file names of the runtime.  The two
    names of the encryption files are set only when secrets are encrypted and
    keep their former value otherwise. *)
Definition CreateRuntimeCertFiles (config : Control) : Control :=
  let d := DataDir config in
  let tls f := filepath_Join [d; "tls"; f] in
  let etcd f := filepath_Join [d; "tls"; "etcd"; f] in
  let cred f := filepath_Join [d; "cred"; f] in
  let etc f := filepath_Join [d; "etc"; f] in
  with_Runtime config {|
    ClientCA := tls "client-ca.crt";
    ClientCAKey := tls "client-ca.key";
    ServerCA := tls "server-ca.crt";
    ServerCAKey := tls "server-ca.key";
    RequestHeaderCA := tls "request-header-ca.crt";
    RequestHeaderCAKey := tls "request-header-ca.key";
    IPSECKey := cred "ipsec.psk";
    ServiceKey := tls "service.key";
    PasswdFile := cred "passwd";
    NodePasswdFile := cred "node-passwd";
    SigningClientCA := tls "client-ca.nochain.crt";
    SigningServerCA := tls "server-ca.nochain.crt";
    ServiceCurrentKey := tls "service.current.key";
    KubeConfigAdmin := cred "admin.kubeconfig";
    KubeConfigSupervisor := cred "supervisor.kubeconfig";
    KubeConfigController := cred "controller.kubeconfig";
    KubeConfigScheduler := cred "scheduler.kubeconfig";
    KubeConfigAPIServer := cred "api-server.kubeconfig";
    KubeConfigCloudController := cred "cloud-controller.kubeconfig";
    ClientAdminCert := tls "client-admin.crt";
    ClientAdminKey := tls "client-admin.key";
    ClientSupervisorCert := tls "client-supervisor.crt";
    ClientSupervisorKey := tls "client-supervisor.key";
    ClientControllerCert := tls "client-controller.crt";
    ClientControllerKey := tls "client-controller.key";
    ClientCloudControllerCert := tls ("client-" +:+ version_Program +:+ "-cloud-controller.crt");
    ClientCloudControllerKey := tls ("client-" +:+ version_Program +:+ "-cloud-controller.key");
    ClientSchedulerCert := tls "client-scheduler.crt";
    ClientSchedulerKey := tls "client-scheduler.key";
    ClientKubeAPICert := tls "client-kube-apiserver.crt";
    ClientKubeAPIKey := tls "client-kube-apiserver.key";
    ClientKubeProxyCert := tls "client-kube-proxy.crt";
    ClientKubeProxyKey := tls "client-kube-proxy.key";
    ClientK3sControllerCert := tls ("client-" +:+ version_Program +:+ "-controller.crt");
    ClientK3sControllerKey := tls ("client-" +:+ version_Program +:+ "-controller.key");
    ServingKubeAPICert := tls "serving-kube-apiserver.crt";
    ServingKubeAPIKey := tls "serving-kube-apiserver.key";
    ServingKubeSchedulerCert := filepath_Join [d; "tls"; "kube-scheduler"; "kube-scheduler.crt"];
    ServingKubeSchedulerKey := filepath_Join [d; "tls"; "kube-scheduler"; "kube-scheduler.key"];
    ServingKubeControllerCert :=
      filepath_Join [d; "tls"; "kube-controller-manager"; "kube-controller-manager.crt"];
    ServingKubeControllerKey :=
      filepath_Join [d; "tls"; "kube-controller-manager"; "kube-controller-manager.key"];
    ClientKubeletKey := tls "client-kubelet.key";
    ServingKubeletKey := tls "serving-kubelet.key";
    EgressSelectorConfig := etc "egress-selector-config.yaml";
    CloudControllerConfig := etc "cloud-config.yaml";
    ClientAuthProxyCert := tls "client-auth-proxy.crt";
    ClientAuthProxyKey := tls "client-auth-proxy.key";
    ETCDServerCA := etcd "server-ca.crt";
    ETCDServerCAKey := etcd "server-ca.key";
    ETCDPeerCA := etcd "peer-ca.crt";
    ETCDPeerCAKey := etcd "peer-ca.key";
    ServerETCDCert := etcd "server-client.crt";
    ServerETCDKey := etcd "server-client.key";
    PeerServerClientETCDCert := etcd "peer-server-client.crt";
    PeerServerClientETCDKey := etcd "peer-server-client.key";
    ClientETCDCert := etcd "client.crt";
    ClientETCDKey := etcd "client.key";
    EncryptionConfig :=
      if EncryptSecrets config then cred "encryption-config.json"
      else EncryptionConfig (Runtime config);
    EncryptionHash :=
      if EncryptSecrets config then cred "encryption-state.json"
      else EncryptionHash (Runtime config)
  |}.

Section Deps.
Context `{Libs}.

(** ** The operating system *)

Definition file_bytes (d : FileData) : string :=
  match d with
  | FPEM blocks => pem_bytes blocks
  | FPasswd table => passwd_bytes table
  | FText bytes => bytes
  end.

(** The directory entry of a path, or the error of the call. *)
Definition lookup_path (w : World) (p : string) : result (nat * FileData) :=
  if decide (p ∈ denied w) then Err ErrPermission
  else match files w !! p with
       | Some f => Ok f
       | None => Err ErrNotExist
       end.

(** [os.Stat]; the result is [Size()] of the file information. *)
Definition os_Stat (w : World) (p : string) : result nat :=
  match lookup_path w p with
  | Ok f => Ok (String.length (file_bytes f.2))
  | Err e => Err e
  end.

Definition read_data (w : World) (p : string) : result FileData :=
  match lookup_path w p with
  | Ok f => Ok f.2
  | Err e => Err e
  end.

(** [os.ReadFile] *)
Definition os_ReadFile (w : World) (p : string) : result string :=
  match read_data w p with
  | Ok d => Ok (file_bytes d)
  | Err e => Err e
  end.

Definition inodes_of (fs : gmap string (nat * FileData)) : gset nat :=
  map_to_set (fun _ f => f.1) fs.

(** Writing through a path: an existing file keeps its inode, so that every
    hard link to it shows the new content; a new file gets an unused inode. *)
Definition store (p : string) (d : FileData) (fs : gmap string (nat * FileData))
  : gmap string (nat * FileData) :=
  match fs !! p with
  | Some f => (fun g : nat * FileData => if decide (g.1 = f.1) then (g.1, d) else g) <$> fs
  | None => <[p := (fresh (inodes_of fs), d)]> fs
  end.

(** [os.WriteFile], and [os.OpenFile] with [O_CREATE|O_TRUNC] followed by the
    writes to the file. *)
Definition os_WriteFile (p : string) (d : FileData) : M unit := fun w =>
  if decide (p ∈ denied w) then (Err ErrPermission, w)
  else (Ok tt, log_write p (set_files (store p d (files w)) w)).

(** Modelled from the spec: [util.AtomicWrite] is not under src/.  The file is
    written at a temporary place and renamed into place: the path gets a new
    inode. *)
Definition util_AtomicWrite (p : string) (d : FileData) : M unit := fun w =>
  if decide (p ∈ denied w) then (Err ErrPermission, w)
  else (Ok tt, log_write p
                 (set_files (<[p := (fresh (inodes_of (files w)), d)]> (files w)) w)).

(** [os.Link]: a second directory entry for the inode of [src]. *)
Definition os_Link (src dst : string) : M unit := fun w =>
  if decide (src ∈ denied w ∨ dst ∈ denied w) then (Err ErrPermission, w)
  else match files w !! src with
       | None => (Err ErrNotExist, w)
       | Some f =>
           match files w !! dst with
           | Some _ => (Err ErrExist, w)
           | None => (Ok tt, set_files (<[dst := f]> (files w)) w)
           end
       end.

(** [os.Remove] *)
Definition os_Remove (p : string) : M unit := fun w =>
  if decide (p ∈ denied w) then (Err ErrPermission, w)
  else match files w !! p with
       | None => (Err ErrNotExist, w)
       | Some _ => (Ok tt, set_files (delete p (files w)) w)
       end.

(** ** The certificate library ([dynamiclistener/cert], [client-go/util/keyutil]) *)

Fixpoint certs_of (blocks : list PEMBlock) : list Certificate :=
  match blocks with
  | [] => []
  | CertBlock c :: rest => c :: certs_of rest
  | KeyBlock _ :: rest => certs_of rest
  end.

Fixpoint first_key (blocks : list PEMBlock) : option PrivateKey :=
  match blocks with
  | [] => None
  | KeyBlock k :: _ => Some k
  | CertBlock _ :: rest => first_key rest
  end.

(** [ParseCertsPEM]: the certificates of the data; an error when there is none. *)
Definition certutil_ParseCertsPEM (d : FileData) : result (list Certificate) :=
  match d with
  | FPEM blocks =>
      match certs_of blocks with
      | [] => Err (ErrData "data does not contain any valid certificates")
      | cs => Ok cs
      end
  | _ => Err (ErrData "data does not contain any valid certificates")
  end.

Definition certutil_CertsFromFile (w : World) (file : string) : result (list Certificate) :=
  match read_data w file with
  | Ok d => certutil_ParseCertsPEM d
  | Err e => Err e
  end.

(** [ParsePrivateKeyPEM]: the first private key of the data. *)
Definition certutil_ParsePrivateKeyPEM (d : FileData) : result PrivateKey :=
  match d with
  | FPEM blocks =>
      match first_key blocks with
      | Some k => Ok k
      | None => Err (ErrData "data does not contain a valid private key")
      end
  | _ => Err (ErrData "data does not contain a valid private key")
  end.

Definition certutil_PrivateKeyFromFile (w : World) (file : string) : result PrivateKey :=
  match read_data w file with
  | Ok d => certutil_ParsePrivateKeyPEM d
  | Err e => Err e
  end.

Definition certutil_EncodeCertPEM (c : Certificate) : FileData := FPEM [CertBlock c].
Definition certutil_EncodePrivateKeyPEM (k : PrivateKey) : FileData := FPEM [KeyBlock k].

(** [WriteCert] and [WriteKey]: [os.WriteFile] after the directory was made. *)
Definition certutil_WriteCert (certPath : string) (data : FileData) : M unit :=
  os_WriteFile certPath data.
Definition certutil_WriteKey (keyPath : string) (data : FileData) : M unit :=
  os_WriteFile keyPath data.

(** [NewPrivateKey]: a key from 32 bytes of the random source. *)
Definition certutil_NewPrivateKey : M PrivateKey := rand_Read 32.

(** [LoadOrGenerateKeyFile]: without [force], a readable key file is returned
    as it is, an unusable one is an error and only a missing one is
    generated; with [force] the key is always generated and written. *)
Definition certutil_LoadOrGenerateKeyFile (keyPath : string) (force : bool)
  : M (FileData * bool) :=
  let generate : M (FileData * bool) :=
    k <- certutil_NewPrivateKey ;;
    let generatedData := certutil_EncodePrivateKeyPEM k in
    certutil_WriteKey keyPath generatedData ;;;
    ret (generatedData, true) in
  if force then generate
  else fun w =>
    match read_data w keyPath with
    | Ok loadedData =>
        if is_Ok (certutil_ParsePrivateKeyPEM loadedData)
        then (Ok (loadedData, false), w)
        else (Err (ErrData "error loading key"), w)
    | Err ErrNotExist => generate w
    | Err e => (Err e, w)
    end.

(** [NewSelfSignedCACert] *)
Definition certutil_NewSelfSignedCACert (cfg : certutil_Config) (key : PrivateKey)
  : M Certificate :=
  now <- time_Now ;;
  ret {| Subject_CommonName := cfg_CommonName cfg;
         Subject_Organization := cfg_Organization cfg;
         DNSNames := [];
         IPAddresses := [];
         NotAfter := now + ca_validity;
         ExtKeyUsages := [];
         IsCA := true;
         SubjectKeyId := key_id key;
         AuthorityKeyId := "" |}.

(** [NewSignedCert]: subject and alternative names of the configuration, the
    authority key identifier is the subject key identifier of the CA. *)
Definition certutil_NewSignedCert (cfg : certutil_Config) (key : PrivateKey)
    (caCert : Certificate) (caKey : PrivateKey) : M Certificate :=
  if decide (cfg_CommonName cfg = "") then fail (ErrConfig "must specify a CommonName")
  else if decide (cfg_Usages cfg = []) then fail (ErrConfig "must specify at least one ExtKeyUsage")
  else
    now <- time_Now ;;
    ret {| Subject_CommonName := cfg_CommonName cfg;
           Subject_Organization := cfg_Organization cfg;
           DNSNames := an_DNSNames (cfg_AltNames cfg);
           IPAddresses := an_IPs (cfg_AltNames cfg);
           NotAfter := now + cert_validity;
           ExtKeyUsages := cfg_Usages cfg;
           IsCA := false;
           SubjectKeyId := "";
           AuthorityKeyId := SubjectKeyId caCert |}.

(** [IsCertExpired]: the certificate ends within [days] days from now. *)
Definition certutil_IsCertExpired (w : World) (cert : Certificate) (days : Z) : bool :=
  bool_decide (NotAfter cert - clock w <= days * 86400).

(** Modelled from the spec: [util.EncodeCertsPEM] is not under src/.  The
    certificate followed by the chain of the CA. *)
Definition util_EncodeCertsPEM (cert : Certificate) (caCerts : list Certificate) : FileData :=
  FPEM (map CertBlock (cert :: caCerts)).

(** Modelled from the spec: [util.Random] is not under src/.  The hexadecimal
    form of [size] bytes of the random source. *)
Definition util_Random (size : nat) : M string :=
  token <- rand_Read size ;;
  ret (hex_EncodeToString token).

(** ** The credential table ([passwd]) *)

(** Modelled from the spec: package [passwd] is not under src/.  A table from
    user name to group and secret; [changed] records that the table was
    mutated since it was read. *)
Record Passwd : Type := mkPasswd {
  names : gmap string entry;
  changed : bool
}.

#[local] Instance entry_eq_dec : EqDecision entry.
Proof. solve_decision. Defined.

(** Modelled from the spec: [passwd.Read] is not under src/.  A missing file
    is the empty table. *)
Definition passwd_Read (w : World) (file : string) : result Passwd :=
  match read_data w file with
  | Ok (FPasswd table) => Ok (mkPasswd table false)
  | Ok _ => Err (ErrData "malformed credential table")
  | Err ErrNotExist => Ok (mkPasswd ∅ false)
  | Err e => Err e
  end.

(** Modelled from the spec: [Passwd.Pass] is not under src/.  The secret of a
    user and whether the user is in the table. *)
Definition Pass (p : Passwd) (name : string) : string * bool :=
  match names p !! name with
  | Some e => (e_passwd e, true)
  | None => ("", false)
  end.

(** Modelled from the spec: [Passwd.EnsureUser] is not under src/.  It
    inserts the user if absent and updates group and secret if the user exists
    with different values. *)
Definition EnsureUser (p : Passwd) (name role passwd : string) : result Passwd :=
  match names p !! name with
  | Some e =>
      if decide (e = mkEntry role passwd) then Ok p
      else Ok (mkPasswd (<[name := mkEntry role passwd]> (names p)) true)
  | None => Ok (mkPasswd (<[name := mkEntry role passwd]> (names p)) true)
  end.

(** Modelled from the spec: [Passwd.Write] is not under src/.  A mutated
    table is serialised back, and never left partially written. *)
Definition passwd_Write (p : Passwd) (file : string) : M unit :=
  if changed p then util_AtomicWrite file (FPasswd (names p)) else ret tt.

(** ** Package [deps] *)

Definition of_result {A} (r : result A) : M A := fun w => (r, w).
Definition gets {A} (f : World -> A) : M A := fun w => (Ok (f w), w).

Definition nl : string := String (ascii_of_nat 10) EmptyString.

(** [kubeconfigTemplate], executed on the four values. *)
Definition kubeconfigTemplate (URL CACert ClientCert ClientKey : string) : string :=
  "apiVersion: v1" +:+ nl +:+
  "clusters:" +:+ nl +:+
  "- cluster:" +:+ nl +:+
  "    server: " +:+ URL +:+ nl +:+
  "    certificate-authority: " +:+ CACert +:+ nl +:+
  "  name: local" +:+ nl +:+
  "contexts:" +:+ nl +:+
  "- context:" +:+ nl +:+
  "    cluster: local" +:+ nl +:+
  "    namespace: default" +:+ nl +:+
  "    user: user" +:+ nl +:+
  "  name: Default" +:+ nl +:+
  "current-context: Default" +:+ nl +:+
  "kind: Config" +:+ nl +:+
  "preferences: {}" +:+ nl +:+
  "users:" +:+ nl +:+
  "- name: user" +:+ nl +:+
  "  user:" +:+ nl +:+
  "    client-certificate: " +:+ ClientCert +:+ nl +:+
  "    client-key: " +:+ ClientKey +:+ nl.

Definition migratePassword (p : Passwd) : result Passwd :=
  let server := (Pass p "server").1 in
  let node := (Pass p "node").1 in
  if (bool_decide (server = "") && negb (bool_decide (node = "")))%bool
  then EnsureUser p "server" (version_Program +:+ ":server") node
  else Ok p.

Definition KubeConfig (dest url caCert clientCert clientKey : string) : M unit :=
  os_WriteFile dest (FText (kubeconfigTemplate url caCert clientCert clientKey)).

Definition readTokens (runtime : ControlRuntime) : M unit :=
  tokens <- look (fun w => passwd_Read w (PasswdFile runtime)) ;;
  (let (nodeToken, ok) := Pass tokens "node" in
   if ok then set_AgentToken ("node:" +:+ nodeToken) else ret tt) ;;;
  (let (serverToken, ok) := Pass tokens "server" in
   if ok then set_ServerToken ("server:" +:+ serverToken) else ret tt) ;;;
  ret tt.

Definition getNodePass (config : Control) (serverPass : string) : string :=
  if decide (AgentToken config = "") then
    match clientaccess_ParseUsernamePassword serverPass with
    | Some (_, passwd) => passwd
    | None => serverPass
    end
  else AgentToken config.

Definition getServerPass (passwd : Passwd) (config : Control) : M string :=
  let serverPass := Token config in
  let serverPass := if decide (serverPass = "") then (Pass passwd "server").1 else serverPass in
  if decide (serverPass = "") then util_Random 16 else ret serverPass.

Definition genUsers (config : Control) : M unit :=
  let runtime := Runtime config in
  passwd <- look (fun w => passwd_Read w (PasswdFile runtime)) ;;
  passwd <- of_result (migratePassword passwd) ;;
  serverPass <- getServerPass passwd config ;;
  let nodePass := getNodePass config serverPass in
  passwd <- of_result (EnsureUser passwd "node" (version_Program +:+ ":agent") nodePass) ;;
  passwd <- of_result (EnsureUser passwd "server" (version_Program +:+ ":server") serverPass) ;;
  passwd_Write passwd (PasswdFile runtime).

(** [os.Stat] succeeds and the file is not empty. *)
Definition stat_nonempty (w : World) (p : string) : bool :=
  match os_Stat w p with
  | Ok size => bool_decide (0 < size)%nat
  | Err _ => false
  end.

Definition genEncryptedNetworkInfo (controlConfig : Control) : M unit :=
  let runtime := Runtime controlConfig in
  present <- gets (fun w => stat_nonempty w (IPSECKey runtime)) ;;
  if present then
    psk <- look (fun w => os_ReadFile w (IPSECKey runtime)) ;;
    set_IPSECPSK (strings_TrimSpace psk)
  else
    psk <- util_Random ipsecTokenSize ;;
    set_IPSECPSK psk ;;;
    os_WriteFile (IPSECKey runtime) (FText (psk +:+ nl)).

Definition exists_ (w : World) (files : list string) : bool :=
  forallb (fun file => is_Ok (os_Stat w file)) files.

Definition expired (w : World) (certFile : string) : bool :=
  match certutil_CertsFromFile w certFile with
  | Err _ => false
  | Ok [] => false
  | Ok (c :: _) => certutil_IsCertExpired w c CertificateRenewDays
  end.

Definition sets_NewString (l : list string) : gset string := list_to_set l.

Definition fieldsChanged (w : World) (certFile commonName : string)
    (organization : list string) (sans : option AltNames) (caCertFile : string) : bool :=
  let sans := default (mkAltNames [] []) sans in
  match certutil_CertsFromFile w certFile with
  | Err _ => false
  | Ok [] => false
  | Ok (cert0 :: _) =>
      if negb (bool_decide (Subject_CommonName cert0 = commonName)) then true
      else if negb (bool_decide (sets_NewString (Subject_Organization cert0)
                                 = sets_NewString organization)) then true
      else if negb (forallb (fun d => bool_decide (d ∈ sets_NewString (DNSNames cert0)))
                            (an_DNSNames sans)) then true
      else
        let ips := sets_NewString (IPAddresses cert0) in
        if existsb (fun ip => negb (bool_decide (ip ∈ ips))) (an_IPs sans) then true
        else
          match certutil_CertsFromFile w caCertFile with
          | Err _ => false
          | Ok [] => false
          | Ok (ca0 :: _) => negb (bool_decide (AuthorityKeyId cert0 = SubjectKeyId ca0))
          end
  end.

(** [certs[0]]: indexing an empty slice is a run-time failure. *)
Definition index0 {A} (l : list A) : M A :=
  match l with
  | a :: _ => ret a
  | [] => fail (ErrData "index out of range")
  end.

Definition createClientCertKey (regen : bool) (commonName : string)
    (organization : list string) (altNames : option AltNames)
    (extKeyUsage : list ExtKeyUsage)
    (caCertFile caKeyFile certFile keyFile : string) : M bool :=
  regen <- gets (fun w => (regen || expired w certFile
                  || fieldsChanged w certFile commonName organization altNames caCertFile)%bool) ;;
  present <- gets (fun w => exists_ w [certFile; keyFile]) ;;
  if (negb regen && present)%bool then ret false
  else
    caKey <- look (fun w => certutil_PrivateKeyFromFile w caKeyFile) ;;
    caCerts <- look (fun w => certutil_CertsFromFile w caCertFile) ;;
    kb <- certutil_LoadOrGenerateKeyFile keyFile regen ;;
    key <- of_result (certutil_ParsePrivateKeyPEM kb.1) ;;
    let cfg := {| cfg_CommonName := commonName;
                  cfg_Organization := organization;
                  cfg_AltNames := default (mkAltNames [] []) altNames;
                  cfg_Usages := extKeyUsage |} in
    caCert0 <- index0 caCerts ;;
    cert <- certutil_NewSignedCert cfg key caCert0 caKey ;;
    certutil_WriteCert certFile (util_EncodeCertsPEM cert caCerts) ;;;
    ret true.

Definition getSigningCertFactory (regen : bool) (altNames : option AltNames)
    (extKeyUsage : list ExtKeyUsage) (caCertFile caKeyFile : string)
  : string -> list string -> string -> string -> M bool :=
  fun commonName organization certFile keyFile =>
    createClientCertKey regen commonName organization altNames extKeyUsage
                        caCertFile caKeyFile certFile keyFile.

Definition createSigningCertKey (prefix certFile keyFile : string) : M bool :=
  present <- gets (fun w => exists_ w [certFile; keyFile]) ;;
  if present then ret false
  else
    kb <- certutil_LoadOrGenerateKeyFile keyFile false ;;
    caKey <- of_result (certutil_ParsePrivateKeyPEM kb.1) ;;
    now <- time_Now ;;
    let cfg := {| cfg_CommonName := prefix +:+ "-ca@" +:+ pretty now;
                  cfg_Organization := [];
                  cfg_AltNames := mkAltNames [] [];
                  cfg_Usages := [] |} in
    cert <- certutil_NewSelfSignedCACert cfg caKey ;;
    certutil_WriteCert certFile (certutil_EncodeCertPEM cert) ;;;
    ret true.

Definition addSANs (altNames : AltNames) (sans : list string) : AltNames :=
  fold_left (fun (acc : AltNames) san =>
               match net_ParseIP san with
               | None => mkAltNames (an_DNSNames acc ++ [san]) (an_IPs acc)
               | Some ip => mkAltNames (an_DNSNames acc) (an_IPs acc ++ [ip])
               end) sans altNames.

Definition cleanupLegacyCerts (config : Control) : M unit :=
  let legacyCerts := [ClientKubeProxyCert (Runtime config);
                      ClientK3sControllerCert (Runtime config)] in
  fold_right (fun cert (rest : M unit) => fun w =>
                match os_Remove cert w with
                | (Err ErrNotExist, w') => rest w'
                | (Err e, w') => (Err e, w')
                | (Ok _, w') => rest w'
                end) (ret tt) legacyCerts.

Definition genClientCerts (config : Control) : M unit :=
  let runtime := Runtime config in
  regen <- createSigningCertKey (version_Program +:+ "-client")
             (ClientCA runtime) (ClientCAKey runtime) ;;
  certs <- look (fun w => certutil_CertsFromFile w (ClientCA runtime)) ;;
  cert0 <- index0 certs ;;
  certutil_WriteCert (SigningClientCA runtime) (certutil_EncodeCertPEM cert0) ;;;
  let factory := getSigningCertFactory regen None [ExtKeyUsageClientAuth]
                   (ClientCA runtime) (ClientCAKey runtime) in
  let apiEndpoint := "https://" +:+ Loopback config true +:+ ":"
                     +:+ pretty (APIServerPort config) in
  certGen <- factory "system:admin" [user_SystemPrivilegedGroup]
               (ClientAdminCert runtime) (ClientAdminKey runtime) ;;
  (if certGen : bool then
     KubeConfig (KubeConfigAdmin runtime) apiEndpoint (ServerCA runtime)
                (ClientAdminCert runtime) (ClientAdminKey runtime)
   else ret tt) ;;;
  certGen <- factory ("system:" +:+ version_Program +:+ "-supervisor")
               [user_SystemPrivilegedGroup]
               (ClientSupervisorCert runtime) (ClientSupervisorKey runtime) ;;
  (if certGen : bool then
     KubeConfig (KubeConfigSupervisor runtime) apiEndpoint (ServerCA runtime)
                (ClientSupervisorCert runtime) (ClientSupervisorKey runtime)
   else ret tt) ;;;
  certGen <- factory user_KubeControllerManager []
               (ClientControllerCert runtime) (ClientControllerKey runtime) ;;
  (if certGen : bool then
     KubeConfig (KubeConfigController runtime) apiEndpoint (ServerCA runtime)
                (ClientControllerCert runtime) (ClientControllerKey runtime)
   else ret tt) ;;;
  certGen <- factory user_KubeScheduler []
               (ClientSchedulerCert runtime) (ClientSchedulerKey runtime) ;;
  (if certGen : bool then
     KubeConfig (KubeConfigScheduler runtime) apiEndpoint (ServerCA runtime)
                (ClientSchedulerCert runtime) (ClientSchedulerKey runtime)
   else ret tt) ;;;
  certGen <- factory user_APIServerUser [user_SystemPrivilegedGroup]
               (ClientKubeAPICert runtime) (ClientKubeAPIKey runtime) ;;
  (if certGen : bool then
     KubeConfig (KubeConfigAPIServer runtime) apiEndpoint (ServerCA runtime)
                (ClientKubeAPICert runtime) (ClientKubeAPIKey runtime)
   else ret tt) ;;;
  certutil_LoadOrGenerateKeyFile (ClientKubeProxyKey runtime) regen ;;;
  certutil_LoadOrGenerateKeyFile (ClientK3sControllerKey runtime) regen ;;;
  certutil_LoadOrGenerateKeyFile (ClientKubeletKey runtime) regen ;;;
  certGen <- factory (version_Program +:+ "-cloud-controller-manager") []
               (ClientCloudControllerCert runtime) (ClientCloudControllerKey runtime) ;;
  (if certGen : bool then
     KubeConfig (KubeConfigCloudController runtime) apiEndpoint (ServerCA runtime)
                (ClientCloudControllerCert runtime) (ClientCloudControllerKey runtime)
   else ret tt) ;;;
  ret tt.

Definition createServerSigningCertKey (config : Control) : M bool :=
  let runtime := Runtime config in
  let TokenCA := filepath_Join [DataDir config; "tls"; "token-ca.crt"] in
  let TokenCAKey := filepath_Join [DataDir config; "tls"; "token-ca.key"] in
  legacy <- gets (fun w => (exists_ w [TokenCA; TokenCAKey]
                            && negb (exists_ w [ServerCA runtime])
                            && negb (exists_ w [ServerCAKey runtime]))%bool) ;;
  if legacy then
    os_Link TokenCA (ServerCA runtime) ;;;
    os_Link TokenCAKey (ServerCAKey runtime) ;;;
    ret true
  else
    regen <- createSigningCertKey (version_Program +:+ "-server")
               (ServerCA runtime) (ServerCAKey runtime) ;;
    certs <- look (fun w => certutil_CertsFromFile w (ServerCA runtime)) ;;
    cert0 <- index0 certs ;;
    certutil_WriteCert (SigningServerCA runtime) (certutil_EncodeCertPEM cert0) ;;;
    ret regen.

Definition genServerCerts (config : Control) : M unit :=
  let runtime := Runtime config in
  regen <- createServerSigningCertKey config ;;
  let altNames := mkAltNames ["kubernetes"; "kubernetes.default"; "kubernetes.default.svc";
                              "kubernetes.default.svc." +:+ ClusterDomain config] [] in
  let altNames := addSANs altNames (SANs config) in
  createClientCertKey regen "kube-apiserver" [] (Some altNames) [ExtKeyUsageServerAuth]
    (ServerCA runtime) (ServerCAKey runtime)
    (ServingKubeAPICert runtime) (ServingKubeAPIKey runtime) ;;;
  certutil_LoadOrGenerateKeyFile (ServingKubeletKey runtime) regen ;;;
  let altNames := addSANs (mkAltNames [] []) ["localhost"; "127.0.0.1"; "::1"] in
  createClientCertKey regen "kube-scheduler" [] (Some altNames) [ExtKeyUsageServerAuth]
    (ServerCA runtime) (ServerCAKey runtime)
    (ServingKubeSchedulerCert runtime) (ServingKubeSchedulerKey runtime) ;;;
  createClientCertKey regen "kube-controller-manager" [] (Some altNames) [ExtKeyUsageServerAuth]
    (ServerCA runtime) (ServerCAKey runtime)
    (ServingKubeControllerCert runtime) (ServingKubeControllerKey runtime) ;;;
  ret tt.

Definition genETCDCerts (config : Control) : M unit :=
  let runtime := Runtime config in
  regen <- createSigningCertKey "etcd-server" (ETCDServerCA runtime) (ETCDServerCAKey runtime) ;;
  let altNames := mkAltNames ["kine.sock"] [] in
  let altNames := addSANs altNames (SANs config) in
  createClientCertKey regen "etcd-client" [] None [ExtKeyUsageClientAuth]
    (ETCDServerCA runtime) (ETCDServerCAKey runtime)
    (ClientETCDCert runtime) (ClientETCDKey runtime) ;;;
  regen <- createSigningCertKey "etcd-peer" (ETCDPeerCA runtime) (ETCDPeerCAKey runtime) ;;
  createClientCertKey regen "etcd-peer" [] (Some altNames)
    [ExtKeyUsageServerAuth; ExtKeyUsageClientAuth]
    (ETCDPeerCA runtime) (ETCDPeerCAKey runtime)
    (PeerServerClientETCDCert runtime) (PeerServerClientETCDKey runtime) ;;;
  if DisableETCD config then ret tt
  else
    createClientCertKey regen "etcd-server" [] (Some altNames)
      [ExtKeyUsageServerAuth; ExtKeyUsageClientAuth]
      (ETCDServerCA runtime) (ETCDServerCAKey runtime)
      (ServerETCDCert runtime) (ServerETCDKey runtime) ;;;
    ret tt.

Definition genRequestHeaderCerts (config : Control) : M unit :=
  let runtime := Runtime config in
  regen <- createSigningCertKey (version_Program +:+ "-request-header")
             (RequestHeaderCA runtime) (RequestHeaderCAKey runtime) ;;
  createClientCertKey regen RequestHeaderCN [] None [ExtKeyUsageClientAuth]
    (RequestHeaderCA runtime) (RequestHeaderCAKey runtime)
    (ClientAuthProxyCert runtime) (ClientAuthProxyKey runtime) ;;;
  ret tt.

Definition genCerts (config : Control) : M unit :=
  genClientCerts config ;;;
  genServerCerts config ;;;
  genRequestHeaderCerts config ;;;
  genETCDCerts config.

Definition genServiceAccount (runtime : ControlRuntime) : M unit :=
  st <- gets (fun w => os_Stat w (ServiceKey runtime)) ;;
  match st with
  | Ok _ => ret tt
  | Err ErrNotExist =>
      key <- certutil_NewPrivateKey ;;
      certutil_WriteKey (ServiceKey runtime) (certutil_EncodePrivateKeyPEM key)
  | Err e => fail e
  end ;;;
  key <- look (fun w => certutil_PrivateKeyFromFile w (ServiceKey runtime)) ;;
  let keyData := certutil_EncodePrivateKeyPEM key in
  certutil_WriteKey (ServiceCurrentKey runtime) keyData.

(** The provider list that [genEncryptionConfigAndState] builds around the new key. *)
Definition encryption_providers (provider : string) (newKey : list Key)
  : list ProviderConfiguration :=
  if decide (provider = secretsencrypt_AESCBCProvider) then
    [ {| AESCBC := Some newKey; Secretbox := None; Identity := None |};
      {| AESCBC := None; Secretbox := None; Identity := Some tt |} ]
  else if decide (provider = secretsencrypt_SecretBoxProvider) then
    [ {| AESCBC := None; Secretbox := Some newKey; Identity := None |};
      {| AESCBC := None; Secretbox := None; Identity := Some tt |} ]
  else [].

Definition encryption_hash (b : string) : string :=
  "start-" +:+ hex_EncodeToString (sha256_Sum256 b).

Definition genEncryptionConfigAndState (controlConfig : Control) : M unit :=
  let runtime := Runtime controlConfig in
  if negb (EncryptSecrets controlConfig) then ret tt
  else
    keyName <- (if decide (EncryptProvider controlConfig = secretsencrypt_AESCBCProvider)
                then ret "aescbckey"
                else if decide (EncryptProvider controlConfig = secretsencrypt_SecretBoxProvider)
                then ret "secretboxkey"
                else fail (ErrConfig ("unsupported secrets-encryption-key-type "
                                      +:+ EncryptProvider controlConfig))) ;;
    present <- gets (fun w => stat_nonempty w (EncryptionConfig runtime)) ;;
    if present then
      st <- gets (fun w => os_Stat w (EncryptionHash runtime)) ;;
      match st with
      | Err ErrNotExist =>
          curEncryptionByte <- look (fun w => os_ReadFile w (EncryptionConfig runtime)) ;;
          let ann := encryption_hash curEncryptionByte in
          os_WriteFile (EncryptionHash (Runtime controlConfig)) (FText ann)
      | _ => ret tt
      end
    else
      keyByte <- rand_Read secretsencrypt_KeySize ;;
      let newKey := [ {| Name := keyName; Secret := base64_EncodeToString keyByte |} ] in
      let provider := encryption_providers (EncryptProvider controlConfig) newKey in
      let encConfig :=
        {| ec_Kind := "EncryptionConfiguration";
           ec_APIVersion := "apiserver.config.k8s.io/v1";
           ec_Resources := [ {| rc_Resources := ["secrets"]; rc_Providers := provider |} ] |} in
      let b := json_Marshal_encryption encConfig in
      util_AtomicWrite (EncryptionConfig runtime) (FText b) ;;;
      let ann := encryption_hash b in
      os_WriteFile (EncryptionHash (Runtime controlConfig)) (FText ann).

Definition genEgressSelectorConfig (controlConfig : Control) : M unit :=
  let clusterConn :=
    match EgressSelectorMode_ controlConfig with
    | EgressSelectorModeDisabled =>
        {| conn_ProxyProtocol := ProtocolDirect; conn_Transport := None |}
    | _ =>
        {| conn_ProxyProtocol := ProtocolHTTPConnect;
           conn_Transport := Some
             {| tcp_URL := "https://" +:+ BindAddressOrLoopback controlConfig false true
                           +:+ ":" +:+ pretty (SupervisorPort controlConfig);
                tls_CABundle := ServerCA (Runtime controlConfig);
                tls_ClientKey := ClientKubeAPIKey (Runtime controlConfig);
                tls_ClientCert := ClientKubeAPICert (Runtime controlConfig) |} |}
    end in
  let egressConfig :=
    {| esc_Kind := "EgressSelectorConfiguration";
       esc_APIVersion := "apiserver.k8s.io/v1beta1";
       esc_EgressSelections := [ {| es_Name := "cluster"; es_Connection := clusterConn |} ] |} in
  let b := json_Marshal_egress egressConfig in
  os_WriteFile (EgressSelectorConfig (Runtime controlConfig)) (FText b).

Definition genCloudConfig (controlConfig : Control) : M unit :=
  let cloudConfig :=
    {| LBDefaultPriorityClassName := cloudprovider_DefaultLBPriorityClassName;
       LBEnabled := negb (DisableServiceLB controlConfig);
       LBNamespace := ServiceLBNamespace controlConfig;
       LBImage := if decide (SystemDefaultRegistry controlConfig = "")
                  then cloudprovider_DefaultLBImage
                  else SystemDefaultRegistry controlConfig +:+ "/"
                       +:+ cloudprovider_DefaultLBImage;
       cc_Rootless := Rootless controlConfig;
       NodeEnabled := negb (DisableCCM controlConfig) |} in
  let b := json_Marshal_cloud cloudConfig in
  os_WriteFile (CloudControllerConfig (Runtime controlConfig)) (FText b).

(** [GenServerDeps] generates the cluster dependencies needed to bootstrap a
    cluster. *)
Definition GenServerDeps (config : Control) : M unit :=
  let runtime := Runtime config in
  cleanupLegacyCerts config ;;;
  genCerts config ;;;
  genServiceAccount runtime ;;;
  genUsers config ;;;
  genEncryptedNetworkInfo config ;;;
  genEncryptionConfigAndState config ;;;
  genEgressSelectorConfig config ;;;
  genCloudConfig config ;;;
  readTokens runtime.


(** ** Vocabulary of the specification *)

(** The provider entry for the chosen symmetric provider, and the
    pass-through entry that follows it. *)
Definition chosen_provider (provider : string) (keys : list Key) : ProviderConfiguration :=
  if decide (provider = secretsencrypt_AESCBCProvider)
  then {| AESCBC := Some keys; Secretbox := None; Identity := None |}
  else {| AESCBC := None; Secretbox := Some keys; Identity := None |}.

Definition identity_provider : ProviderConfiguration :=
  {| AESCBC := None; Secretbox := None; Identity := Some tt |}.

Definition encryption_document (providers : list ProviderConfiguration)
  : EncryptionConfiguration :=
  {| ec_Kind := "EncryptionConfiguration";
     ec_APIVersion := "apiserver.config.k8s.io/v1";
     ec_Resources := [ {| rc_Resources := ["secrets"]; rc_Providers := providers |} ] |}.

(** The paths a run added to the log of writes. *)
Definition written (w w' : World) (delta : list string) : Prop :=
  wlog w' = (delta ++ wlog w)%list.


(** Hard links: two paths with the same inode are the same path, or both are
    among the paths [L]. *)
Definition separated (L : list string) (w : World) : Prop :=
  forall p q f g,
    files w !! p = Some f -> files w !! q = Some g -> f.1 = g.1 ->
    p = q \/ (p ∈ L /\ q ∈ L).

(** What a run from [w] to [w'] did at most, when it opens only paths of [W]
    for writing and removes nothing: the operating system refuses the same
    paths, the clock shows the same time, the log grew by paths of [W], no
    file disappeared, and among files without foreign hard links every file
    outside [W] is as it was. *)
Definition touched (L W : list string) (w w' : World) : Prop :=
  denied w' = denied w
  /\ clock w' = clock w
  /\ (exists delta, written w w' delta /\ forall p, p ∈ delta -> p ∈ W)
  /\ (forall p, is_Some (files w !! p) -> is_Some (files w' !! p))
  /\ (separated L w ->
      separated L w' /\ forall q, q ∉ W -> files w' !! q = files w !! q).

Definition touches {A} (L W : list string) (m : M A) : Prop :=
  forall w r w', m w = (r, w') -> touched L W w w'.

(** Hoare triples with a postcondition for a result and one for an error. *)
Definition hoare {A} (P : World -> Prop) (m : M A)
    (Q : A -> World -> Prop) (E : World -> Prop) : Prop :=
  forall w r w', P w -> m w = (r, w') ->
    match r with Ok a => Q a w' | Err _ => E w' end.

(** The paths below a data directory with the given remainders. *)
Definition under (d : string) (l : list string) : list string :=
  map (String.append d) l.

Definition mem (s : string) (l : list string) : bool := existsb (String.eqb s) l.
Definition disjointb (l1 l2 : list string) : bool :=
  forallb (fun s => negb (mem s l2)) l1.

(** A leaf certificate that the factory leaves alone when it is called
    without the regeneration flag. *)
Definition leaf_settled (w : World) (cn : string) (org : list string)
    (sans : option AltNames) (ca cert key : string) : Prop :=
  expired w cert = false
  /\ fieldsChanged w cert cn org sans ca = false
  /\ exists_ w [cert; key] = true.

(** A key file that [LoadOrGenerateKeyFile] returns as it is. *)
Definition key_loads (w : World) (p : string) : Prop :=
  exists d, read_data w p = Ok d /\ is_Ok (certutil_ParsePrivateKeyPEM d) = true.

(** Two worlds show the same at a path. *)
Definition same_at (p : string) (w w' : World) : Prop :=
  denied w' = denied w /\ files w' !! p = files w !! p.

(** *** What a finished bootstrap has established

    A fact about the files of the data directory [d]; its paths are given by
    their remainder below [d]. *)
Inductive Fact : Type :=
| FExists (ps : list string)
| FCerts (p : string)
| FCertsUnless (b : bool) (p : string)
| FLeaf (cn : string) (org : list string) (sans : option AltNames) (ca cert key : string)
| FKey (p : string)
| FWritable (p : string)
| FAbsent (p : string)
| FNonEmpty (p : string)
| FStatKnown (p : string)
| FTable (p : string)
| FPure (P : Prop).

Definition has_certs (w : World) (p : string) : Prop :=
  exists c cs, certutil_CertsFromFile w p = Ok (c :: cs).

Definition holds (d : string) (f : Fact) (w : World) : Prop :=
  match f with
  | FExists ps => exists_ w (under d ps) = true
  | FCerts p => has_certs w (d +:+ p)
  | FCertsUnless b p => b = false -> has_certs w (d +:+ p)
  | FLeaf cn org sans ca cert key =>
      leaf_settled w cn org sans (d +:+ ca) (d +:+ cert) (d +:+ key)
  | FKey p => key_loads w (d +:+ p)
  | FWritable p => d +:+ p ∉ denied w
  | FAbsent p => lookup_path w (d +:+ p) = Err ErrNotExist
  | FNonEmpty p => stat_nonempty w (d +:+ p) = true
  | FStatKnown p => os_Stat w (d +:+ p) <> Err ErrNotExist
  | FTable p => is_Ok (passwd_Read w (d +:+ p)) = true
  | FPure P => P
  end.

(** The paths a fact depends on. *)
Definition footprint (f : Fact) : list string :=
  match f with
  | FExists ps => ps
  | FCerts p => [p]
  | FCertsUnless _ p => [p]
  | FLeaf _ _ _ ca cert key => [ca; cert; key]
  | FKey p => [p]
  | FWritable _ => []
  | FAbsent p => [p]
  | FNonEmpty p => [p]
  | FStatKnown p => [p]
  | FTable p => [p]
  | FPure _ => []
  end.

Definition settled (d : string) (F : list Fact) (w : World) : Prop :=
  Forall (fun f => holds d f w) F.

Definition clear_of (F : list Fact) (W : list string) : bool :=
  forallb (fun f => disjointb (footprint f) W) F.

Definition inv (d : string) (L : list string) (F : list Fact) (w : World) : Prop :=
  separated (under d L) w /\ settled d F w.

(** The four paths that the legacy upgrade of the server CA links in pairs. *)
Definition legacy_links : list string :=
  ["/tls/token-ca.crt"; "/tls/token-ca.key"; "/tls/server-ca.crt"; "/tls/server-ca.key"].

(** The world a run leaves, seen by the next start of the process: the log of
    writes starts empty again. *)
Definition restart (w : World) : World :=
  mkWorld (files w) (denied w) (clock w) (entropy w) (rpos w) []
          (IPSECPSK w) (rt_AgentToken w) (rt_ServerToken w).

(** The files that every run writes again. *)
Definition rewritten : list string :=
  ["/tls/client-ca.nochain.crt"; "/tls/server-ca.nochain.crt";
   "/tls/service.current.key"; "/cred/passwd";
   "/etc/egress-selector-config.yaml"; "/etc/cloud-config.yaml"].

(** What a finished bootstrap with configuration [c] has established. *)
Definition bootstrap_facts (c : Control) : list Fact :=
  [FWritable "/etc/cloud-config.yaml";
   FWritable "/etc/egress-selector-config.yaml"]
  ++ (if EncryptSecrets c
      then [FPure (EncryptProvider c = secretsencrypt_AESCBCProvider
                   \/ EncryptProvider c = secretsencrypt_SecretBoxProvider);
            FNonEmpty "/cred/encryption-config.json";
            FStatKnown "/cred/encryption-state.json"]
      else [])
  ++ [FNonEmpty "/cred/ipsec.psk";
      FTable "/cred/passwd";
      FKey "/tls/service.key";
      FWritable "/tls/service.current.key"]
  ++ (if DisableETCD c then []
      else [FLeaf "etcd-server" []
              (Some (addSANs (mkAltNames ["kine.sock"] []) (SANs c)))
              "/tls/etcd/server-ca.crt" "/tls/etcd/server-client.crt"
              "/tls/etcd/server-client.key"])
  ++ [FLeaf "etcd-peer" []
        (Some (addSANs (mkAltNames ["kine.sock"] []) (SANs c)))
        "/tls/etcd/peer-ca.crt" "/tls/etcd/peer-server-client.crt"
        "/tls/etcd/peer-server-client.key";
      FExists ["/tls/etcd/peer-ca.crt"; "/tls/etcd/peer-ca.key"];
      FLeaf "etcd-client" [] None "/tls/etcd/server-ca.crt"
        "/tls/etcd/client.crt" "/tls/etcd/client.key";
      FExists ["/tls/etcd/server-ca.crt"; "/tls/etcd/server-ca.key"];
      FLeaf RequestHeaderCN [] None "/tls/request-header-ca.crt"
        "/tls/client-auth-proxy.crt" "/tls/client-auth-proxy.key";
      FExists ["/tls/request-header-ca.crt"; "/tls/request-header-ca.key"];
      FLeaf "kube-controller-manager" []
        (Some (addSANs (mkAltNames [] []) ["localhost"; "127.0.0.1"; "::1"]))
        "/tls/server-ca.crt"
        "/tls/kube-controller-manager/kube-controller-manager.crt"
        "/tls/kube-controller-manager/kube-controller-manager.key";
      FLeaf "kube-scheduler" []
        (Some (addSANs (mkAltNames [] []) ["localhost"; "127.0.0.1"; "::1"]))
        "/tls/server-ca.crt" "/tls/kube-scheduler/kube-scheduler.crt"
        "/tls/kube-scheduler/kube-scheduler.key";
      FKey "/tls/serving-kubelet.key";
      FLeaf "kube-apiserver" []
        (Some (addSANs (mkAltNames ["kubernetes"; "kubernetes.default";
                                    "kubernetes.default.svc";
                                    "kubernetes.default.svc." +:+ ClusterDomain c] [])
                       (SANs c)))
        "/tls/server-ca.crt" "/tls/serving-kube-apiserver.crt"
        "/tls/serving-kube-apiserver.key";
      FCerts "/tls/server-ca.crt";
      FExists ["/tls/server-ca.crt"; "/tls/server-ca.key"];
      FLeaf (version_Program +:+ "-cloud-controller-manager") [] None "/tls/client-ca.crt"
        "/tls/client-k3s-cloud-controller.crt" "/tls/client-k3s-cloud-controller.key";
      FKey "/tls/client-kubelet.key";
      FKey "/tls/client-k3s-controller.key";
      FKey "/tls/client-kube-proxy.key";
      FLeaf user_APIServerUser [user_SystemPrivilegedGroup] None
        "/tls/client-ca.crt" "/tls/client-kube-apiserver.crt" "/tls/client-kube-apiserver.key";
      FLeaf user_KubeScheduler [] None "/tls/client-ca.crt"
        "/tls/client-scheduler.crt" "/tls/client-scheduler.key";
      FLeaf user_KubeControllerManager [] None "/tls/client-ca.crt"
        "/tls/client-controller.crt" "/tls/client-controller.key";
      FLeaf ("system:" +:+ version_Program +:+ "-supervisor") [user_SystemPrivilegedGroup] None
        "/tls/client-ca.crt" "/tls/client-supervisor.crt" "/tls/client-supervisor.key";
      FLeaf "system:admin" [user_SystemPrivilegedGroup] None
        "/tls/client-ca.crt" "/tls/client-admin.crt" "/tls/client-admin.key";
      FWritable "/tls/client-ca.nochain.crt";
      FCerts "/tls/client-ca.crt";
      FExists ["/tls/client-ca.crt"; "/tls/client-ca.key"];
      FAbsent "/tls/client-k3s-controller.crt";
      FAbsent "/tls/client-kube-proxy.crt"].

(** The same files, by their names in the runtime. *)
Definition rewritten_paths (runtime : ControlRuntime) : list string :=
  [SigningClientCA runtime; SigningServerCA runtime; ServiceCurrentKey runtime;
   PasswdFile runtime; EgressSelectorConfig runtime; CloudControllerConfig runtime].

(** The state of a later run: the facts of the finished bootstrap hold, and
    since the world [w0] at its start only files of [rewritten] were opened
    for writing. *)
Definition quiet (d : string) (F : list Fact) (w0 w : World) : Prop :=
  inv d legacy_links F w
  /\ touched (under d legacy_links) (under d rewritten) w0 w.

(** A later run fails only where the single-certificate copy of the server
    CA cannot be written. *)
Definition quiet_err (d : string) (w0 w : World) : Prop :=
  touched (under d legacy_links) (under d rewritten) w0 w
  /\ d +:+ "/tls/server-ca.nochain.crt" ∈ denied w.

(** *** The kubeconfig of a client role

    The client roles that have a kubeconfig, each with its certificate and its
    kubeconfig: as fields of the runtime, and as remainders below the data
    directory. *)
Definition kubeconfig_roles (runtime : ControlRuntime) : list (string * string) :=
  [(ClientAdminCert runtime, KubeConfigAdmin runtime);
   (ClientSupervisorCert runtime, KubeConfigSupervisor runtime);
   (ClientControllerCert runtime, KubeConfigController runtime);
   (ClientSchedulerCert runtime, KubeConfigScheduler runtime);
   (ClientKubeAPICert runtime, KubeConfigAPIServer runtime);
   (ClientCloudControllerCert runtime, KubeConfigCloudController runtime)].

Definition kubeconfig_remainders : list (string * string) :=
  [("/tls/client-admin.crt", "/cred/admin.kubeconfig");
   ("/tls/client-supervisor.crt", "/cred/supervisor.kubeconfig");
   ("/tls/client-controller.crt", "/cred/controller.kubeconfig");
   ("/tls/client-scheduler.crt", "/cred/scheduler.kubeconfig");
   ("/tls/client-kube-apiserver.crt", "/cred/api-server.kubeconfig");
   ("/tls/client-k3s-cloud-controller.crt", "/cred/cloud-controller.kubeconfig")].

(** The files [genClientCerts] may open for writing. *)
Definition client_files : list string :=
  ["/tls/client-ca.crt"; "/tls/client-ca.key"; "/tls/client-ca.nochain.crt";
   "/tls/client-admin.crt"; "/tls/client-admin.key"; "/cred/admin.kubeconfig";
   "/tls/client-supervisor.crt"; "/tls/client-supervisor.key";
   "/cred/supervisor.kubeconfig";
   "/tls/client-controller.crt"; "/tls/client-controller.key";
   "/cred/controller.kubeconfig";
   "/tls/client-scheduler.crt"; "/tls/client-scheduler.key"; "/cred/scheduler.kubeconfig";
   "/tls/client-kube-apiserver.crt"; "/tls/client-kube-apiserver.key";
   "/cred/api-server.kubeconfig";
   "/tls/client-kube-proxy.key"; "/tls/client-k3s-controller.key";
   "/tls/client-kubelet.key";
   "/tls/client-k3s-cloud-controller.crt"; "/tls/client-k3s-cloud-controller.key";
   "/cred/cloud-controller.kubeconfig"].

Definition besides (a b : string) (l : list string) : list string :=
  List.filter (fun s => negb (String.eqb s a || String.eqb s b)) l.

(** The states of a run with respect to one role, since the world [w0]: the
    role has not been reached or its certificate was kept; the certificate was
    issued; the certificate was issued and the kubeconfig written. *)
Definition role_idle (d : string) (l : list string) (w0 w : World) : Prop :=
  touched (under d []) (under d l) w0 w.

Definition role_issued (d cs ks : string) (w0 w : World) : Prop :=
  exists delta, written w0 w delta /\ d +:+ cs ∈ delta /\ d +:+ ks ∉ delta.

Definition role_done (d cs ks : string) (w0 w : World) : Prop :=
  exists delta, written w0 w delta /\ d +:+ cs ∈ delta /\ d +:+ ks ∈ delta.

Definition role_post (d cs ks : string) (l : list string) (w0 : World) (ok : bool)
    (w : World) : Prop :=
  exists delta,
    written w0 w delta
    /\ (d +:+ ks ∈ delta -> d +:+ cs ∈ delta)
    /\ (ok = true -> d +:+ cs ∈ delta -> d +:+ ks ∈ delta)
    /\ (d +:+ cs ∉ delta -> touched (under d []) (under d l) w0 w).

(** *** Vocabulary of the further properties *)

(** The file names that [CreateRuntimeCertFiles] always sets. *)
Definition runtime_files (runtime : ControlRuntime) : list string :=
  [ClientCA runtime; ClientCAKey runtime; ServerCA runtime; ServerCAKey runtime;
   RequestHeaderCA runtime; RequestHeaderCAKey runtime; IPSECKey runtime;
   ServiceKey runtime; PasswdFile runtime; NodePasswdFile runtime;
   SigningClientCA runtime; SigningServerCA runtime; ServiceCurrentKey runtime;
   KubeConfigAdmin runtime; KubeConfigSupervisor runtime; KubeConfigController runtime;
   KubeConfigScheduler runtime; KubeConfigAPIServer runtime;
   KubeConfigCloudController runtime;
   ClientAdminCert runtime; ClientAdminKey runtime;
   ClientSupervisorCert runtime; ClientSupervisorKey runtime;
   ClientControllerCert runtime; ClientControllerKey runtime;
   ClientCloudControllerCert runtime; ClientCloudControllerKey runtime;
   ClientSchedulerCert runtime; ClientSchedulerKey runtime;
   ClientKubeAPICert runtime; ClientKubeAPIKey runtime;
   ClientKubeProxyCert runtime; ClientKubeProxyKey runtime;
   ClientK3sControllerCert runtime; ClientK3sControllerKey runtime;
   ServingKubeAPICert runtime; ServingKubeAPIKey runtime;
   ServingKubeSchedulerCert runtime; ServingKubeSchedulerKey runtime;
   ServingKubeControllerCert runtime; ServingKubeControllerKey runtime;
   ClientKubeletKey runtime; ServingKubeletKey runtime;
   EgressSelectorConfig runtime; CloudControllerConfig runtime;
   ClientAuthProxyCert runtime; ClientAuthProxyKey runtime;
   ETCDServerCA runtime; ETCDServerCAKey runtime; ETCDPeerCA runtime; ETCDPeerCAKey runtime;
   ServerETCDCert runtime; ServerETCDKey runtime;
   PeerServerClientETCDCert runtime; PeerServerClientETCDKey runtime;
   ClientETCDCert runtime; ClientETCDKey runtime].

(** The same names as remainders below the data directory. *)
Definition runtime_remainders : list string :=
  ["/tls/client-ca.crt"; "/tls/client-ca.key"; "/tls/server-ca.crt"; "/tls/server-ca.key";
   "/tls/request-header-ca.crt"; "/tls/request-header-ca.key"; "/cred/ipsec.psk";
   "/tls/service.key"; "/cred/passwd"; "/cred/node-passwd"; "/tls/client-ca.nochain.crt";
   "/tls/server-ca.nochain.crt"; "/tls/service.current.key"; "/cred/admin.kubeconfig";
   "/cred/supervisor.kubeconfig"; "/cred/controller.kubeconfig";
   "/cred/scheduler.kubeconfig"; "/cred/api-server.kubeconfig";
   "/cred/cloud-controller.kubeconfig"; "/tls/client-admin.crt"; "/tls/client-admin.key";
   "/tls/client-supervisor.crt"; "/tls/client-supervisor.key";
   "/tls/client-controller.crt"; "/tls/client-controller.key";
   "/tls/client-k3s-cloud-controller.crt"; "/tls/client-k3s-cloud-controller.key";
   "/tls/client-scheduler.crt"; "/tls/client-scheduler.key";
   "/tls/client-kube-apiserver.crt"; "/tls/client-kube-apiserver.key";
   "/tls/client-kube-proxy.crt"; "/tls/client-kube-proxy.key";
   "/tls/client-k3s-controller.crt"; "/tls/client-k3s-controller.key";
   "/tls/serving-kube-apiserver.crt"; "/tls/serving-kube-apiserver.key";
   "/tls/kube-scheduler/kube-scheduler.crt"; "/tls/kube-scheduler/kube-scheduler.key";
   "/tls/kube-controller-manager/kube-controller-manager.crt";
   "/tls/kube-controller-manager/kube-controller-manager.key"; "/tls/client-kubelet.key";
   "/tls/serving-kubelet.key"; "/etc/egress-selector-config.yaml";
   "/etc/cloud-config.yaml"; "/tls/client-auth-proxy.crt"; "/tls/client-auth-proxy.key";
   "/tls/etcd/server-ca.crt"; "/tls/etcd/server-ca.key"; "/tls/etcd/peer-ca.crt";
   "/tls/etcd/peer-ca.key"; "/tls/etcd/server-client.crt"; "/tls/etcd/server-client.key";
   "/tls/etcd/peer-server-client.crt"; "/tls/etcd/peer-server-client.key";
   "/tls/etcd/client.crt"; "/tls/etcd/client.key"].

(** A string without white space. *)
Fixpoint no_space (s : string) : bool :=
  match s with
  | EmptyString => true
  | String a rest => (negb (is_space a) && no_space rest)%bool
  end.

(** What a run from [w] to [w'] did at most, whatever hard links there are:
    the operating system refuses the same paths, the clock shows the same
    time, the log grew by paths of [W] and no file disappeared. *)
Definition confined (W : list string) (w w' : World) : Prop :=
  denied w' = denied w
  /\ clock w' = clock w
  /\ (exists delta, written w w' delta /\ forall p, p ∈ delta -> p ∈ W)
  /\ (forall p, is_Some (files w !! p) -> is_Some (files w' !! p)).

Definition confines {A} (W : list string) (m : M A) : Prop :=
  forall w r w', m w = (r, w') -> confined W w w'.

(** The remainders of the files that a bootstrap may open for writing: the
    files of the runtime without the credentials of the nodes and the two
    legacy certificates, and the two encryption files when secrets are
    encrypted. *)
Definition bootstrap_remainders (encrypt : bool) : list string :=
  ((if encrypt then ["/cred/encryption-config.json"; "/cred/encryption-state.json"]
    else [])
   ++ List.filter (fun s => negb (mem s ["/cred/node-passwd"; "/tls/client-kube-proxy.crt";
                                         "/tls/client-k3s-controller.crt"]))
        runtime_remainders)%list.

(** The files with the given remainders below [d] can all be stat'ed. *)
Definition present (d : string) (F : list string) (w : World) : Prop :=
  exists_ w (under d F) = true.

(** The remainders of the files that are there after every successful
    bootstrap; the certificate of the etcd server only when etcd is not
    disabled.  The kubeconfig files, the single-certificate copy of the server
    CA and the encryption files are not among them. *)
Definition pki_remainders (etcd : bool) : list string :=
  (["/tls/client-ca.crt"; "/tls/client-ca.key"; "/tls/client-ca.nochain.crt";
    "/tls/client-admin.crt"; "/tls/client-admin.key";
    "/tls/client-supervisor.crt"; "/tls/client-supervisor.key";
    "/tls/client-controller.crt"; "/tls/client-controller.key";
    "/tls/client-scheduler.crt"; "/tls/client-scheduler.key";
    "/tls/client-kube-apiserver.crt"; "/tls/client-kube-apiserver.key";
    "/tls/client-kube-proxy.key"; "/tls/client-k3s-controller.key";
    "/tls/client-kubelet.key";
    "/tls/client-k3s-cloud-controller.crt"; "/tls/client-k3s-cloud-controller.key";
    "/tls/server-ca.crt"; "/tls/server-ca.key";
    "/tls/serving-kube-apiserver.crt"; "/tls/serving-kube-apiserver.key";
    "/tls/serving-kubelet.key";
    "/tls/kube-scheduler/kube-scheduler.crt"; "/tls/kube-scheduler/kube-scheduler.key";
    "/tls/kube-controller-manager/kube-controller-manager.crt";
    "/tls/kube-controller-manager/kube-controller-manager.key";
    "/tls/request-header-ca.crt"; "/tls/request-header-ca.key";
    "/tls/client-auth-proxy.crt"; "/tls/client-auth-proxy.key";
    "/tls/etcd/server-ca.crt"; "/tls/etcd/server-ca.key";
    "/tls/etcd/client.crt"; "/tls/etcd/client.key";
    "/tls/etcd/peer-ca.crt"; "/tls/etcd/peer-ca.key";
    "/tls/etcd/peer-server-client.crt"; "/tls/etcd/peer-server-client.key";
    "/tls/service.key"; "/tls/service.current.key";
    "/cred/passwd"; "/cred/ipsec.psk";
    "/etc/egress-selector-config.yaml"; "/etc/cloud-config.yaml"]
   ++ (if etcd then ["/tls/etcd/server-client.crt"; "/tls/etcd/server-client.key"]
       else []))%list.

(** The same files by their names in the runtime. *)
Definition bootstrap_products (runtime : ControlRuntime) (etcd : bool) : list string :=
  ([ClientCA runtime; ClientCAKey runtime; SigningClientCA runtime;
    ClientAdminCert runtime; ClientAdminKey runtime;
    ClientSupervisorCert runtime; ClientSupervisorKey runtime;
    ClientControllerCert runtime; ClientControllerKey runtime;
    ClientSchedulerCert runtime; ClientSchedulerKey runtime;
    ClientKubeAPICert runtime; ClientKubeAPIKey runtime;
    ClientKubeProxyKey runtime; ClientK3sControllerKey runtime;
    ClientKubeletKey runtime;
    ClientCloudControllerCert runtime; ClientCloudControllerKey runtime;
    ServerCA runtime; ServerCAKey runtime;
    ServingKubeAPICert runtime; ServingKubeAPIKey runtime;
    ServingKubeletKey runtime;
    ServingKubeSchedulerCert runtime; ServingKubeSchedulerKey runtime;
    ServingKubeControllerCert runtime; ServingKubeControllerKey runtime;
    RequestHeaderCA runtime; RequestHeaderCAKey runtime;
    ClientAuthProxyCert runtime; ClientAuthProxyKey runtime;
    ETCDServerCA runtime; ETCDServerCAKey runtime;
    ClientETCDCert runtime; ClientETCDKey runtime;
    ETCDPeerCA runtime; ETCDPeerCAKey runtime;
    PeerServerClientETCDCert runtime; PeerServerClientETCDKey runtime;
    ServiceKey runtime; ServiceCurrentKey runtime;
    PasswdFile runtime; IPSECKey runtime;
    EgressSelectorConfig runtime; CloudControllerConfig runtime]
   ++ (if etcd then [ServerETCDCert runtime; ServerETCDKey runtime] else []))%list.

End Deps.

(** ** A reference instance of the outside functions and concrete inputs

    Used to run the model on concrete data. *)

Fixpoint split_colon (s : string) : option (string * string) :=
  match s with
  | EmptyString => None
  | String a rest =>
      if Ascii.eqb a ":"%char
      then (if decide (rest = "") then None else Some ("", rest))
      else match split_colon rest with
           | Some (u, p) => Some (String a u, p)
           | None => None
           end
  end.

Definition ref_libs : Libs := {|
  sha256_Sum256 := fun s => s;
  base64_EncodeToString := fun s => s;
  json_Marshal_encryption := fun _ => "{enc}";
  json_Marshal_egress := fun _ => "{egress}";
  json_Marshal_cloud := fun _ => "{cloud}";
  pem_bytes := fun _ => "PEM";
  passwd_bytes := fun _ => "csv";
  key_id := fun k => k;
  net_ParseIP := fun s =>
    if decide (s = "127.0.0.1") then Some s
    else if decide (s = "::1") then Some s else None;
  clientaccess_ParseUsernamePassword := split_colon;
  cert_validity := 365 * 86400;
  ca_validity := 3650 * 86400;
  CertificateRenewDays := 120;
  secretsencrypt_KeySize := 32;
  cloudprovider_DefaultLBPriorityClassName := "system-node-critical";
  cloudprovider_DefaultLBImage := "rancher/klipper-lb"
|}.

Definition no_runtime : ControlRuntime :=
  mkControlRuntime "" "" "" "" "" "" "" "" "" "" "" "" "" "" "" "" "" "" "" ""
    "" "" "" "" "" "" "" "" "" "" "" "" "" "" "" "" "" "" "" "" "" "" "" "" ""
    "" "" "" "" "" "" "" "" "" "" "" "" "" "".

(** A server configuration with data directory [/d]. *)
Definition ex_config (encrypt : bool) (provider : string) : Control :=
  CreateRuntimeCertFiles
    {| DataDir := "/d"; Token := ""; AgentToken := ""; SANs := ["10.0.0.1"; "host"];
       ClusterDomain := "cluster.local"; APIServerPort := 6444; SupervisorPort := 6443;
       DisableETCD := false; EncryptSecrets := encrypt; EncryptProvider := provider;
       EgressSelectorMode_ := EgressSelectorModeDisabled; DisableServiceLB := false;
       ServiceLBNamespace := "kube-system"; Rootless := false; DisableCCM := false;
       SystemDefaultRegistry := "";
       Loopback := fun _ => "127.0.0.1";
       BindAddressOrLoopback := fun _ _ => "127.0.0.1";
       Runtime := no_runtime |}.

Definition ex_entropy (n : nat) : ascii := ascii_of_nat (65 + n mod 26).

(** A world with the given files, nothing denied, an empty log. *)
Definition ex_world (fs : gmap string (nat * FileData)) : World :=
  mkWorld fs ∅ 1000 ex_entropy 0 [] "" "" "".



(** A CA certificate and a leaf with two DNS names, for the examples. *)
Definition ex_ca : Certificate :=
  {| Subject_CommonName := "k3s-server-ca@1"; Subject_Organization := [];
     DNSNames := []; IPAddresses := []; NotAfter := 400000000;
     ExtKeyUsages := []; IsCA := true; SubjectKeyId := "ski-1"; AuthorityKeyId := "" |}.

Definition ex_leaf : Certificate :=
  {| Subject_CommonName := "kube-apiserver"; Subject_Organization := ["o1"; "o2"];
     DNSNames := ["kubernetes"; "extra.example"]; IPAddresses := ["10.0.0.1"];
     NotAfter := 400000000;
     ExtKeyUsages := [ExtKeyUsageServerAuth]; IsCA := false;
     SubjectKeyId := ""; AuthorityKeyId := "ski-1" |}.

(** A data directory that holds a leaf certificate with its key and its CA. *)
Definition ex_world_leaf : World :=
  ex_world (<["/d/tls/leaf.crt" := (1%nat, FPEM [CertBlock ex_leaf; CertBlock ex_ca])]>
            (<["/d/tls/leaf.key" := (2%nat, FPEM [KeyBlock "leaf-key"])]>
             (<["/d/tls/ca.crt" := (3%nat, FPEM [CertBlock ex_ca])]> ∅))).

(** A data directory whose certificate file is not a certificate. *)
Definition ex_world_junk : World :=
  ex_world (<["/d/tls/leaf.crt" := (1%nat, FText "not a certificate")]>
            (<["/d/tls/leaf.key" := (2%nat, FPEM [KeyBlock "leaf-key"])]> ∅)).

(** A data directory of an older version: the server CA under its legacy name. *)
Definition ex_world_legacy : World :=
  ex_world (<["/d/tls/token-ca.crt" := (1%nat, FPEM [CertBlock ex_ca])]>
            (<["/d/tls/token-ca.key" := (2%nat, FPEM [KeyBlock "ca-key"])]> ∅)).

(** A fresh data directory, and the worlds after a first and a second run. *)
Definition ex_fresh : World := ex_world ∅.

Definition ex_first_run : result unit * World :=
  @GenServerDeps ref_libs (ex_config false "") ex_fresh.

Definition ex_second_run : result unit * World :=
  @GenServerDeps ref_libs (ex_config false "") (restart ex_first_run.2).

(** A server that does not run etcd, and its etcd certificates made on a
    fresh data directory. *)
Definition ex_noetcd : Control :=
  {| DataDir := "/d"; Token := ""; AgentToken := ""; SANs := ["10.0.0.1"; "host"];
     ClusterDomain := "cluster.local"; APIServerPort := 6444; SupervisorPort := 6443;
     DisableETCD := true; EncryptSecrets := false; EncryptProvider := "";
     EgressSelectorMode_ := EgressSelectorModeDisabled; DisableServiceLB := false;
     ServiceLBNamespace := "kube-system"; Rootless := false; DisableCCM := false;
     SystemDefaultRegistry := "";
     Loopback := fun _ => "127.0.0.1";
     BindAddressOrLoopback := fun _ _ => "127.0.0.1";
     Runtime := no_runtime |}.

Definition ex_noetcd_run : result unit * World :=
  @genETCDCerts ref_libs (CreateRuntimeCertFiles ex_noetcd) ex_fresh.

(** The configuration of [ex_config] before the runtime paths are filled in. *)
Definition ex_control : Control :=
  {| DataDir := "/d"; Token := ""; AgentToken := ""; SANs := ["10.0.0.1"; "host"];
     ClusterDomain := "cluster.local"; APIServerPort := 6444; SupervisorPort := 6443;
     DisableETCD := false; EncryptSecrets := false; EncryptProvider := "";
     EgressSelectorMode_ := EgressSelectorModeDisabled; DisableServiceLB := false;
     ServiceLBNamespace := "kube-system"; Rootless := false; DisableCCM := false;
     SystemDefaultRegistry := "";
     Loopback := fun _ => "127.0.0.1";
     BindAddressOrLoopback := fun _ _ => "127.0.0.1";
     Runtime := no_runtime |}.

(** A data directory with the key of a CA and no certificate for it. *)
Definition ex_world_key : World :=
  ex_world (<["/d/tls/ca.key" := (1%nat, FPEM [KeyBlock "ca-key"])]> ∅).

(** A fresh data directory after a CA was made in it, and after a leaf
    certificate was issued by that CA. *)
Definition ex_ca_made : result bool * World :=
  @createSigningCertKey ref_libs "k3s-server" "/d/tls/ca.crt" "/d/tls/ca.key" ex_fresh.

Definition ex_leaf_made : result bool * World :=
  @createClientCertKey ref_libs false "kube-apiserver" [] None [ExtKeyUsageServerAuth]
    "/d/tls/ca.crt" "/d/tls/ca.key" "/d/tls/leaf.crt" "/d/tls/leaf.key" ex_ca_made.2.

(** The single steps of a bootstrap on a fresh data directory. *)
Definition ex_psk_made : result unit * World :=
  @genEncryptedNetworkInfo ref_libs (ex_config false "") ex_fresh.

Definition ex_users_made : result unit * World :=
  @genUsers ref_libs (ex_config false "") ex_fresh.

Definition ex_service_made : result unit * World :=
  @genServiceAccount ref_libs (Runtime (ex_config false "")) ex_fresh.

Definition ex_client_certs_made : result unit * World :=
  @genClientCerts ref_libs (ex_config false "") ex_fresh.

Definition ex_encryption_made : result unit * World :=
  @genEncryptionConfigAndState ref_libs (ex_config true "aescbc") ex_fresh.

(** A bootstrap on the data directory of an older version. *)
Definition ex_legacy_run : result unit * World :=
  @GenServerDeps ref_libs (ex_config false "") ex_world_legacy.

(** A data directory whose CA was replaced after the leaf was issued. *)
Definition ex_ca_new : Certificate :=
  {| Subject_CommonName := "k3s-server-ca@2"; Subject_Organization := [];
     DNSNames := []; IPAddresses := []; NotAfter := 400000000;
     ExtKeyUsages := []; IsCA := true; SubjectKeyId := "ski-2"; AuthorityKeyId := "" |}.

Definition ex_world_replaced : World :=
  ex_world (<["/d/tls/leaf.crt" := (1%nat, FPEM [CertBlock ex_leaf; CertBlock ex_ca])]>
            (<["/d/tls/leaf.key" := (2%nat, FPEM [KeyBlock "leaf-key"])]>
             (<["/d/tls/ca.crt" := (3%nat, FPEM [CertBlock ex_ca_new])]>
              (<["/d/tls/ca.key" := (4%nat, FPEM [KeyBlock "ca-key-2"])]> ∅)))).

Definition ex_reissued : result bool * World :=
  @createClientCertKey ref_libs false "kube-apiserver" ["o1"; "o2"]
    (Some (mkAltNames ["kubernetes"] ["10.0.0.1"])) [ExtKeyUsageServerAuth]
    "/d/tls/ca.crt" "/d/tls/ca.key" "/d/tls/leaf.crt" "/d/tls/leaf.key" ex_world_replaced.
(** ** Lemmas on the monad and on the file system *)

Section Properties.
Context `{Libs}.

Lemma bind_Ok_inv {A B} (m : M A) (k : A -> M B) w b w' :
  bind m k w = (Ok b, w') ->
  exists a w1, m w = (Ok a, w1) /\ k a w1 = (Ok b, w').
Proof.
  unfold bind. destruct (m w) as [[a|e] w1]; intros E; [eauto | discriminate].
Qed.

Lemma bind_inv {A B} (m : M A) (k : A -> M B) w r w' :
  bind m k w = (r, w') ->
  (exists a w1, m w = (Ok a, w1) /\ k a w1 = (r, w'))
  \/ (exists e, m w = (Err e, w') /\ r = Err e).
Proof.
  unfold bind. destruct (m w) as [[a|e] w1]; intros E.
  - left; eauto.
  - right; exists e. by inversion E.
Qed.

Lemma gets_inv {A} (f : World -> A) w r w' :
  gets f w = (r, w') -> r = Ok (f w) /\ w' = w.
Proof. by intros [= <- <-]. Qed.

Lemma gets_Ok_inv {A} (f : World -> A) w a w' :
  gets f w = (Ok a, w') -> a = f w /\ w' = w.
Proof. by intros [= <- <-]. Qed.

Lemma look_Ok_inv {A} (f : World -> result A) w a w' :
  look f w = (Ok a, w') -> f w = Ok a /\ w' = w.
Proof. by intros [= -> <-]. Qed.

Lemma of_result_Ok_inv {A} (r : result A) w a w' :
  of_result r w = (Ok a, w') -> r = Ok a /\ w' = w.
Proof. by intros [= -> <-]. Qed.

Lemma ret_Ok_inv {A} (x : A) w a w' :
  ret x w = (Ok a, w') -> a = x /\ w' = w.
Proof. by intros [= <- <-]. Qed.

Lemma time_Now_Ok_inv w a w' :
  time_Now w = (Ok a, w') -> a = clock w /\ w' = w.
Proof. by intros [= <- <-]. Qed.

Lemma set_files_id w : set_files (files w) w = w.
Proof. by destruct w. Qed.

Lemma lookup_store_eq p d fs :
  exists i, store p d fs !! p = Some (i, d)
            /\ (forall f, fs !! p = Some f -> i = f.1).
Proof.
  unfold store. destruct (fs !! p) as [f|] eqn:E.
  - exists f.1. rewrite lookup_fmap, E. simpl.
    rewrite decide_True by done. split; [done|]. by intros ? [= <-].
  - exists (fresh (inodes_of fs)). rewrite lookup_insert_eq. split; [done|]. done.
Qed.

Lemma fresh_inode_unused (fs : gmap string (nat * FileData)) q g :
  fs !! q = Some g -> g.1 <> fresh (inodes_of fs).
Proof.
  intros E Heq. pose proof (is_fresh (inodes_of fs)) as Hf.
  apply Hf. unfold inodes_of. apply elem_of_map_to_set. eauto.
Qed.

Lemma lookup_store_ne p q d fs :
  p <> q ->
  (forall f g, fs !! p = Some f -> fs !! q = Some g -> f.1 <> g.1) ->
  store p d fs !! q = fs !! q.
Proof.
  intros Hne Hino. unfold store. destruct (fs !! p) as [f|] eqn:E.
  - rewrite lookup_fmap. destruct (fs !! q) as [g|] eqn:E'; [|done]. simpl.
    rewrite decide_False; [done|]. intros Heq. by eapply Hino.
  - by rewrite lookup_insert_ne.
Qed.

Lemma lookup_store_is_Some p q d fs :
  is_Some (fs !! q) -> is_Some (store p d fs !! q).
Proof.
  intros [g E]. unfold store. destruct (fs !! p) as [f|] eqn:E'.
  - rewrite lookup_fmap, E. simpl. eauto.
  - destruct (decide (p = q)) as [->|Hne]; [congruence|].
    rewrite lookup_insert_ne by done. eauto.
Qed.

Lemma lookup_store_inode p q d fs g :
  store p d fs !! q = Some g ->
  (exists g0, fs !! q = Some g0 /\ g0.1 = g.1)
  \/ (fs !! p = None /\ q = p /\ g = (fresh (inodes_of fs), d)).
Proof.
  unfold store. destruct (fs !! p) as [f|] eqn:E.
  - rewrite lookup_fmap. destruct (fs !! q) as [g0|] eqn:E'; [|done].
    simpl. intros [= <-]. left. exists g0. split; [done|].
    by destruct (decide _).
  - destruct (decide (p = q)) as [->|Hne].
    + rewrite lookup_insert_eq. intros [= <-]. by right.
    + rewrite lookup_insert_ne by done. intros E'. left. eauto.
Qed.


Lemma stat_nonempty_read w p :
  stat_nonempty w p = true -> exists cur, os_ReadFile w p = Ok cur /\ (p ∉ denied w).
Proof.
  unfold stat_nonempty, os_Stat, os_ReadFile, read_data, lookup_path.
  destruct (decide (p ∈ denied w)); [done|].
  destruct (files w !! p); [eauto|done].
Qed.

Lemma os_Stat_NotExist w p :
  os_Stat w p = Err ErrNotExist -> (p ∉ denied w) /\ files w !! p = None.
Proof.
  unfold os_Stat, lookup_path. destruct (decide (p ∈ denied w)); [done|].
  by destruct (files w !! p).
Qed.

Lemma lookup_path_Ok w p f :
  lookup_path w p = Ok f -> (p ∉ denied w) /\ files w !! p = Some f.
Proof.
  unfold lookup_path. destruct (decide (p ∈ denied w)); [done|].
  destruct (files w !! p); [|done]. by intros [= ->].
Qed.

Lemma lookup_path_NotExist w p :
  lookup_path w p = Err ErrNotExist -> (p ∉ denied w) /\ files w !! p = None.
Proof.
  unfold lookup_path. destruct (decide (p ∈ denied w)); [done|].
  by destruct (files w !! p).
Qed.

Lemma exists_cons w p ps :
  exists_ w (p :: ps) = (is_Ok (lookup_path w p) && exists_ w ps)%bool.
Proof.
  unfold exists_, os_Stat. simpl. by destruct (lookup_path w p).
Qed.

Lemma exists_nil w : exists_ w [] = true.
Proof. done. Qed.

Lemma sets_NewString_equal (l1 l2 : list string) :
  sets_NewString l1 = sets_NewString l2 <-> (forall x, x ∈ l1 <-> x ∈ l2).
Proof.
  unfold sets_NewString. split.
  - intros E x. by rewrite <- !(elem_of_list_to_set (C:=gset string)), E.
  - intros E. apply set_eq. intros x. by rewrite !elem_of_list_to_set.
Qed.

Lemma forallb_has_all (have want : list string) :
  forallb (fun d => bool_decide (d ∈ sets_NewString have)) want = true
  <-> (forall d, d ∈ want -> d ∈ have).
Proof.
  rewrite forallb_forall. unfold sets_NewString. split.
  - intros E d Hd. apply list_elem_of_In, E in Hd.
    apply bool_decide_eq_true in Hd. by apply elem_of_list_to_set in Hd.
  - intros E d Hd. apply bool_decide_eq_true, elem_of_list_to_set, E.
    by apply list_elem_of_In.
Qed.

Lemma existsb_missing (have want : list string) :
  existsb (fun ip => negb (bool_decide (ip ∈ sets_NewString have))) want = true
  <-> (exists ip, ip ∈ want /\ ip ∉ have).
Proof.
  rewrite existsb_exists. unfold sets_NewString. split.
  - intros (ip & Hin & Hb). exists ip. split; [by apply list_elem_of_In|].
    apply negb_true_iff, bool_decide_eq_false in Hb.
    by rewrite elem_of_list_to_set in Hb.
  - intros (ip & Hin & Hn). exists ip. split; [by apply list_elem_of_In|].
    apply negb_true_iff, bool_decide_eq_false. by rewrite elem_of_list_to_set.
Qed.

(** ** Runs that write at most a given set of paths *)

Lemma separated_weaken L L' w :
  (forall p, p ∈ L -> p ∈ L') -> separated L w -> separated L' w.
Proof.
  intros HL Hs p q f g Ep Eq Ei.
  destruct (Hs p q f g Ep Eq Ei) as [?|[? ?]]; [by left|right; auto].
Qed.

Lemma touched_refl L W w : touched L W w w.
Proof.
  repeat split; try done. exists []. split; [done|]. intros p Hp. by inversion Hp.
Qed.

Lemma touched_trans L W w1 w2 w3 :
  touched L W w1 w2 -> touched L W w2 w3 -> touched L W w1 w3.
Proof.
  intros (Hd1 & Hc1 & (d1 & Hw1 & Hs1) & Hm1 & Hf1)
         (Hd2 & Hc2 & (d2 & Hw2 & Hs2) & Hm2 & Hf2).
  split; [congruence|]. split; [congruence|]. split.
  { exists (d2 ++ d1)%list. split.
    - unfold written in *. rewrite Hw2, Hw1. by rewrite app_assoc.
    - intros p Hp. apply elem_of_app in Hp as [?|?]; auto. }
  split; [auto|].
  intros Hsep. destruct (Hf1 Hsep) as [Hsep2 Hfr1].
  destruct (Hf2 Hsep2) as [Hsep3 Hfr2]. split; [done|].
  intros q Hq. rewrite Hfr2, Hfr1; done.
Qed.

Lemma touched_mono L W W' w w' :
  (forall p, p ∈ W -> p ∈ W') -> touched L W w w' -> touched L W' w w'.
Proof.
  intros HW (Hd & Hc & (d & Hw & Hs) & Hm & Hf).
  repeat split; try done.
  - exists d. split; [done|]. auto.
  - by apply Hf.
  - intros q Hq. apply Hf; [done|]. intros Hq'. by apply Hq, HW.
Qed.

Lemma touches_mono {A} L W W' (m : M A) :
  (forall p, p ∈ W -> p ∈ W') -> touches L W m -> touches L W' m.
Proof. intros HW Hm w r w' E. eapply touched_mono; [done|]. eapply Hm; eauto. Qed.

Lemma touches_bind {A B} L W (m : M A) (k : A -> M B) :
  touches L W m -> (forall a, touches L W (k a)) -> touches L W (bind m k).
Proof.
  intros Hm Hk w r w' E. apply bind_inv in E as [(a & w1 & E1 & E2)|(e & E1 & _)].
  - eapply touched_trans; [eapply Hm; eauto|eapply Hk; eauto].
  - eapply Hm; eauto.
Qed.

Lemma touches_ret {A} L W (a : A) : touches L W (ret a).
Proof. intros w r w' [= _ <-]. apply touched_refl. Qed.

Lemma touches_fail {A} L W e : touches L W (fail (A:=A) e).
Proof. intros w r w' [= _ <-]. apply touched_refl. Qed.

Lemma touches_look {A} L W (f : World -> result A) : touches L W (look f).
Proof. intros w r w' [= _ <-]. apply touched_refl. Qed.

Lemma touches_gets {A} L W (f : World -> A) : touches L W (gets f).
Proof. intros w r w' [= _ <-]. apply touched_refl. Qed.

Lemma touches_of_result {A} L W (r0 : result A) : touches L W (of_result r0).
Proof. intros w r w' [= _ <-]. apply touched_refl. Qed.

Lemma touches_index0 {A} L W (l : list A) : touches L W (index0 l).
Proof. destruct l; [apply touches_fail|apply touches_ret]. Qed.

Lemma touches_time_Now L W : touches L W time_Now.
Proof. intros w r w' [= _ <-]. apply touched_refl. Qed.

(** A change of the fields outside the file system. *)
Lemma touched_same_disk L W w w' :
  files w' = files w -> denied w' = denied w -> clock w' = clock w ->
  wlog w' = wlog w -> touched L W w w'.
Proof.
  intros Ef Ed Ec El. split; [done|]. split; [done|]. split.
  { exists []. split; [by unfold written|]. intros p Hp. by inversion Hp. }
  split; [by rewrite Ef|].
  intros Hs. split; [|by rewrite Ef].
  unfold separated. rewrite Ef. apply Hs.
Qed.

Lemma touches_rand_Read L W n : touches L W (rand_Read n).
Proof. intros w r w' [= _ <-]. by apply touched_same_disk. Qed.

Lemma touches_set_IPSECPSK L W s : touches L W (set_IPSECPSK s).
Proof. intros w r w' [= _ <-]. by apply touched_same_disk. Qed.

Lemma touches_set_AgentToken L W s : touches L W (set_AgentToken s).
Proof. intros w r w' [= _ <-]. by apply touched_same_disk. Qed.

Lemma touches_set_ServerToken L W s : touches L W (set_ServerToken s).
Proof. intros w r w' [= _ <-]. by apply touched_same_disk. Qed.

Lemma separated_store L p d (fs : gmap string (nat * FileData)) w :
  files w = fs -> separated L w ->
  separated L (log_write p (set_files (store p d fs) w)).
Proof.
  intros <- Hs x y f g Ex Ey Ei. simpl in Ex, Ey.
  apply lookup_store_inode in Ex as [(f0 & Ex & E1)|(En & -> & ->)];
    apply lookup_store_inode in Ey as [(g0 & Ey & E2)|(En' & -> & ->)].
  - apply (Hs x y f0 g0 Ex Ey). congruence.
  - exfalso. simpl in Ei. apply (fresh_inode_unused _ _ _ Ex). congruence.
  - exfalso. simpl in Ei. apply (fresh_inode_unused _ _ _ Ey). congruence.
  - by left.
Qed.

Lemma touches_os_WriteFile L W p d :
  p ∈ W -> p ∉ L -> touches L W (os_WriteFile p d).
Proof.
  intros HW HL w r w'. unfold os_WriteFile.
  destruct (decide (p ∈ denied w)); intros [= _ <-]; [apply touched_refl|].
  split; [done|]. split; [done|]. split.
  { exists [p]. split; [done|]. intros q Hq. apply list_elem_of_singleton in Hq. by subst. }
  split; [intros q Hq; simpl; by apply lookup_store_is_Some|].
  intros Hs. split; [by apply separated_store|].
  intros q Hq. simpl. apply lookup_store_ne.
  - intros ->. done.
  - intros f g Ef Eg Ei. destruct (Hs p q f g Ef Eg Ei) as [->|[? _]]; done.
Qed.

Lemma touches_util_AtomicWrite L W p d :
  p ∈ W -> touches L W (util_AtomicWrite p d).
Proof.
  intros HW w r w'. unfold util_AtomicWrite.
  destruct (decide (p ∈ denied w)); intros [= _ <-]; [apply touched_refl|].
  split; [done|]. split; [done|]. split.
  { exists [p]. split; [done|]. intros q Hq. apply list_elem_of_singleton in Hq. by subst. }
  split.
  { intros q Hq. simpl. destruct (decide (p = q)) as [->|Hne].
    - rewrite lookup_insert_eq. eauto.
    - by rewrite lookup_insert_ne. }
  intros Hs. split.
  - intros x y f g Ex Ey Ei. simpl in Ex, Ey.
    destruct (decide (x = p)) as [->|Hx]; destruct (decide (y = p)) as [->|Hy].
    + by left.
    + rewrite lookup_insert_eq in Ex. rewrite lookup_insert_ne in Ey by done.
      injection Ex as <-. simpl in Ei. exfalso.
      apply (fresh_inode_unused _ _ _ Ey). congruence.
    + rewrite lookup_insert_eq in Ey. rewrite lookup_insert_ne in Ex by done.
      injection Ey as <-. simpl in Ei. exfalso.
      apply (fresh_inode_unused _ _ _ Ex). congruence.
    + rewrite lookup_insert_ne in Ex by done.
      rewrite lookup_insert_ne in Ey by done. eauto.
  - intros q Hq. simpl. rewrite lookup_insert_ne; [done|]. intros ->. done.
Qed.

Lemma touches_certutil_WriteCert L W p d :
  p ∈ W -> p ∉ L -> touches L W (certutil_WriteCert p d).
Proof. apply touches_os_WriteFile. Qed.

Lemma touches_certutil_WriteKey L W p d :
  p ∈ W -> p ∉ L -> touches L W (certutil_WriteKey p d).
Proof. apply touches_os_WriteFile. Qed.

Lemma touches_KubeConfig L W dest url ca cert key :
  dest ∈ W -> dest ∉ L -> touches L W (KubeConfig dest url ca cert key).
Proof. apply touches_os_WriteFile. Qed.

Lemma touches_certutil_LoadOrGenerateKeyFile L W p force :
  p ∈ W -> p ∉ L -> touches L W (certutil_LoadOrGenerateKeyFile p force).
Proof.
  intros HW HL.
  assert (Hgen : touches L W
            (k <- certutil_NewPrivateKey ;;
             certutil_WriteKey p (certutil_EncodePrivateKeyPEM k) ;;;
             ret (certutil_EncodePrivateKeyPEM k, true))).
  { apply touches_bind; [apply touches_rand_Read|]. intros k.
    apply touches_bind; [by apply touches_certutil_WriteKey|]. intros _.
    apply touches_ret. }
  unfold certutil_LoadOrGenerateKeyFile. destruct force; [done|].
  intros w r w' E.
  destruct (read_data w p) as [d|e].
  - destruct (is_Ok _); injection E as _ <-; apply touched_refl.
  - destruct e; try (injection E as _ <-; apply touched_refl). by eapply Hgen.
Qed.

Lemma touches_certutil_NewSelfSignedCACert L W cfg key :
  touches L W (certutil_NewSelfSignedCACert cfg key).
Proof.
  apply touches_bind; [apply touches_time_Now|]. intros. apply touches_ret.
Qed.

Lemma touches_certutil_NewSignedCert L W cfg key ca cakey :
  touches L W (certutil_NewSignedCert cfg key ca cakey).
Proof.
  unfold certutil_NewSignedCert.
  destruct (decide _); [apply touches_fail|].
  destruct (decide _); [apply touches_fail|].
  apply touches_bind; [apply touches_time_Now|]. intros. apply touches_ret.
Qed.

Lemma touches_createSigningCertKey L W prefix certFile keyFile :
  certFile ∈ W -> keyFile ∈ W -> certFile ∉ L -> keyFile ∉ L ->
  touches L W (createSigningCertKey prefix certFile keyFile).
Proof.
  intros. unfold createSigningCertKey.
  apply touches_bind; [apply touches_gets|]. intros [|]; [apply touches_ret|].
  apply touches_bind; [by apply touches_certutil_LoadOrGenerateKeyFile|]. intros kb.
  apply touches_bind; [apply touches_of_result|]. intros caKey.
  apply touches_bind; [apply touches_time_Now|]. intros now.
  apply touches_bind; [apply touches_certutil_NewSelfSignedCACert|]. intros cert.
  apply touches_bind; [by apply touches_certutil_WriteCert|]. intros _.
  apply touches_ret.
Qed.

Lemma touches_createClientCertKey L W regen cn org sans usage ca cakey certFile keyFile :
  certFile ∈ W -> keyFile ∈ W -> certFile ∉ L -> keyFile ∉ L ->
  touches L W (createClientCertKey regen cn org sans usage ca cakey certFile keyFile).
Proof.
  intros. unfold createClientCertKey.
  apply touches_bind; [apply touches_gets|]. intros regen'.
  apply touches_bind; [apply touches_gets|]. intros present.
  destruct (_ && _)%bool; [apply touches_ret|].
  apply touches_bind; [apply touches_look|]. intros caKey.
  apply touches_bind; [apply touches_look|]. intros caCerts.
  apply touches_bind; [by apply touches_certutil_LoadOrGenerateKeyFile|]. intros kb.
  apply touches_bind; [apply touches_of_result|]. intros key.
  apply touches_bind; [apply touches_index0|]. intros caCert0.
  apply touches_bind; [apply touches_certutil_NewSignedCert|]. intros cert.
  apply touches_bind; [by apply touches_certutil_WriteCert|]. intros _.
  apply touches_ret.
Qed.

(** ** What the readers depend on *)

Lemma lookup_path_same p w w' : same_at p w w' -> lookup_path w' p = lookup_path w p.
Proof. intros [Hd Hf]. unfold lookup_path. by rewrite Hd, Hf. Qed.

Lemma read_data_same p w w' : same_at p w w' -> read_data w' p = read_data w p.
Proof. intros Hs. unfold read_data. by rewrite (lookup_path_same _ _ _ Hs). Qed.

Lemma os_Stat_same p w w' : same_at p w w' -> os_Stat w' p = os_Stat w p.
Proof. intros Hs. unfold os_Stat. by rewrite (lookup_path_same _ _ _ Hs). Qed.

Lemma os_ReadFile_same p w w' : same_at p w w' -> os_ReadFile w' p = os_ReadFile w p.
Proof. intros Hs. unfold os_ReadFile. by rewrite (read_data_same _ _ _ Hs). Qed.

Lemma stat_nonempty_same p w w' :
  same_at p w w' -> stat_nonempty w' p = stat_nonempty w p.
Proof. intros Hs. unfold stat_nonempty. by rewrite (os_Stat_same _ _ _ Hs). Qed.

Lemma certutil_CertsFromFile_same p w w' :
  same_at p w w' -> certutil_CertsFromFile w' p = certutil_CertsFromFile w p.
Proof. intros Hs. unfold certutil_CertsFromFile. by rewrite (read_data_same _ _ _ Hs). Qed.

Lemma certutil_PrivateKeyFromFile_same p w w' :
  same_at p w w' -> certutil_PrivateKeyFromFile w' p = certutil_PrivateKeyFromFile w p.
Proof. intros Hs. unfold certutil_PrivateKeyFromFile. by rewrite (read_data_same _ _ _ Hs). Qed.

Lemma passwd_Read_same p w w' :
  same_at p w w' -> passwd_Read w' p = passwd_Read w p.
Proof. intros Hs. unfold passwd_Read. by rewrite (read_data_same _ _ _ Hs). Qed.

Lemma exists_same ps w w' :
  (forall p, p ∈ ps -> same_at p w w') -> exists_ w' ps = exists_ w ps.
Proof.
  intros Hs. unfold exists_. induction ps as [|p ps IH]; [done|]. simpl.
  rewrite (os_Stat_same p w w') by (apply Hs; left).
  rewrite IH; [done|]. intros q Hq. apply Hs. by right.
Qed.

Lemma expired_same p w w' :
  same_at p w w' -> clock w' = clock w -> expired w' p = expired w p.
Proof.
  intros Hs Hc. unfold expired, certutil_IsCertExpired.
  by rewrite (certutil_CertsFromFile_same _ _ _ Hs), Hc.
Qed.

Lemma fieldsChanged_same cert ca cn org sans w w' :
  same_at cert w w' -> same_at ca w w' ->
  fieldsChanged w' cert cn org sans ca = fieldsChanged w cert cn org sans ca.
Proof.
  intros Hs1 Hs2. unfold fieldsChanged.
  by rewrite (certutil_CertsFromFile_same _ _ _ Hs1), (certutil_CertsFromFile_same _ _ _ Hs2).
Qed.

Lemma touched_same_at L W w w' p :
  touched L W w w' -> separated L w -> p ∉ W -> same_at p w w'.
Proof.
  intros (Hd & _ & _ & _ & Hf) Hs Hp. split; [done|]. by apply Hf.
Qed.

Lemma touched_present L W w w' p :
  touched L W w w' -> is_Ok (lookup_path w p) = true -> is_Ok (lookup_path w' p) = true.
Proof.
  intros (Hd & _ & _ & Hm & _). unfold lookup_path. rewrite Hd.
  destruct (decide (p ∈ denied w)); [done|].
  destruct (files w !! p) eqn:E; [|done]. intros _.
  destruct (Hm p) as [g ->]; [by rewrite E|done].
Qed.

Lemma touched_exists L W w w' ps :
  touched L W w w' -> exists_ w ps = true -> exists_ w' ps = true.
Proof.
  intros Ht. induction ps as [|p ps IH]; [done|].
  rewrite !exists_cons. intros [H1 H2]%andb_true_iff.
  rewrite (touched_present _ _ _ _ _ Ht H1). by apply IH.
Qed.

(** ** What a successful call leaves behind *)

Lemma os_WriteFile_Ok p d w w' :
  os_WriteFile p d w = (Ok tt, w') ->
  (p ∉ denied w) /\ read_data w' p = Ok d.
Proof.
  unfold os_WriteFile. destruct (decide (p ∈ denied w)) as [|Hd]; [done|].
  intros [= <-]. split; [done|].
  unfold read_data, lookup_path. simpl. rewrite decide_False by done.
  destruct (lookup_store_eq p d (files w)) as (i & -> & _). done.
Qed.

Lemma os_WriteFile_result p d w r w' :
  os_WriteFile p d w = (r, w') ->
  (r = Ok tt /\ (p ∉ denied w)) \/ (r = Err ErrPermission /\ w' = w /\ p ∈ denied w).
Proof.
  unfold os_WriteFile. destruct (decide (p ∈ denied w)); intros [= <- <-]; auto.
Qed.

Lemma os_WriteFile_writable p d w : (p ∉ denied w) -> (os_WriteFile p d w).1 = Ok tt.
Proof. intros Hd. unfold os_WriteFile. by rewrite decide_False. Qed.

Lemma read_data_present w p d : read_data w p = Ok d -> is_Ok (lookup_path w p) = true.
Proof. unfold read_data. by destruct (lookup_path w p). Qed.

Lemma certutil_LoadOrGenerateKeyFile_Ok p force w kb w' :
  certutil_LoadOrGenerateKeyFile p force w = (Ok kb, w') ->
  read_data w' p = Ok kb.1 /\ is_Ok (certutil_ParsePrivateKeyPEM kb.1) = true.
Proof.
  assert (Hgen : (k <- certutil_NewPrivateKey ;;
                  certutil_WriteKey p (certutil_EncodePrivateKeyPEM k) ;;;
                  ret (certutil_EncodePrivateKeyPEM k, true)) w = (Ok kb, w') ->
                 read_data w' p = Ok kb.1 /\ is_Ok (certutil_ParsePrivateKeyPEM kb.1) = true).
  { intros E. apply bind_Ok_inv in E as (k & w1 & _ & E).
    apply bind_Ok_inv in E as ([] & w2 & E & [= <- <-]).
    apply os_WriteFile_Ok in E as [_ E]. done. }
  unfold certutil_LoadOrGenerateKeyFile. destruct force; [done|].
  destruct (read_data w p) as [d|e] eqn:Er.
  - destruct (is_Ok (certutil_ParsePrivateKeyPEM d)) eqn:Ep; [|done].
    by intros [= <- <-].
  - destruct e; try done.
Qed.

Lemma certs_of_map_CertBlock cs : certs_of (map CertBlock cs) = cs.
Proof. induction cs; simpl; congruence. Qed.

Lemma createSigningCertKey_Ok prefix certFile keyFile w b w' :
  createSigningCertKey prefix certFile keyFile w = (Ok b, w') ->
  exists_ w' [certFile; keyFile] = true.
Proof.
  unfold createSigningCertKey. intros E.
  apply bind_Ok_inv in E as (present & w1 & [-> ->]%gets_Ok_inv & E).
  destruct (exists_ w [certFile; keyFile]) eqn:Ex.
  { apply ret_Ok_inv in E as [_ ->]. done. }
  apply bind_Ok_inv in E as (kb & w1 & Ek & E).
  apply bind_Ok_inv in E as (caKey & w2 & [_ ->]%of_result_Ok_inv & E).
  apply bind_Ok_inv in E as (now & w2 & [_ ->]%time_Now_Ok_inv & E).
  apply bind_Ok_inv in E as (cert & w2 & Ec & E).
  apply bind_Ok_inv in E as ([] & w3 & Ew & [_ ->]%ret_Ok_inv).
  apply bind_Ok_inv in Ec as (? & ? & [_ ->]%time_Now_Ok_inv & [_ ->]%ret_Ok_inv).
  apply certutil_LoadOrGenerateKeyFile_Ok in Ek as [Ek _].
  pose proof (touches_os_WriteFile [] [certFile] certFile _
                ltac:(left) ltac:(by intros ?%elem_of_nil) _ _ _ Ew) as Ht.
  apply os_WriteFile_Ok in Ew as [_ Ew].
  rewrite !exists_cons, exists_nil.
  rewrite (read_data_present _ _ _ Ew).
  rewrite (touched_present _ _ _ _ _ Ht (read_data_present _ _ _ Ek)). done.
Qed.

Lemma leaf_settled_same cn org sans ca cert key w w' :
  same_at ca w w' -> same_at cert w w' -> same_at key w w' -> clock w' = clock w ->
  leaf_settled w cn org sans ca cert key -> leaf_settled w' cn org sans ca cert key.
Proof.
  intros Hca Hcert Hkey Hc (H1 & H2 & H3). unfold leaf_settled.
  rewrite (expired_same _ _ _ Hcert Hc), (fieldsChanged_same _ _ _ _ _ _ _ Hcert Hca).
  rewrite (exists_same [cert; key] w w'); [done|].
  intros p Hp. apply list_elem_of_In in Hp. simpl in Hp.
  destruct Hp as [<-|[<-|[]]]; done.
Qed.

Lemma createClientCertKey_Ok L regen cn org sans usage ca cakey cert key w b w' :
  createClientCertKey regen cn org sans usage ca cakey cert key w = (Ok b, w') ->
  separated L w -> cert ∉ L -> key ∉ L ->
  cert <> key -> ca <> cert -> ca <> key ->
  CertificateRenewDays * 86400 < cert_validity ->
  leaf_settled w' cn org sans ca cert key.
Proof.
  unfold createClientCertKey. intros E Hsep HcL HkL Hck Hcac Hcak Hvalid.
  apply bind_Ok_inv in E as (regen' & w1 & [-> ->]%gets_Ok_inv & E).
  apply bind_Ok_inv in E as (present & w1 & [-> ->]%gets_Ok_inv & E).
  destruct (negb _ && _)%bool eqn:Eearly.
  { apply ret_Ok_inv in E as [_ ->].
    apply andb_true_iff in Eearly as [Hn Hex]. apply negb_true_iff in Hn.
    apply orb_false_iff in Hn as [Hn Hfc]. apply orb_false_iff in Hn as [_ Hexp].
    done. }
  clear Eearly.
  apply bind_Ok_inv in E as (caKey & w1 & [_ ->]%look_Ok_inv & E).
  apply bind_Ok_inv in E as (caCerts & w1 & [Eca ->]%look_Ok_inv & E).
  apply bind_Ok_inv in E as (kb & w1 & Ek & E).
  apply bind_Ok_inv in E as (k & w2 & [_ ->]%of_result_Ok_inv & E).
  apply bind_Ok_inv in E as (caCert0 & w2 & E0 & E).
  apply bind_Ok_inv in E as (newcert & w3 & Enew & E).
  apply bind_Ok_inv in E as ([] & w4 & Ew & [_ <-]%ret_Ok_inv).
  destruct caCerts as [|ca0 cas]; [done|]. apply ret_Ok_inv in E0 as [-> ->].
  unfold certutil_NewSignedCert in Enew.
  destruct (decide _) as [|_]; [done|]. destruct (decide _) as [|_]; [done|].
  apply bind_Ok_inv in Enew as (now & w2 & [-> ->]%time_Now_Ok_inv & [-> ->]%ret_Ok_inv).
  simpl in Ew.
  pose proof (touches_certutil_LoadOrGenerateKeyFile L [key] key _
                ltac:(left) HkL _ _ _ Ek) as Ht1.
  pose proof (touches_os_WriteFile L [cert] cert _ ltac:(left) HcL _ _ _ Ew) as Ht2.
  assert (Hsep1 : separated L w1) by (by apply Ht1).
  assert (Hclock : clock w' = clock w1) by (by apply Ht2).
  apply certutil_LoadOrGenerateKeyFile_Ok in Ek as [Ek _].
  apply os_WriteFile_Ok in Ew as [_ Ew].
  assert (Hcert : certutil_CertsFromFile w' cert
                  = Ok ({| Subject_CommonName := cn;
                           Subject_Organization := org;
                           DNSNames := an_DNSNames (default (mkAltNames [] []) sans);
                           IPAddresses := an_IPs (default (mkAltNames [] []) sans);
                           NotAfter := clock w1 + cert_validity;
                           ExtKeyUsages := usage;
                           IsCA := false;
                           SubjectKeyId := "";
                           AuthorityKeyId := SubjectKeyId ca0 |} :: ca0 :: cas)).
  { unfold certutil_CertsFromFile. rewrite Ew. unfold util_EncodeCertsPEM. simpl.
    by rewrite certs_of_map_CertBlock. }
  assert (Hca : certutil_CertsFromFile w' ca = Ok (ca0 :: cas)).
  { rewrite <- Eca.
    rewrite (certutil_CertsFromFile_same ca w1 w').
    - apply certutil_CertsFromFile_same. eapply touched_same_at; [done..|].
      intros ?%list_elem_of_singleton. done.
    - eapply touched_same_at; [done..|]. intros ?%list_elem_of_singleton. done. }
  split; [|split].
  - unfold expired. rewrite Hcert. unfold certutil_IsCertExpired. simpl.
    apply bool_decide_eq_false. rewrite Hclock. lia.
  - unfold fieldsChanged. rewrite Hcert. simpl.
    rewrite !bool_decide_eq_true_2 by done. simpl.
    rewrite (proj2 (forallb_has_all _ _)) by done. simpl.
    destruct (existsb _ _) eqn:Eips.
    { rewrite existsb_missing in Eips. by destruct Eips as (ip & ? & ?). }
    rewrite Hca. by rewrite bool_decide_eq_true_2.
  - rewrite !exists_cons, exists_nil.
    rewrite (read_data_present _ _ _ Ew).
    rewrite (touched_present _ _ _ _ _ Ht2 (read_data_present _ _ _ Ek)). done.
Qed.

(** ** Paths below the data directory *)

Lemma append_inj (d s1 s2 : string) : d +:+ s1 = d +:+ s2 -> s1 = s2.
Proof. induction d as [|a d IH]; simpl; [done|]. intros [= E]. auto. Qed.

Lemma mem_true s l : mem s l = true <-> s ∈ l.
Proof.
  unfold mem. rewrite existsb_exists. split.
  - intros (x & Hin & Heq). apply String.eqb_eq in Heq. subst. by apply list_elem_of_In.
  - intros Hin. exists s. split; [by apply list_elem_of_In|apply String.eqb_refl].
Qed.

Lemma elem_of_under d s l : d +:+ s ∈ under d l <-> s ∈ l.
Proof.
  unfold under. rewrite list_elem_of_In, in_map_iff. split.
  - intros (x & E & Hin). apply append_inj in E. subst. by apply list_elem_of_In.
  - intros Hin. exists s. split; [done|by apply list_elem_of_In].
Qed.

Lemma elem_of_under_mem d s l : mem s l = true -> d +:+ s ∈ under d l.
Proof. intros Hm. by apply elem_of_under, mem_true. Qed.

Lemma not_elem_of_under_mem d s l : mem s l = false -> d +:+ s ∉ under d l.
Proof.
  intros Hm Hin. apply elem_of_under, mem_true in Hin. congruence.
Qed.

Lemma under_ne d s1 s2 : String.eqb s1 s2 = false -> d +:+ s1 <> d +:+ s2.
Proof. intros Hne E. apply append_inj in E. subst. by rewrite String.eqb_refl in Hne. Qed.

Lemma disjointb_not_elem d fp W p :
  disjointb fp W = true -> p ∈ fp -> d +:+ p ∉ under d W.
Proof.
  unfold disjointb. rewrite forallb_forall. intros Hd Hp.
  apply not_elem_of_under_mem. apply list_elem_of_In, Hd in Hp.
  by apply negb_true_iff in Hp.
Qed.

Lemma under_subset d l1 l2 :
  forallb (fun s => mem s l2) l1 = true ->
  forall p, p ∈ under d l1 -> p ∈ under d l2.
Proof.
  rewrite forallb_forall. intros Hs p Hp. unfold under in Hp.
  apply list_elem_of_In, in_map_iff in Hp as (s & <- & Hin).
  by apply elem_of_under_mem, Hs.
Qed.

(** ** Facts are kept by runs that do not write their footprint *)

Lemma holds_same d f w w' :
  (forall p, p ∈ footprint f -> same_at (d +:+ p) w w') ->
  denied w' = denied w -> clock w' = clock w ->
  holds d f w -> holds d f w'.
Proof.
  intros Hfp Hd Hc. destruct f as [ps|p|b p|cn org sans ca cert key|p|p|p|p|p|p|P]; simpl in *.
  - intros Hex. rewrite (exists_same (under d ps) w w'); [done|].
    intros q Hq. unfold under in Hq. apply list_elem_of_In, in_map_iff in Hq as (s & <- & Hin).
    by apply Hfp, list_elem_of_In.
  - intros (c & cs & E). exists c, cs.
    rewrite (certutil_CertsFromFile_same _ w w'); [done|]. apply Hfp. left.
  - intros Hb Eb. destruct (Hb Eb) as (c & cs & E). exists c, cs.
    rewrite (certutil_CertsFromFile_same _ w w'); [done|]. apply Hfp. left.
  - apply leaf_settled_same; [apply Hfp..|done].
    + left.
    + right; left.
    + right; right; left.
  - intros (x & E & Hp). exists x. split; [|done].
    rewrite (read_data_same _ w w'); [done|]. apply Hfp. left.
  - by rewrite Hd.
  - rewrite (lookup_path_same _ w w'); [done|]. apply Hfp. left.
  - rewrite (stat_nonempty_same _ w w'); [done|]. apply Hfp. left.
  - rewrite (os_Stat_same _ w w'); [done|]. apply Hfp. left.
  - rewrite (passwd_Read_same _ w w'); [done|]. apply Hfp. left.
  - done.
Qed.

Lemma holds_touched d L W f w w' :
  touched (under d L) (under d W) w w' -> separated (under d L) w ->
  disjointb (footprint f) W = true ->
  holds d f w -> holds d f w'.
Proof.
  intros Ht Hs Hdis. apply holds_same.
  - intros p Hp. eapply touched_same_at; [done..|]. by eapply disjointb_not_elem.
  - apply Ht.
  - apply Ht.
Qed.

Lemma settled_touched d L W F w w' :
  touched (under d L) (under d W) w w' -> separated (under d L) w ->
  clear_of F W = true ->
  settled d F w -> settled d F w'.
Proof.
  intros Ht Hs Hcl. unfold settled, clear_of in *.
  rewrite forallb_forall in Hcl. rewrite !Forall_forall.
  intros Hall f Hf. eapply holds_touched; [done..| |by apply Hall].
  by apply Hcl, list_elem_of_In.
Qed.

(** ** Hoare rules *)

Lemma hoare_bind {A B} P (m : M A) Q (k : A -> M B) R E :
  hoare P m Q E -> (forall a, hoare (Q a) (k a) R E) -> hoare P (bind m k) R E.
Proof.
  intros Hm Hk w r w' HP Ebind.
  apply bind_inv in Ebind as [(a & w1 & E1 & E2)|(e & E1 & ->)].
  - eapply (Hk a); [|done]. apply (Hm _ _ _ HP E1).
  - apply (Hm _ _ _ HP E1).
Qed.

Lemma hoare_conseq {A} (P P' : World -> Prop) (m : M A) (Q Q' : A -> World -> Prop)
    (E E' : World -> Prop) :
  (forall w, P' w -> P w) -> (forall a w, Q a w -> Q' a w) -> (forall w, E w -> E' w) ->
  hoare P m Q E -> hoare P' m Q' E'.
Proof.
  intros HP HQ HE Hm w r w' HP' Em. specialize (Hm w r w' (HP _ HP') Em).
  destruct r; auto.
Qed.

Lemma hoare_pre {A} (P P' : World -> Prop) (m : M A) Q E :
  (forall w, P' w -> P w) -> hoare P m Q E -> hoare P' m Q E.
Proof. intros HP. by apply hoare_conseq. Qed.

Lemma hoare_ret {A} (P : World -> Prop) (a : A) E : hoare P (ret a) (fun _ => P) E.
Proof. intros w r w' HP [= <- <-]. done. Qed.

(** A step that establishes new facts and keeps the old ones. *)
Lemma hoare_step {A} d L W F (new : A -> list Fact) (m : M A) :
  touches (under d L) (under d W) m ->
  clear_of F W = true ->
  (forall w a w', m w = (Ok a, w') -> separated (under d L) w -> settled d F w ->
                  settled d (new a) w') ->
  hoare (inv d L F) m (fun a => inv d L (new a ++ F)) (fun _ => True).
Proof.
  intros Ht Hcl Hnew w r w' [Hsep Hset] Em. destruct r as [a|e]; [|done].
  pose proof (Ht _ _ _ Em) as Htd. split; [by apply Htd|].
  unfold settled. apply Forall_app. split.
  - by eapply Hnew.
  - by eapply settled_touched.
Qed.

Lemma hoare_skip {A} d L W F (m : M A) :
  touches (under d L) (under d W) m ->
  clear_of F W = true ->
  hoare (inv d L F) m (fun _ => inv d L F) (fun _ => True).
Proof.
  intros Ht Hcl. apply (hoare_step d L W F (fun _ => []) m Ht Hcl).
  intros. constructor.
Qed.

Lemma disjointb_nil_r l : disjointb l [] = true.
Proof. unfold disjointb. by induction l. Qed.

Lemma clear_of_nil F : clear_of F [] = true.
Proof.
  unfold clear_of. apply forallb_forall. intros f _. apply disjointb_nil_r.
Qed.

Lemma disjointb_mem_false l1 l2 s :
  disjointb l1 l2 = true -> s ∈ l1 -> mem s l2 = false.
Proof.
  unfold disjointb. rewrite forallb_forall. intros Hd Hs.
  apply list_elem_of_In, Hd in Hs. by apply negb_true_iff.
Qed.

(** ** The steps of a first run *)

Section FirstRun.
Variable d : string.
Variable L : list string.
Variable F : list Fact.
Hypothesis valid : CertificateRenewDays * 86400 < cert_validity.

Lemma hoare_pure_skip {A} (m : M A) :
  touches (under d L) (under d []) m ->
  hoare (inv d L F) m (fun _ => inv d L F) (fun _ => True).
Proof. intros Ht. eapply hoare_skip; [done|]. apply clear_of_nil. Qed.

Lemma hoare_index0 {A} (l : list A) :
  hoare (inv d L F) (index0 l) (fun _ => inv d L F) (fun _ => True).
Proof. apply hoare_pure_skip, touches_index0. Qed.

Lemma hoare_ret_unit (P : World -> Prop) : hoare P (ret tt) (fun _ => P) (fun _ => True).
Proof. apply hoare_ret. Qed.

Lemma hoare_CA prefix c k :
  clear_of F [c; k] = true -> disjointb [c; k] L = true ->
  hoare (inv d L F) (createSigningCertKey prefix (d +:+ c) (d +:+ k))
        (fun _ => inv d L (FExists [c; k] :: F)) (fun _ => True).
Proof.
  intros Hcl HL.
  apply (hoare_step d L [c; k] F (fun _ => [FExists [c; k]])); [|done|].
  - apply touches_createSigningCertKey.
    + apply elem_of_under. left.
    + apply elem_of_under. right; left.
    + apply not_elem_of_under_mem. eapply disjointb_mem_false; [done|]. left.
    + apply not_elem_of_under_mem. eapply disjointb_mem_false; [done|]. right; left.
  - intros w a w' E _ _. constructor; [|constructor]. simpl.
    by eapply createSigningCertKey_Ok.
Qed.

Lemma hoare_certs p :
  hoare (inv d L F) (look (fun w => certutil_CertsFromFile w (d +:+ p)))
        (fun _ => inv d L (FCerts p :: F)) (fun _ => True).
Proof.
  apply (hoare_step d L [] F (fun _ => [FCerts p])).
  - apply touches_look.
  - apply clear_of_nil.
  - intros w a w' [E ->]%look_Ok_inv _ _. constructor; [|constructor]. simpl.
    unfold has_certs. unfold certutil_CertsFromFile in *.
    destruct (read_data w (d +:+ p)) as [x|]; [|done].
    unfold certutil_ParseCertsPEM in *. destruct x; try done.
    destruct (certs_of blocks) as [|c0 cs]; [done|]. injection E as <-. eauto.
Qed.

Lemma hoare_write p data :
  clear_of F [p] = true -> mem p L = false ->
  hoare (inv d L F) (os_WriteFile (d +:+ p) data)
        (fun _ => inv d L (FWritable p :: F)) (fun _ => True).
Proof.
  intros Hcl HL.
  apply (hoare_step d L [p] F (fun _ => [FWritable p])); [|done|].
  - apply touches_os_WriteFile.
    + apply elem_of_under. left.
    + by apply not_elem_of_under_mem.
  - intros w [] w' E _ _. constructor; [|constructor]. simpl.
    assert (Hd : denied w' = denied w).
    { unfold os_WriteFile in E. destruct (decide _); by inversion E. }
    apply os_WriteFile_Ok in E as [E _]. by rewrite Hd.
Qed.

Lemma hoare_if_KubeConfig (b : bool) kc url ca cert key :
  clear_of F [kc] = true -> mem kc L = false ->
  hoare (inv d L F)
        (if b then KubeConfig (d +:+ kc) url ca cert key else ret tt)
        (fun _ => inv d L F) (fun _ => True).
Proof.
  intros Hcl HL. eapply (hoare_skip d L [kc]); [|done].
  destruct b; [|apply touches_ret].
  apply touches_KubeConfig.
  - apply elem_of_under. left.
  - by apply not_elem_of_under_mem.
Qed.

Lemma hoare_key p force :
  clear_of F [p] = true -> mem p L = false ->
  hoare (inv d L F) (certutil_LoadOrGenerateKeyFile (d +:+ p) force)
        (fun _ => inv d L (FKey p :: F)) (fun _ => True).
Proof.
  intros Hcl HL.
  apply (hoare_step d L [p] F (fun _ => [FKey p])); [|done|].
  - apply touches_certutil_LoadOrGenerateKeyFile.
    + apply elem_of_under. left.
    + by apply not_elem_of_under_mem.
  - intros w a w' E _ _. constructor; [|constructor]. simpl.
    apply certutil_LoadOrGenerateKeyFile_Ok in E as [E1 E2].
    exists a.1. done.
Qed.

Lemma touches_leaf regen cn org sans usage ca cakey cert key :
  disjointb [cert; key] L = true ->
  touches (under d L) (under d [cert; key])
    (createClientCertKey regen cn org sans usage (d +:+ ca) (d +:+ cakey)
                         (d +:+ cert) (d +:+ key)).
Proof.
  intros HL. apply touches_createClientCertKey.
  - apply elem_of_under. left.
  - apply elem_of_under. right; left.
  - apply not_elem_of_under_mem. eapply disjointb_mem_false; [done|]. left.
  - apply not_elem_of_under_mem. eapply disjointb_mem_false; [done|]. right; left.
Qed.

Lemma leaf_post regen cn org sans usage ca cakey cert key w a w' :
  disjointb [cert; key] L = true ->
  String.eqb cert key = false -> String.eqb ca cert = false -> String.eqb ca key = false ->
  createClientCertKey regen cn org sans usage (d +:+ ca) (d +:+ cakey)
                      (d +:+ cert) (d +:+ key) w = (Ok a, w') ->
  separated (under d L) w ->
  holds d (FLeaf cn org sans ca cert key) w'.
Proof.
  intros HL H1 H2 H3 E Hsep. simpl.
  eapply createClientCertKey_Ok; [done|done| | | | | |done].
  - apply not_elem_of_under_mem. eapply disjointb_mem_false; [done|]. left.
  - apply not_elem_of_under_mem. eapply disjointb_mem_false; [done|]. right; left.
  - by apply under_ne.
  - by apply under_ne.
  - by apply under_ne.
Qed.

Lemma hoare_leaf regen cn org sans usage ca cakey cert key :
  clear_of F [cert; key] = true -> disjointb [cert; key] L = true ->
  String.eqb cert key = false -> String.eqb ca cert = false -> String.eqb ca key = false ->
  hoare (inv d L F)
        (createClientCertKey regen cn org sans usage (d +:+ ca) (d +:+ cakey)
                             (d +:+ cert) (d +:+ key))
        (fun _ => inv d L (FLeaf cn org sans ca cert key :: F)) (fun _ => True).
Proof.
  intros Hcl HL H1 H2 H3.
  apply (hoare_step d L [cert; key] F (fun _ => [FLeaf cn org sans ca cert key]));
    [by apply touches_leaf|done|].
  intros w a w' E Hsep _. constructor; [|constructor].
  by eapply leaf_post.
Qed.

(** A forced leaf has read the certificate of its CA. *)
Lemma createClientCertKey_forced cn org sans usage ca cakey cert key w a w' :
  createClientCertKey true cn org sans usage ca cakey cert key w = (Ok a, w') ->
  has_certs w ca.
Proof.
  unfold createClientCertKey. intros E.
  apply bind_Ok_inv in E as (regen' & w1 & [-> ->]%gets_Ok_inv & E).
  apply bind_Ok_inv in E as (present & w1 & [-> ->]%gets_Ok_inv & E).
  simpl in E.
  apply bind_Ok_inv in E as (caKey & w1 & [_ ->]%look_Ok_inv & E).
  apply bind_Ok_inv in E as (caCerts & w1 & [Eca ->]%look_Ok_inv & E).
  apply bind_Ok_inv in E as (kb & w1 & Ek & E).
  apply bind_Ok_inv in E as (k & w2 & [_ ->]%of_result_Ok_inv & E).
  apply bind_Ok_inv in E as (caCert0 & w2 & E0 & E).
  destruct caCerts as [|c0 cs]; [done|]. by exists c0, cs.
Qed.

Lemma hoare_leaf_forced cn org sans usage ca cakey cert key :
  clear_of F [cert; key] = true -> disjointb [cert; key] L = true ->
  String.eqb cert key = false -> String.eqb ca cert = false -> String.eqb ca key = false ->
  hoare (inv d L F)
        (createClientCertKey true cn org sans usage (d +:+ ca) (d +:+ cakey)
                             (d +:+ cert) (d +:+ key))
        (fun _ => inv d L (FLeaf cn org sans ca cert key :: FCerts ca :: F))
        (fun _ => True).
Proof.
  intros Hcl HL H1 H2 H3.
  apply (hoare_step d L [cert; key] F
           (fun _ => [FLeaf cn org sans ca cert key; FCerts ca]));
    [by apply touches_leaf|done|].
  intros w a w' E Hsep _. constructor; [by eapply leaf_post|].
  constructor; [|constructor].
  eapply (holds_touched d L [cert; key] (FCerts ca) w w').
  - eapply touches_leaf; [done|]. apply E.
  - done.
  - simpl. unfold mem. simpl. rewrite H2, H3. done.
  - simpl. by eapply createClientCertKey_forced.
Qed.

End FirstRun.

(** ** Links and removals *)

Lemma os_Link_Ok src dst w w' :
  os_Link src dst w = (Ok tt, w') ->
  exists f, files w !! src = Some f /\ files w !! dst = None
            /\ (dst ∉ denied w)
            /\ w' = set_files (<[dst := f]> (files w)) w.
Proof.
  unfold os_Link. destruct (decide _) as [|Hd]; [done|].
  destruct (files w !! src) as [f|] eqn:Es; [|done].
  destruct (files w !! dst) eqn:Ed; [done|]. intros [= <-].
  exists f. repeat split; try done. tauto.
Qed.

Lemma touches_os_Link L W src dst :
  src ∈ L -> dst ∈ L -> dst ∈ W -> touches L W (os_Link src dst).
Proof.
  intros HsL HdL HW w r w' E.
  destruct r as [[]|e].
  2:{ assert (w' = w) as ->; [|apply touched_refl].
      unfold os_Link in E. destruct (decide _); [by inversion E|].
      destruct (files w !! src); [|by inversion E].
      destruct (files w !! dst); by inversion E. }
  apply os_Link_Ok in E as (f & Es & Ed & _ & ->).
  split; [done|]. split; [done|]. split.
  { exists []. split; [done|]. intros p Hp. by inversion Hp. }
  split.
  { intros q Hq. simpl. destruct (decide (dst = q)) as [->|Hne].
    - rewrite lookup_insert_eq. eauto.
    - by rewrite lookup_insert_ne. }
  intros Hs. split.
  - intros x y f' g' Ex Ey Ei. simpl in Ex, Ey.
    destruct (decide (x = dst)) as [->|Hx]; destruct (decide (y = dst)) as [->|Hy].
    + by left.
    + rewrite lookup_insert_eq in Ex. rewrite lookup_insert_ne in Ey by done.
      injection Ex as <-. right. split; [done|].
      destruct (Hs src y f g' Es Ey Ei) as [<-|[_ ?]]; done.
    + rewrite lookup_insert_eq in Ey. rewrite lookup_insert_ne in Ex by done.
      injection Ey as <-. right. split; [|done].
      destruct (Hs x src f' f Ex Es Ei) as [->|[? _]]; done.
    + rewrite lookup_insert_ne in Ex by done.
      rewrite lookup_insert_ne in Ey by done. eauto.
  - intros q Hq. simpl. rewrite lookup_insert_ne; [done|]. intros ->. done.
Qed.

Lemma cleanupLegacyCerts_run (config : Control) (w : World) :
  let proxy := ClientKubeProxyCert (Runtime config) in
  let controller := ClientK3sControllerCert (Runtime config) in
  ((proxy ∉ denied w) -> (controller ∉ denied w) ->
   cleanupLegacyCerts config w
   = (Ok tt, set_files (delete controller (delete proxy (files w))) w))
  /\ (proxy ∈ denied w -> cleanupLegacyCerts config w = (Err ErrPermission, w))
  /\ ((proxy ∉ denied w) -> controller ∈ denied w ->
      cleanupLegacyCerts config w
      = (Err ErrPermission, set_files (delete proxy (files w)) w)).
Proof.
  intros proxy controller.
  assert (Hrm : forall p (rest : M unit) w0, (p ∉ denied w0) ->
            match os_Remove p w0 with
            | (Err ErrNotExist, w') => rest w'
            | (Err e, w') => (Err e, w')
            | (Ok _, w') => rest w'
            end = rest (set_files (delete p (files w0)) w0)).
  { intros p rest w0 Hd. unfold os_Remove. rewrite decide_False by done.
    destruct (files w0 !! p) eqn:E; [done|].
    rewrite delete_id by done. by rewrite set_files_id. }
  assert (Hdn : forall p (rest : M unit) w0, p ∈ denied w0 ->
            match os_Remove p w0 with
            | (Err ErrNotExist, w') => rest w'
            | (Err e, w') => (Err e, w')
            | (Ok _, w') => rest w'
            end = (Err ErrPermission, w0)).
  { intros p rest w0 Hd. unfold os_Remove. by rewrite decide_True. }
  repeat split.
  - intros Hd1 Hd2. unfold cleanupLegacyCerts. simpl. fold proxy controller.
    rewrite Hrm by done. rewrite Hrm by done. done.
  - intros Hd. unfold cleanupLegacyCerts. simpl. fold proxy.
    by rewrite Hdn.
  - intros Hd1 Hd2. unfold cleanupLegacyCerts. simpl. fold proxy controller.
    rewrite Hrm by done. by rewrite Hdn.
Qed.

Lemma cleanupLegacyCerts_Ok config w w' :
  cleanupLegacyCerts config w = (Ok tt, w') ->
  let proxy := ClientKubeProxyCert (Runtime config) in
  let controller := ClientK3sControllerCert (Runtime config) in
  (proxy ∉ denied w) /\ (controller ∉ denied w)
  /\ w' = set_files (delete controller (delete proxy (files w))) w.
Proof.
  intros E proxy controller.
  destruct (cleanupLegacyCerts_run config w) as (H1 & H2 & H3).
  fold proxy controller in H1, H2, H3.
  destruct (decide (proxy ∈ denied w)) as [Hd1|Hd1].
  { rewrite H2 in E by done. done. }
  destruct (decide (controller ∈ denied w)) as [Hd2|Hd2].
  { rewrite H3 in E by done. done. }
  rewrite H1 in E by done. by injection E as <-.
Qed.

Lemma separated_delete L p w :
  separated L w -> separated L (set_files (delete p (files w)) w).
Proof.
  intros Hs x y f g Ex Ey Ei. simpl in Ex, Ey.
  apply lookup_delete_Some in Ex as [_ Ex]. apply lookup_delete_Some in Ey as [_ Ey].
  eauto.
Qed.

(** ** The file names of [CreateRuntimeCertFiles] *)

#[local] Arguments String.append !s1 s2 : simpl nomatch.

Ltac norm_paths :=
  unfold getSigningCertFactory;
  cbn [Runtime DataDir CreateRuntimeCertFiles with_Runtime filepath_Join String.append
       version_Program
       ClientCA ClientCAKey ServerCA ServerCAKey RequestHeaderCA RequestHeaderCAKey IPSECKey
       ServiceKey PasswdFile NodePasswdFile SigningClientCA SigningServerCA ServiceCurrentKey
       KubeConfigAdmin KubeConfigSupervisor KubeConfigController KubeConfigScheduler
       KubeConfigAPIServer KubeConfigCloudController ClientAdminCert ClientAdminKey
       ClientSupervisorCert ClientSupervisorKey ClientControllerCert ClientControllerKey
       ClientCloudControllerCert ClientCloudControllerKey ClientSchedulerCert ClientSchedulerKey
       ClientKubeAPICert ClientKubeAPIKey ClientKubeProxyCert ClientKubeProxyKey
       ClientK3sControllerCert ClientK3sControllerKey ServingKubeAPICert ServingKubeAPIKey
       ServingKubeSchedulerCert ServingKubeSchedulerKey ServingKubeControllerCert
       ServingKubeControllerKey ClientKubeletKey ServingKubeletKey EgressSelectorConfig
       CloudControllerConfig ClientAuthProxyCert ClientAuthProxyKey ETCDServerCA ETCDServerCAKey
       ETCDPeerCA ETCDPeerCAKey ServerETCDCert ServerETCDKey PeerServerClientETCDCert
       PeerServerClientETCDKey ClientETCDCert ClientETCDKey
       DisableETCD EncryptSecrets EncryptProvider Token AgentToken SANs ClusterDomain
       APIServerPort SupervisorPort EgressSelectorMode_ DisableServiceLB ServiceLBNamespace
       Rootless DisableCCM SystemDefaultRegistry Loopback BindAddressOrLoopback].

Ltac norm_paths_in H :=
  unfold getSigningCertFactory in H;
  cbn [Runtime DataDir CreateRuntimeCertFiles with_Runtime filepath_Join String.append
       version_Program
       ClientCA ClientCAKey ServerCA ServerCAKey RequestHeaderCA RequestHeaderCAKey IPSECKey
       ServiceKey PasswdFile NodePasswdFile SigningClientCA SigningServerCA ServiceCurrentKey
       KubeConfigAdmin KubeConfigSupervisor KubeConfigController KubeConfigScheduler
       KubeConfigAPIServer KubeConfigCloudController ClientAdminCert ClientAdminKey
       ClientSupervisorCert ClientSupervisorKey ClientControllerCert ClientControllerKey
       ClientCloudControllerCert ClientCloudControllerKey ClientSchedulerCert ClientSchedulerKey
       ClientKubeAPICert ClientKubeAPIKey ClientKubeProxyCert ClientKubeProxyKey
       ClientK3sControllerCert ClientK3sControllerKey ServingKubeAPICert ServingKubeAPIKey
       ServingKubeSchedulerCert ServingKubeSchedulerKey ServingKubeControllerCert
       ServingKubeControllerKey ClientKubeletKey ServingKubeletKey EgressSelectorConfig
       CloudControllerConfig ClientAuthProxyCert ClientAuthProxyKey ETCDServerCA ETCDServerCAKey
       ETCDPeerCA ETCDPeerCAKey ServerETCDCert ServerETCDKey PeerServerClientETCDCert
       PeerServerClientETCDKey ClientETCDCert ClientETCDKey
       DisableETCD EncryptSecrets EncryptProvider Token AgentToken SANs ClusterDomain
       APIServerPort SupervisorPort EgressSelectorMode_ DisableServiceLB ServiceLBNamespace
       Rootless DisableCCM SystemDefaultRegistry Loopback BindAddressOrLoopback] in H.

(** Membership of a path below the data directory, by computation on the
    remainders. *)
Ltac und :=
  first [ apply elem_of_under_mem; exact eq_refl
        | apply not_elem_of_under_mem; exact eq_refl
        | apply under_ne; exact eq_refl ].

Lemma hoare_cleanup c :
  hoare (inv (DataDir c) [] []) (cleanupLegacyCerts (CreateRuntimeCertFiles c))
        (fun _ => inv (DataDir c) []
                    [FAbsent "/tls/client-k3s-controller.crt";
                     FAbsent "/tls/client-kube-proxy.crt"])
        (fun _ => True).
Proof.
  intros w r w' [Hsep _] E. destruct r as [[]|]; [|done].
  apply cleanupLegacyCerts_Ok in E. norm_paths_in E. destruct E as (Hd1 & Hd2 & ->).
  split.
  - rewrite <- (set_files_id w) in Hsep.
    apply (separated_delete _ (DataDir c +:+ "/tls/client-kube-proxy.crt")) in Hsep.
    apply (separated_delete _ (DataDir c +:+ "/tls/client-k3s-controller.crt")) in Hsep.
    exact Hsep.
  - constructor; [|constructor; [|constructor]]; simpl;
      unfold lookup_path; simpl; rewrite decide_False by done.
    + by rewrite lookup_delete_eq.
    + destruct (decide (DataDir c +:+ "/tls/client-k3s-controller.crt"
                        = DataDir c +:+ "/tls/client-kube-proxy.crt")) as [Heq|Hne].
      * rewrite Heq. by rewrite lookup_delete_eq.
      * rewrite lookup_delete_ne by done. by rewrite lookup_delete_eq.
Qed.

Lemma hoare_serverCA c F :
  clear_of F ["/tls/server-ca.crt"; "/tls/server-ca.key"; "/tls/server-ca.nochain.crt"] = true ->
  hoare (inv (DataDir c) [] F) (createServerSigningCertKey (CreateRuntimeCertFiles c))
        (fun regen => inv (DataDir c) legacy_links
           (FCertsUnless regen "/tls/server-ca.crt"
            :: FExists ["/tls/server-ca.crt"; "/tls/server-ca.key"] :: F))
        (fun _ => True).
Proof.
  intros Hcl w r w' [Hsep Hset] E. destruct r as [regen|]; [|done].
  unfold createServerSigningCertKey in E. norm_paths_in E. cbv zeta in E.
  set (d := DataDir c) in *.
  assert (Hsepl : separated (under d legacy_links) w).
  { eapply separated_weaken; [|exact Hsep]. intros p Hp. by inversion Hp. }
  apply bind_Ok_inv in E as (legacy & w1 & [-> ->]%gets_Ok_inv & E).
  destruct (_ && _)%bool eqn:Eleg.
  - apply bind_Ok_inv in E as ([] & w1 & E1 & E).
    apply bind_Ok_inv in E as ([] & w2 & E2 & [-> <-]%ret_Ok_inv).
    assert (Ht1 : touched (under d legacy_links)
                    (under d ["/tls/server-ca.crt"; "/tls/server-ca.key";
                              "/tls/server-ca.nochain.crt"]) w w1).
    { eapply touches_os_Link; [| | |exact E1]; und. }
    assert (Ht2 : touched (under d legacy_links)
                    (under d ["/tls/server-ca.crt"; "/tls/server-ca.key";
                              "/tls/server-ca.nochain.crt"]) w1 w').
    { eapply touches_os_Link; [| | |exact E2]; und. }
    pose proof (touched_trans _ _ _ _ _ Ht1 Ht2) as Ht.
    split; [by apply Ht|].
    constructor; [simpl; done|]. constructor; [|by eapply settled_touched].
    cbn [holds under map]. apply os_Link_Ok in E1 as (f1 & Es1 & Ed1 & Hd1 & ->).
    apply os_Link_Ok in E2 as (f2 & Es2 & Ed2 & Hd2 & ->).
    cbn [denied files set_files] in *.
    rewrite !exists_cons, exists_nil. unfold lookup_path. cbn [denied files set_files].
    rewrite !decide_False by done.
    rewrite lookup_insert_eq.
    destruct (decide (d +:+ "/tls/server-ca.key" = d +:+ "/tls/server-ca.crt")) as [Heq|Hne].
    + rewrite Heq. by rewrite lookup_insert_eq.
    + rewrite lookup_insert_ne by done. by rewrite lookup_insert_eq.
  - apply bind_Ok_inv in E as (regen0 & w1 & E1 & E).
    apply bind_Ok_inv in E as (certs & w2 & [Ecerts ->]%look_Ok_inv & E).
    apply bind_Ok_inv in E as (cert0 & w2 & E0 & E).
    apply bind_Ok_inv in E as ([] & w3 & Ew & [-> <-]%ret_Ok_inv).
    destruct certs as [|c0 cs]; [done|]. apply ret_Ok_inv in E0 as [-> ->].
    assert (Ht1 : touched (under d [])
                    (under d ["/tls/server-ca.crt"; "/tls/server-ca.key";
                              "/tls/server-ca.nochain.crt"]) w w1).
    { eapply touches_createSigningCertKey; [| | | |exact E1];
        first [und | by intros ?%elem_of_nil]. }
    assert (Ht2 : touched (under d [])
                    (under d ["/tls/server-ca.crt"; "/tls/server-ca.key";
                              "/tls/server-ca.nochain.crt"]) w1 w').
    { eapply touches_os_WriteFile; [| |exact Ew];
        first [und | by intros ?%elem_of_nil]. }
    pose proof (touched_trans _ _ _ _ _ Ht1 Ht2) as Ht.
    assert (Hsep1 : separated (under d []) w1) by (by apply Ht1).
    split.
    { eapply separated_weaken; [|by apply Ht]. intros p Hp. by inversion Hp. }
    constructor; [|constructor; [|by eapply settled_touched]].
    + simpl. intros _. exists c0, cs. rewrite <- Ecerts.
      apply certutil_CertsFromFile_same.
      assert (Ht2' : touched (under d []) [d +:+ "/tls/server-ca.nochain.crt"] w1 w').
      { eapply touches_os_WriteFile; [| |exact Ew];
          [left|by intros ?%elem_of_nil]. }
      eapply touched_same_at; [exact Ht2'|done|].
      intros Hin%list_elem_of_singleton. revert Hin. und.
    + cbn [holds under map]. eapply touched_exists; [exact Ht2|].
      by eapply createSigningCertKey_Ok.
Qed.

(** [touches] for a function body, by its structure. *)
Ltac touch :=
  repeat first
    [ apply touches_bind; [|intros ?]
    | apply touches_ret
    | apply touches_fail
    | apply touches_look
    | apply touches_gets
    | apply touches_of_result
    | apply touches_index0
    | apply touches_time_Now
    | apply touches_rand_Read
    | apply touches_set_IPSECPSK
    | apply touches_set_AgentToken
    | apply touches_set_ServerToken
    | apply touches_os_WriteFile; [und|und]
    | apply touches_util_AtomicWrite; und
    | apply touches_certutil_LoadOrGenerateKeyFile; [und|und]
    | apply touches_createSigningCertKey; [und|und|und|und]
    | apply touches_createClientCertKey; [und|und|und|und]
    | match goal with |- touches _ _ (if ?b then _ else _) => destruct b end
    | match goal with |- touches _ _ (match ?x with _ => _ end) => destruct x end
    | match goal with |- touches _ _ (let (_, _) := ?x in _) => destruct x end ].

Lemma touches_genServiceAccount c :
  touches (under (DataDir c) legacy_links)
          (under (DataDir c) ["/tls/service.key"; "/tls/service.current.key"])
          (genServiceAccount (Runtime (CreateRuntimeCertFiles c))).
Proof. unfold genServiceAccount. norm_paths. unfold certutil_NewPrivateKey. touch. Qed.

Lemma touches_util_Random L W n : touches L W (util_Random n).
Proof. unfold util_Random. touch. Qed.

Lemma touches_genUsers c :
  touches (under (DataDir c) legacy_links) (under (DataDir c) ["/cred/passwd"])
          (genUsers (CreateRuntimeCertFiles c)).
Proof.
  unfold genUsers, getServerPass, passwd_Write. norm_paths. cbv zeta.
  touch; apply touches_util_Random.
Qed.

Lemma touches_genEncryptedNetworkInfo c :
  touches (under (DataDir c) legacy_links) (under (DataDir c) ["/cred/ipsec.psk"])
          (genEncryptedNetworkInfo (CreateRuntimeCertFiles c)).
Proof.
  unfold genEncryptedNetworkInfo. norm_paths. cbv zeta.
  touch; apply touches_util_Random.
Qed.

Lemma touches_genEncryptionConfigAndState c :
  EncryptSecrets c = true ->
  touches (under (DataDir c) legacy_links)
          (under (DataDir c) ["/cred/encryption-config.json"; "/cred/encryption-state.json"])
          (genEncryptionConfigAndState (CreateRuntimeCertFiles c)).
Proof.
  intros Hen. unfold genEncryptionConfigAndState.
  cbn [Runtime DataDir CreateRuntimeCertFiles with_Runtime filepath_Join String.append
       EncryptionConfig EncryptionHash EncryptSecrets EncryptProvider].
  rewrite Hen. cbn [negb]. cbv zeta.
  touch.
Qed.

Lemma touches_genEgressSelectorConfig c :
  touches (under (DataDir c) legacy_links) (under (DataDir c) ["/etc/egress-selector-config.yaml"])
          (genEgressSelectorConfig (CreateRuntimeCertFiles c)).
Proof. unfold genEgressSelectorConfig. norm_paths. cbv zeta. touch. Qed.

Lemma touches_genCloudConfig c :
  touches (under (DataDir c) legacy_links) (under (DataDir c) ["/etc/cloud-config.yaml"])
          (genCloudConfig (CreateRuntimeCertFiles c)).
Proof. unfold genCloudConfig. norm_paths. cbv zeta. touch. Qed.

Lemma touches_readTokens c :
  touches (under (DataDir c) legacy_links) (under (DataDir c) [])
          (readTokens (Runtime (CreateRuntimeCertFiles c))).
Proof. unfold readTokens. norm_paths. touch. Qed.

Lemma certutil_PrivateKeyFromFile_key_loads w p k :
  certutil_PrivateKeyFromFile w p = Ok k -> key_loads w p.
Proof.
  unfold certutil_PrivateKeyFromFile, key_loads.
  destruct (read_data w p) as [x|]; [|done]. intros E. exists x. by rewrite E.
Qed.

Lemma key_loads_PrivateKeyFromFile w p :
  key_loads w p -> exists k, certutil_PrivateKeyFromFile w p = Ok k.
Proof.
  intros (x & E & Hp). unfold certutil_PrivateKeyFromFile. rewrite E.
  destruct (certutil_ParsePrivateKeyPEM x); [eauto|done].
Qed.

Lemma os_WriteFile_denied p data w r w' :
  os_WriteFile p data w = (r, w') -> denied w' = denied w.
Proof. unfold os_WriteFile. destruct (decide _); by intros [= _ <-]. Qed.

Lemma hoare_genServiceAccount c F :
  clear_of F ["/tls/service.key"; "/tls/service.current.key"] = true ->
  hoare (inv (DataDir c) legacy_links F)
        (genServiceAccount (Runtime (CreateRuntimeCertFiles c)))
        (fun _ => inv (DataDir c) legacy_links
                    (FKey "/tls/service.key" :: FWritable "/tls/service.current.key" :: F))
        (fun _ => True).
Proof.
  intros Hcl.
  apply (hoare_step (DataDir c) legacy_links
           ["/tls/service.key"; "/tls/service.current.key"] F
           (fun _ => [FKey "/tls/service.key"; FWritable "/tls/service.current.key"]));
    [apply touches_genServiceAccount|done|].
  intros w [] w' E Hsep _. set (d := DataDir c) in *.
  unfold genServiceAccount in E. norm_paths_in E. fold d in E.
  apply bind_Ok_inv in E as (st & w0 & [-> ->]%gets_Ok_inv & E).
  apply bind_Ok_inv in E as ([] & w1 & E1 & E).
  apply bind_Ok_inv in E as (key & w2 & [Ekey ->]%look_Ok_inv & E).
  assert (Ht1 : touched (under d legacy_links) (under d ["/tls/service.key"]) w w1).
  { revert E1. generalize (os_Stat w (d +:+ "/tls/service.key")). intros st.
    assert (Htt : touches (under d legacy_links) (under d ["/tls/service.key"])
              match st with
              | Ok _ => ret tt
              | Err ErrNotExist =>
                  key0 <- certutil_NewPrivateKey ;;
                  certutil_WriteKey (d +:+ "/tls/service.key")
                                    (certutil_EncodePrivateKeyPEM key0)
              | Err e => fail e
              end).
    { unfold certutil_NewPrivateKey. touch. }
    apply Htt. }
  assert (Ht2 : touched (under d legacy_links) (under d ["/tls/service.current.key"]) w1 w').
  { eapply touches_os_WriteFile; [| |exact E]; und. }
  assert (Hsep1 : separated (under d legacy_links) w1) by (by apply Ht1).
  constructor; [|constructor; [|constructor]].
  - eapply (holds_touched d legacy_links ["/tls/service.current.key"]
              (FKey "/tls/service.key")); [exact Ht2|done|done|].
    simpl. by eapply certutil_PrivateKeyFromFile_key_loads.
  - simpl. rewrite (os_WriteFile_denied _ _ _ _ _ E).
    by apply os_WriteFile_Ok in E as [E _].
Qed.

Lemma passwd_Read_not_denied w p : is_Ok (passwd_Read w p) = true -> p ∉ denied w.
Proof.
  unfold passwd_Read, read_data, lookup_path.
  destruct (decide (p ∈ denied w)); [done|]. done.
Qed.

Lemma util_AtomicWrite_Ok p data w w' :
  util_AtomicWrite p data w = (Ok tt, w') ->
  (p ∉ denied w) /\ read_data w' p = Ok data.
Proof.
  unfold util_AtomicWrite. destruct (decide (p ∈ denied w)) as [|Hd]; [done|].
  intros [= <-]. split; [done|].
  unfold read_data, lookup_path. simpl. rewrite decide_False by done.
  by rewrite lookup_insert_eq.
Qed.

Lemma passwd_Write_Ok (pw : Passwd) p w w' :
  passwd_Write pw p w = (Ok tt, w') ->
  is_Ok (passwd_Read w p) = true -> is_Ok (passwd_Read w' p) = true.
Proof.
  unfold passwd_Write. destruct (changed pw).
  - intros E _. apply util_AtomicWrite_Ok in E as [_ E].
    unfold passwd_Read. by rewrite E.
  - by intros [_ ->]%ret_Ok_inv.
Qed.

Lemma hoare_genUsers c F :
  clear_of F ["/cred/passwd"] = true ->
  hoare (inv (DataDir c) legacy_links F) (genUsers (CreateRuntimeCertFiles c))
        (fun _ => inv (DataDir c) legacy_links (FTable "/cred/passwd" :: F))
        (fun _ => True).
Proof.
  intros Hcl.
  apply (hoare_step (DataDir c) legacy_links ["/cred/passwd"] F
           (fun _ => [FTable "/cred/passwd"]));
    [apply touches_genUsers|done|].
  intros w [] w' E Hsep _. set (d := DataDir c) in *.
  unfold genUsers in E. norm_paths_in E. cbv zeta in E. fold d in E.
  apply bind_Ok_inv in E as (p0 & w0 & [Eread ->]%look_Ok_inv & E).
  apply bind_Ok_inv in E as (p1 & w0 & [_ ->]%of_result_Ok_inv & E).
  apply bind_Ok_inv in E as (serverPass & w1 & Esp & E).
  apply bind_Ok_inv in E as (p2 & w2 & [_ ->]%of_result_Ok_inv & E).
  apply bind_Ok_inv in E as (p3 & w2 & [_ ->]%of_result_Ok_inv & E).
  constructor; [|constructor]. simpl. fold d.
  apply passwd_Write_Ok in E; [done|].
  assert (Ht : touched (under d legacy_links) (under d []) w w1).
  { revert Esp. unfold getServerPass. destruct (decide _).
    - apply touches_util_Random.
    - apply touches_ret. }
  rewrite (passwd_Read_same (d +:+ "/cred/passwd") w w1).
  - by rewrite Eread.
  - eapply touched_same_at; [exact Ht|done|]. intros Hin. by inversion Hin.
Qed.

Lemma length_append_nl s : (0 < String.length (s +:+ nl))%nat.
Proof. induction s; simpl; lia. Qed.

Lemma hoare_genEncryptedNetworkInfo c F :
  clear_of F ["/cred/ipsec.psk"] = true ->
  hoare (inv (DataDir c) legacy_links F) (genEncryptedNetworkInfo (CreateRuntimeCertFiles c))
        (fun _ => inv (DataDir c) legacy_links (FNonEmpty "/cred/ipsec.psk" :: F))
        (fun _ => True).
Proof.
  intros Hcl.
  apply (hoare_step (DataDir c) legacy_links ["/cred/ipsec.psk"] F
           (fun _ => [FNonEmpty "/cred/ipsec.psk"]));
    [apply touches_genEncryptedNetworkInfo|done|].
  intros w [] w' E Hsep _. set (d := DataDir c) in *.
  unfold genEncryptedNetworkInfo in E. norm_paths_in E. cbv zeta in E. fold d in E.
  apply bind_Ok_inv in E as (present & w0 & [-> ->]%gets_Ok_inv & E).
  constructor; [|constructor]. simpl. fold d.
  destruct (stat_nonempty w (d +:+ "/cred/ipsec.psk")) eqn:Epresent.
  - apply bind_Ok_inv in E as (psk & w0 & [_ ->]%look_Ok_inv & E).
    rewrite (stat_nonempty_same (d +:+ "/cred/ipsec.psk") w w'); [done|].
    injection E as <-. done.
  - apply bind_Ok_inv in E as (psk & w1 & _ & E).
    apply bind_Ok_inv in E as ([] & w2 & _ & E).
    apply os_WriteFile_Ok in E as [_ E].
    unfold stat_nonempty, os_Stat. unfold read_data in E.
    destruct (lookup_path w' (d +:+ "/cred/ipsec.psk")) as [f|]; [|done].
    injection E as E. rewrite E. simpl.
    apply bool_decide_eq_true. apply length_append_nl.
Qed.

Lemma hoare_write_text c F p b :
  clear_of F [p] = true -> mem p legacy_links = false ->
  hoare (inv (DataDir c) legacy_links F) (os_WriteFile (DataDir c +:+ p) b)
        (fun _ => inv (DataDir c) legacy_links (FWritable p :: F)) (fun _ => True).
Proof. apply hoare_write. Qed.

Lemma hoare_genEgressSelectorConfig c F :
  clear_of F ["/etc/egress-selector-config.yaml"] = true ->
  hoare (inv (DataDir c) legacy_links F) (genEgressSelectorConfig (CreateRuntimeCertFiles c))
        (fun _ => inv (DataDir c) legacy_links
                    (FWritable "/etc/egress-selector-config.yaml" :: F))
        (fun _ => True).
Proof.
  intros Hcl. unfold genEgressSelectorConfig. norm_paths. cbv zeta.
  by apply hoare_write.
Qed.

Lemma hoare_genCloudConfig c F :
  clear_of F ["/etc/cloud-config.yaml"] = true ->
  hoare (inv (DataDir c) legacy_links F) (genCloudConfig (CreateRuntimeCertFiles c))
        (fun _ => inv (DataDir c) legacy_links (FWritable "/etc/cloud-config.yaml" :: F))
        (fun _ => True).
Proof.
  intros Hcl. unfold genCloudConfig. norm_paths. cbv zeta.
  by apply hoare_write.
Qed.

Lemma hoare_readTokens c F :
  hoare (inv (DataDir c) legacy_links F) (readTokens (Runtime (CreateRuntimeCertFiles c)))
        (fun _ => inv (DataDir c) legacy_links F) (fun _ => True).
Proof. apply hoare_pure_skip, touches_readTokens. Qed.

Lemma length_nonempty (s : string) : s <> "" -> (0 < String.length s)%nat.
Proof. destruct s; [done|simpl; lia]. Qed.

Lemma hoare_genEncryptionConfigAndState c F :
  (forall x, json_Marshal_encryption x <> "") ->
  EncryptSecrets c = true ->
  clear_of F ["/cred/encryption-config.json"; "/cred/encryption-state.json"] = true ->
  hoare (inv (DataDir c) legacy_links F)
        (genEncryptionConfigAndState (CreateRuntimeCertFiles c))
        (fun _ => inv (DataDir c) legacy_links
           (FPure (EncryptProvider c = secretsencrypt_AESCBCProvider
                   \/ EncryptProvider c = secretsencrypt_SecretBoxProvider)
            :: FNonEmpty "/cred/encryption-config.json"
            :: FStatKnown "/cred/encryption-state.json" :: F))
        (fun _ => True).
Proof.
  intros Hjson Hen Hcl.
  apply (hoare_step (DataDir c) legacy_links
           ["/cred/encryption-config.json"; "/cred/encryption-state.json"] F
           (fun _ => [FPure (EncryptProvider c = secretsencrypt_AESCBCProvider
                             \/ EncryptProvider c = secretsencrypt_SecretBoxProvider);
                      FNonEmpty "/cred/encryption-config.json";
                      FStatKnown "/cred/encryption-state.json"]));
    [by apply touches_genEncryptionConfigAndState|done|].
  intros w [] w' E Hsep _. set (d := DataDir c) in *.
  unfold genEncryptionConfigAndState in E.
  cbn [Runtime DataDir CreateRuntimeCertFiles with_Runtime filepath_Join String.append
       EncryptionConfig EncryptionHash EncryptSecrets EncryptProvider] in E.
  rewrite Hen in E. cbn [negb] in E. cbv zeta in E. fold d in E.
  apply bind_Ok_inv in E as (keyName & w0 & Ename & E).
  assert (Hsup : EncryptProvider c = secretsencrypt_AESCBCProvider
                 \/ EncryptProvider c = secretsencrypt_SecretBoxProvider).
  { destruct (decide (EncryptProvider c = secretsencrypt_AESCBCProvider)); [by left|].
    destruct (decide (EncryptProvider c = secretsencrypt_SecretBoxProvider)); [by right|].
    done. }
  assert (w0 = w) as ->.
  { destruct (decide _); [by apply ret_Ok_inv in Ename as [_ ->]|].
    destruct (decide _); [by apply ret_Ok_inv in Ename as [_ ->]|]. done. }
  clear Ename.
  apply bind_Ok_inv in E as (present & w0 & [-> ->]%gets_Ok_inv & E).
  constructor; [exact Hsup|]. cbn [holds]. fold d.
  destruct (stat_nonempty w (d +:+ "/cred/encryption-config.json")) eqn:Epresent.
  - apply bind_Ok_inv in E as (st & w0 & [-> ->]%gets_Ok_inv & E).
    destruct (os_Stat w (d +:+ "/cred/encryption-state.json")) as [n|e] eqn:Est.
    { apply ret_Ok_inv in E as [_ ->]. constructor; [done|]. constructor; [|constructor].
      cbn [holds]. fold d. by rewrite Est. }
    destruct e;
      try (apply ret_Ok_inv in E as [_ ->]; constructor; [done|];
           constructor; [|constructor]; cbn [holds]; fold d; by rewrite Est).
    apply bind_Ok_inv in E as (cur & w0 & [_ ->]%look_Ok_inv & E).
    assert (Ht : touched (under d legacy_links) (under d ["/cred/encryption-state.json"]) w w').
    { eapply touches_os_WriteFile; [| |exact E]; und. }
    constructor.
    + eapply (holds_touched d legacy_links ["/cred/encryption-state.json"]
                (FNonEmpty "/cred/encryption-config.json")); [exact Ht|done|done|done].
    + constructor; [|constructor]. cbn [holds]. fold d.
      apply os_WriteFile_Ok in E as [_ E]. unfold os_Stat. unfold read_data in E.
      by destruct (lookup_path w' (d +:+ "/cred/encryption-state.json")).
  - apply bind_Ok_inv in E as (keyByte & w1 & Er & E).
    apply bind_Ok_inv in E as ([] & w2 & Ea & E).
    assert (Ht0 : touched (under d legacy_links) (under d []) w w1).
    { eapply touches_rand_Read. exact Er. }
    assert (Ht1 : touched (under d legacy_links) (under d ["/cred/encryption-config.json"]) w1 w2).
    { eapply touches_util_AtomicWrite; [|exact Ea]; und. }
    assert (Ht2 : touched (under d legacy_links) (under d ["/cred/encryption-state.json"]) w2 w').
    { eapply touches_os_WriteFile; [| |exact E]; und. }
    assert (Hsep2 : separated (under d legacy_links) w2).
    { apply Ht1. by apply Ht0. }
    constructor.
    + eapply (holds_touched d legacy_links ["/cred/encryption-state.json"]
                (FNonEmpty "/cred/encryption-config.json")); [exact Ht2|done|done|].
      cbn [holds]. fold d. apply util_AtomicWrite_Ok in Ea as [_ Ea].
      unfold stat_nonempty, os_Stat. unfold read_data in Ea.
      destruct (lookup_path w2 (d +:+ "/cred/encryption-config.json")) as [f|]; [|done].
      injection Ea as ->. cbn [file_bytes].
      apply bool_decide_eq_true. apply length_nonempty, Hjson.
    + constructor; [|constructor]. cbn [holds]. fold d.
      apply os_WriteFile_Ok in E as [_ E]. unfold os_Stat. unfold read_data in E.
      by destruct (lookup_path w' (d +:+ "/cred/encryption-state.json")).
Qed.

Lemma genEncryptionConfigAndState_disabled c :
  EncryptSecrets c = false ->
  genEncryptionConfigAndState (CreateRuntimeCertFiles c) = ret tt.
Proof.
  intros Hen. unfold genEncryptionConfigAndState.
  cbn [CreateRuntimeCertFiles with_Runtime EncryptSecrets]. by rewrite Hen.
Qed.

(** The steps of [GenServerDeps], one after the other. *)
Ltac side := first [ exact eq_refl | done ].

Ltac atom :=
  lazymatch goal with
  | |- hoare _ (cleanupLegacyCerts _) _ _ => eapply hoare_cleanup
  | |- hoare _ (createServerSigningCertKey _) _ _ => eapply hoare_serverCA; side
  | |- hoare _ (createSigningCertKey _ _ _) _ _ => eapply hoare_CA; side
  | |- hoare _ (look (fun w => certutil_CertsFromFile w _)) _ _ => eapply hoare_certs
  | |- hoare _ (index0 _) _ _ => eapply hoare_index0
  | |- hoare _ (certutil_WriteCert _ _) _ _ => eapply hoare_write; side
  | |- hoare _ (createClientCertKey true "kube-apiserver" _ _ _ _ _ _ _) _ _ =>
      eapply hoare_leaf_forced; side
  | |- hoare _ (createClientCertKey _ _ _ _ _ _ _ _ _) _ _ => eapply hoare_leaf; side
  | |- hoare _ (if _ then KubeConfig _ _ _ _ _ else ret tt) _ _ =>
      eapply hoare_if_KubeConfig; side
  | |- hoare _ (certutil_LoadOrGenerateKeyFile _ _) _ _ => eapply hoare_key; side
  | |- hoare _ (genServiceAccount _) _ _ => eapply hoare_genServiceAccount; side
  | |- hoare _ (genUsers _) _ _ => eapply hoare_genUsers; side
  | |- hoare _ (genEncryptedNetworkInfo _) _ _ => eapply hoare_genEncryptedNetworkInfo; side
  | |- hoare _ (genEncryptionConfigAndState _) _ _ =>
      eapply hoare_genEncryptionConfigAndState; side
  | |- hoare _ (genEgressSelectorConfig _) _ _ => eapply hoare_genEgressSelectorConfig; side
  | |- hoare _ (genCloudConfig _) _ _ => eapply hoare_genCloudConfig; side
  | |- hoare _ (readTokens _) _ _ => eapply hoare_readTokens
  | |- hoare _ (ret tt) _ _ => eapply hoare_ret_unit
  end.

Lemma inv_drop d L f F w : inv d L (f :: F) w -> inv d L F w.
Proof. intros [Hs Hf]. split; [done|]. by apply Forall_cons_1 in Hf as [_ ?]. Qed.

Lemma inv_unless_false d L p F w :
  inv d L (FCertsUnless false p :: F) w -> inv d L (FCerts p :: F) w.
Proof.
  intros [Hs Hf]. split; [done|]. apply Forall_cons_1 in Hf as [Hp ?].
  constructor; [|done]. simpl in *. auto.
Qed.

Ltac open_step :=
  lazymatch goal with
  | |- hoare _ (genCerts _) _ _ => unfold genCerts
  | |- hoare _ (genClientCerts _) _ _ => unfold genClientCerts; norm_paths; cbv zeta
  | |- hoare _ (genServerCerts _) _ _ => unfold genServerCerts; cbv zeta
  | |- hoare _ (genRequestHeaderCerts _) _ _ =>
      unfold genRequestHeaderCerts; norm_paths; cbv zeta
  | |- hoare _ (genETCDCerts _) _ _ =>
      unfold genETCDCerts; norm_paths; cbv zeta;
      repeat match goal with Hd : DisableETCD _ = _ |- _ => rewrite Hd end
  end.

Ltac chain_step :=
  cbv beta;
  lazymatch goal with
  | |- hoare _ (bind (createServerSigningCertKey _) _) _ _ =>
      eapply hoare_bind;
      [ eapply hoare_serverCA; side
      | let regen := fresh "regen" in
        intros regen; cbv beta; norm_paths; destruct regen;
        [ eapply hoare_pre; [apply inv_drop|]
        | eapply hoare_pre; [apply inv_unless_false|] ] ]
  | |- hoare _ (bind _ _) _ _ => eapply hoare_bind; [|intros ?]
  | |- hoare _ _ _ _ => first [open_step | atom]
  end.

Lemma first_run_facts c :
  CertificateRenewDays * 86400 < cert_validity ->
  (forall x, json_Marshal_encryption x <> "") ->
  hoare (inv (DataDir c) [] []) (GenServerDeps (CreateRuntimeCertFiles c))
        (fun _ => inv (DataDir c) legacy_links (bootstrap_facts c)) (fun _ => True).
Proof.
  intros Hv Hj. unfold GenServerDeps, bootstrap_facts. cbv zeta.
  destruct (EncryptSecrets c) eqn:Hen; destruct (DisableETCD c) eqn:Hd;
    rewrite ?(genEncryptionConfigAndState_disabled c Hen);
    cbn [app]; repeat chain_step.
Qed.

(** ** The steps of a later run *)

Lemma settled_In d F w f : settled d F w -> In f F -> holds d f w.
Proof. unfold settled. rewrite Forall_forall. intros Hs Hin. by apply Hs, list_elem_of_In. Qed.

Section LaterRun.
Variable d : string.
Variable F : list Fact.
Variable w0 : World.

Lemma q_stable {A} (phi : A -> Prop) (m : M A) :
  (forall w, inv d legacy_links F w -> exists a, m w = (Ok a, w) /\ phi a) ->
  hoare (quiet d F w0) m (fun a w => phi a /\ quiet d F w0 w) (quiet_err d w0).
Proof.
  intros Hm w r w' [Hinv Ht] E. destruct (Hm w Hinv) as (a & Ea & Hphi).
  rewrite Ea in E. injection E as <- <-. split; [done|]. by split.
Qed.

Lemma q_step {A} (phi : A -> Prop) W (m m' : M A) :
  (forall w, inv d legacy_links F w -> m w = m' w) ->
  touches (under d legacy_links) (under d W) m' ->
  forallb (fun s => mem s rewritten) W = true ->
  clear_of F W = true ->
  (forall w e w', inv d legacy_links F w -> m' w = (Err e, w') ->
                  d +:+ "/tls/server-ca.nochain.crt" ∈ denied w') ->
  (forall w a w', inv d legacy_links F w -> m' w = (Ok a, w') -> phi a) ->
  hoare (quiet d F w0) m (fun a w => phi a /\ quiet d F w0 w) (quiet_err d w0).
Proof.
  intros Heq Ht Hsub Hcl Herr Hval w r w' [[Hsep Hset] Hq] E.
  assert (Hinv : inv d legacy_links F w) by (by split).
  rewrite (Heq w Hinv) in E.
  pose proof (Ht _ _ _ E) as Htd.
  assert (Hq' : touched (under d legacy_links) (under d rewritten) w0 w').
  { eapply touched_trans; [exact Hq|]. eapply touched_mono; [|exact Htd].
    by apply under_subset. }
  destruct r as [a|e].
  - split; [by eapply Hval|]. split; [|done]. split; [by apply Htd|].
    by apply (settled_touched d legacy_links W F w w').
  - split; [done|]. by eapply Herr.
Qed.

Lemma q_pure {A} (phi : Prop) (m : M A) Q E :
  (phi -> hoare (quiet d F w0) m Q E) ->
  hoare (fun w => phi /\ quiet d F w0 w) m Q E.
Proof. intros Hm w r w' [Hphi Hq]. by apply Hm. Qed.

Lemma q_forget {A} (m : M A) (phi : A -> Prop) E :
  hoare (quiet d F w0) m (fun a w => phi a /\ quiet d F w0 w) E ->
  hoare (quiet d F w0) m (fun _ w => quiet d F w0 w) E.
Proof. apply hoare_conseq; [done| |done]. by intros a w [_ ?]. Qed.

Lemma q_ret_unit :
  hoare (quiet d F w0) (ret tt) (fun _ => quiet d F w0) (quiet_err d w0).
Proof. apply hoare_ret. Qed.

Lemma q_CA prefix c k :
  In (FExists [c; k]) F ->
  hoare (quiet d F w0) (createSigningCertKey prefix (d +:+ c) (d +:+ k))
        (fun b w => b = false /\ quiet d F w0 w) (quiet_err d w0).
Proof.
  intros Hin. apply q_stable. intros w [_ Hset].
  pose proof (settled_In _ _ _ _ Hset Hin) as Hex. cbn [holds] in Hex.
  exists false. split; [|done]. unfold createSigningCertKey, bind, gets.
  change (exists_ w [d +:+ c; d +:+ k]) with (exists_ w (under d [c; k])).
  by rewrite Hex.
Qed.

Lemma q_leaf cn org sans usage ca cakey cert key :
  In (FLeaf cn org sans ca cert key) F ->
  hoare (quiet d F w0)
        (createClientCertKey false cn org sans usage (d +:+ ca) (d +:+ cakey)
                             (d +:+ cert) (d +:+ key))
        (fun b w => b = false /\ quiet d F w0 w) (quiet_err d w0).
Proof.
  intros Hin. apply q_stable. intros w [_ Hset].
  pose proof (settled_In _ _ _ _ Hset Hin) as (H1 & H2 & H3).
  exists false. split; [|done]. unfold createClientCertKey, bind, gets.
  by rewrite H1, H2, H3.
Qed.

Lemma q_key p :
  In (FKey p) F ->
  hoare (quiet d F w0) (certutil_LoadOrGenerateKeyFile (d +:+ p) false)
        (fun _ w => quiet d F w0 w) (quiet_err d w0).
Proof.
  intros Hin. apply (q_forget _ (fun _ => True)). apply q_stable. intros w [_ Hset].
  destruct (settled_In _ _ _ _ Hset Hin) as (x & E & Hp).
  exists (x, false). split; [|done]. unfold certutil_LoadOrGenerateKeyFile.
  by rewrite E, Hp.
Qed.

Lemma q_certs p :
  In (FCerts p) F ->
  hoare (quiet d F w0) (look (fun w => certutil_CertsFromFile w (d +:+ p)))
        (fun cs w => cs <> [] /\ quiet d F w0 w) (quiet_err d w0).
Proof.
  intros Hin. apply q_stable. intros w [_ Hset].
  destruct (settled_In _ _ _ _ Hset Hin) as (c0 & cs & E).
  exists (c0 :: cs). split; [|done]. unfold look. by rewrite E.
Qed.

Lemma q_index0 {A} (l : list A) :
  hoare (fun w => l <> [] /\ quiet d F w0 w) (index0 l)
        (fun _ w => quiet d F w0 w) (quiet_err d w0).
Proof.
  apply q_pure. intros Hl. apply (q_forget _ (fun _ => True)). apply q_stable.
  intros w _. destruct l as [|a l]; [done|]. by exists a.
Qed.

Lemma q_write p data :
  In (FWritable p) F -> mem p rewritten = true -> mem p legacy_links = false ->
  clear_of F [p] = true ->
  hoare (quiet d F w0) (os_WriteFile (d +:+ p) data)
        (fun _ w => quiet d F w0 w) (quiet_err d w0).
Proof.
  intros Hin Hrw HL Hcl. apply (q_forget _ (fun _ => True)).
  apply (q_step _ [p] _ (os_WriteFile (d +:+ p) data)); [done| | |done| |done].
  - apply touches_os_WriteFile; [apply elem_of_under; left|by apply not_elem_of_under_mem].
  - cbn [forallb]. by rewrite Hrw.
  - intros w e w' [_ Hset] E. exfalso.
    pose proof (settled_In _ _ _ _ Hset Hin) as Hw. simpl in Hw.
    apply os_WriteFile_result in E as [[? _]|(_ & _ & ?)]; done.
Qed.

Lemma q_write_server_copy data :
  clear_of F ["/tls/server-ca.nochain.crt"] = true ->
  hoare (quiet d F w0) (os_WriteFile (d +:+ "/tls/server-ca.nochain.crt") data)
        (fun _ w => quiet d F w0 w) (quiet_err d w0).
Proof.
  intros Hcl. apply (q_forget _ (fun _ => True)).
  apply (q_step _ ["/tls/server-ca.nochain.crt"] _
           (os_WriteFile (d +:+ "/tls/server-ca.nochain.crt") data));
    [done| |done|done| |done].
  - apply touches_os_WriteFile; und.
  - intros w e w' _ E.
    apply os_WriteFile_result in E as [[? _]|(_ & -> & ?)]; done.
Qed.

Lemma q_if_false {A} (m : M A) (a : A) Q E :
  hoare (quiet d F w0) (ret a) Q E ->
  hoare (fun w => false = false /\ quiet d F w0 w) (if false then m else ret a) Q E.
Proof. intros Hm. by apply q_pure. Qed.

End LaterRun.

Lemma os_Remove_absent w p :
  lookup_path w p = Err ErrNotExist -> os_Remove p w = (Err ErrNotExist, w).
Proof.
  intros [Hd Hf]%lookup_path_NotExist. unfold os_Remove.
  by rewrite decide_False, Hf.
Qed.

Lemma exists_app w l1 l2 : exists_ w (l1 ++ l2) = (exists_ w l1 && exists_ w l2)%bool.
Proof. unfold exists_. apply forallb_app. Qed.

Lemma key_loads_stat w p : key_loads w p -> exists n, os_Stat w p = Ok n.
Proof.
  intros (x & E & _). unfold os_Stat. unfold read_data in E.
  destruct (lookup_path w p); [eauto|done].
Qed.

Lemma bind_Err_inv {A B} (m : M A) (k : A -> M B) w e w' :
  bind m k w = (Err e, w') ->
  m w = (Err e, w') \/ exists a w1, m w = (Ok a, w1) /\ k a w1 = (Err e, w').
Proof.
  intros [(a & w1 & E1 & E2)|(e' & E1 & [= ->])]%bind_inv; [right; eauto|by left].
Qed.

Section LaterRunOf.
Variable c : Control.
Variable F : list Fact.
Variable w0 : World.
Let d := DataDir c.

Lemma q_cleanup :
  In (FAbsent "/tls/client-kube-proxy.crt") F ->
  In (FAbsent "/tls/client-k3s-controller.crt") F ->
  hoare (quiet d F w0) (cleanupLegacyCerts (CreateRuntimeCertFiles c))
        (fun _ w => quiet d F w0 w) (quiet_err d w0).
Proof.
  intros H1 H2. apply (q_forget _ _ _ _ (fun _ => True)). apply q_stable.
  intros w [_ Hset]. exists tt. split; [|done].
  pose proof (settled_In _ _ _ _ Hset H1) as Ha1.
  pose proof (settled_In _ _ _ _ Hset H2) as Ha2. cbn [holds] in Ha1, Ha2.
  unfold cleanupLegacyCerts. norm_paths. cbn [fold_right]. fold d.
  rewrite (os_Remove_absent _ _ Ha1). by rewrite (os_Remove_absent _ _ Ha2).
Qed.

Lemma q_serverCA :
  In (FExists ["/tls/server-ca.crt"; "/tls/server-ca.key"]) F ->
  In (FCerts "/tls/server-ca.crt") F ->
  clear_of F ["/tls/server-ca.nochain.crt"] = true ->
  hoare (quiet d F w0) (createServerSigningCertKey (CreateRuntimeCertFiles c))
        (fun b w => b = false /\ quiet d F w0 w) (quiet_err d w0).
Proof.
  intros H1 H2 Hcl.
  apply (q_step d F w0 _ ["/tls/server-ca.nochain.crt"] _
           (certs <- look (fun w => certutil_CertsFromFile w (d +:+ "/tls/server-ca.crt")) ;;
            cert0 <- index0 certs ;;
            certutil_WriteCert (d +:+ "/tls/server-ca.nochain.crt")
                               (certutil_EncodeCertPEM cert0) ;;;
            ret false)); [| |done|done| |].
  - intros w [_ Hset].
    pose proof (settled_In _ _ _ _ Hset H1) as Hex. cbn [holds under map] in Hex.
    unfold createServerSigningCertKey. norm_paths. cbv zeta. fold d.
    unfold bind at 1. unfold gets at 1.
    assert (Hex1 : exists_ w [d +:+ "/tls/server-ca.crt"] = true).
    { rewrite exists_cons in Hex. apply andb_true_iff in Hex as [Hex _].
      by rewrite exists_cons, Hex, exists_nil. }
    rewrite Hex1. rewrite andb_false_r. cbn [andb].
    unfold bind at 1. unfold createSigningCertKey, bind at 1, gets at 1.
    by rewrite Hex.
  - touch.
  - intros w e w' [_ Hset] E.
    destruct (settled_In _ _ _ _ Hset H2) as (c0 & cs & Ec). fold d in Ec.
    apply bind_Err_inv in E as [E|(certs & w1 & [E1 ->]%look_Ok_inv & E)].
    { unfold look in E. rewrite Ec in E. done. }
    rewrite Ec in E1. injection E1 as <-.
    apply bind_Err_inv in E as [E|(cert0 & w1 & [_ ->]%ret_Ok_inv & E)]; [done|].
    apply bind_Err_inv in E as [E|([] & w1 & _ & E)]; [|done].
    apply os_WriteFile_result in E as [[? _]|(_ & -> & ?)]; done.
  - intros w a w' _ E.
    apply bind_Ok_inv in E as (certs & w1 & _ & E).
    apply bind_Ok_inv in E as (cert0 & w2 & _ & E).
    apply bind_Ok_inv in E as ([] & w3 & _ & E).
    by apply ret_Ok_inv in E as [-> _].
Qed.

Lemma q_genServiceAccount :
  In (FKey "/tls/service.key") F ->
  In (FWritable "/tls/service.current.key") F ->
  clear_of F ["/tls/service.current.key"] = true ->
  hoare (quiet d F w0) (genServiceAccount (Runtime (CreateRuntimeCertFiles c)))
        (fun _ w => quiet d F w0 w) (quiet_err d w0).
Proof.
  intros H1 H2 Hcl. apply (q_forget _ _ _ _ (fun _ => True)).
  apply (q_step d F w0 _ ["/tls/service.current.key"] _
           (key <- look (fun w => certutil_PrivateKeyFromFile w (d +:+ "/tls/service.key")) ;;
            certutil_WriteKey (d +:+ "/tls/service.current.key")
                              (certutil_EncodePrivateKeyPEM key)));
    [| |done|done| |done].
  - intros w [_ Hset].
    pose proof (settled_In _ _ _ _ Hset H1) as Hk. cbn [holds] in Hk. fold d in Hk.
    unfold genServiceAccount. norm_paths. fold d.
    unfold bind at 1. unfold gets at 1.
    destruct (key_loads_stat _ _ Hk) as (n & ->). done.
  - touch.
  - intros w e w' [_ Hset] E. exfalso.
    pose proof (settled_In _ _ _ _ Hset H1) as Hk. cbn [holds] in Hk. fold d in Hk.
    pose proof (settled_In _ _ _ _ Hset H2) as Hw. cbn [holds] in Hw. fold d in Hw.
    destruct (key_loads_PrivateKeyFromFile _ _ Hk) as (k & Ek).
    apply bind_Err_inv in E as [E|(key & w1 & [E1 ->]%look_Ok_inv & E)].
    { unfold look in E. rewrite Ek in E. done. }
    apply os_WriteFile_result in E as [[? _]|(_ & _ & ?)]; done.
Qed.

Lemma q_genEncryptedNetworkInfo :
  In (FNonEmpty "/cred/ipsec.psk") F ->
  hoare (quiet d F w0) (genEncryptedNetworkInfo (CreateRuntimeCertFiles c))
        (fun _ w => quiet d F w0 w) (quiet_err d w0).
Proof.
  intros H1. apply (q_forget _ _ _ _ (fun _ => True)).
  apply (q_step d F w0 _ [] _
           (psk <- look (fun w => os_ReadFile w (d +:+ "/cred/ipsec.psk")) ;;
            set_IPSECPSK (strings_TrimSpace psk)));
    [| |done|apply clear_of_nil| |done].
  - intros w [_ Hset].
    pose proof (settled_In _ _ _ _ Hset H1) as Hk. cbn [holds] in Hk. fold d in Hk.
    unfold genEncryptedNetworkInfo. norm_paths. cbv zeta. fold d.
    unfold bind at 1. unfold gets at 1. by rewrite Hk.
  - touch.
  - intros w e w' [_ Hset] E. exfalso.
    pose proof (settled_In _ _ _ _ Hset H1) as Hk. cbn [holds] in Hk. fold d in Hk.
    destruct (stat_nonempty_read _ _ Hk) as (cur & Ecur & _).
    apply bind_Err_inv in E as [E|(psk & w1 & _ & E)]; [|done].
    unfold look in E. by rewrite Ecur in E.
Qed.

Lemma q_genEncryptionConfigAndState :
  EncryptSecrets c = true ->
  In (FPure (EncryptProvider c = secretsencrypt_AESCBCProvider
             \/ EncryptProvider c = secretsencrypt_SecretBoxProvider)) F ->
  In (FNonEmpty "/cred/encryption-config.json") F ->
  In (FStatKnown "/cred/encryption-state.json") F ->
  hoare (quiet d F w0) (genEncryptionConfigAndState (CreateRuntimeCertFiles c))
        (fun _ w => quiet d F w0 w) (quiet_err d w0).
Proof.
  intros Hen H1 H2 H3. apply (q_forget _ _ _ _ (fun _ => True)). apply q_stable.
  intros w [_ Hset]. exists tt. split; [|done].
  pose proof (settled_In _ _ _ _ Hset H1) as Hsup. cbn [holds] in Hsup.
  pose proof (settled_In _ _ _ _ Hset H2) as Hne. cbn [holds] in Hne. fold d in Hne.
  pose proof (settled_In _ _ _ _ Hset H3) as Hst. cbn [holds] in Hst. fold d in Hst.
  unfold genEncryptionConfigAndState.
  cbn [Runtime DataDir CreateRuntimeCertFiles with_Runtime filepath_Join String.append
       EncryptionConfig EncryptionHash EncryptSecrets EncryptProvider].
  rewrite Hen. cbn [negb]. cbv zeta. fold d.
  assert (Hrest : forall keyName : string,
            (present <- gets (fun w => stat_nonempty w (d +:+ "/cred/encryption-config.json")) ;;
             if present then
               st <- gets (fun w => os_Stat w (d +:+ "/cred/encryption-state.json")) ;;
               match st with
               | Err ErrNotExist =>
                   curEncryptionByte <-
                     look (fun w => os_ReadFile w (d +:+ "/cred/encryption-config.json")) ;;
                   os_WriteFile (d +:+ "/cred/encryption-state.json")
                                (FText (encryption_hash curEncryptionByte))
               | _ => ret tt
               end
             else
               keyByte <- rand_Read secretsencrypt_KeySize ;;
               util_AtomicWrite (d +:+ "/cred/encryption-config.json")
                 (FText (json_Marshal_encryption
                    {| ec_Kind := "EncryptionConfiguration";
                       ec_APIVersion := "apiserver.config.k8s.io/v1";
                       ec_Resources :=
                         [ {| rc_Resources := ["secrets"];
                              rc_Providers := encryption_providers (EncryptProvider c)
                                [ {| Name := keyName;
                                     Secret := base64_EncodeToString keyByte |} ] |} ] |})) ;;;
               os_WriteFile (d +:+ "/cred/encryption-state.json")
                 (FText (encryption_hash (json_Marshal_encryption
                    {| ec_Kind := "EncryptionConfiguration";
                       ec_APIVersion := "apiserver.config.k8s.io/v1";
                       ec_Resources :=
                         [ {| rc_Resources := ["secrets"];
                              rc_Providers := encryption_providers (EncryptProvider c)
                                [ {| Name := keyName;
                                     Secret := base64_EncodeToString keyByte |} ] |} ] |}))))
              w = (Ok tt, w)).
  { intros keyName. unfold bind at 1. unfold gets at 1. rewrite Hne.
    unfold bind, gets.
    destruct (os_Stat w (d +:+ "/cred/encryption-state.json")) as [n|[]]; done. }
  unfold bind at 1.
  destruct (decide (EncryptProvider c = secretsencrypt_AESCBCProvider)) as [|n1].
  { exact (Hrest "aescbckey"). }
  destruct (decide (EncryptProvider c = secretsencrypt_SecretBoxProvider)) as [|n2].
  { exact (Hrest "secretboxkey"). }
  by destruct Hsup.
Qed.

Lemma q_genEgressSelectorConfig :
  In (FWritable "/etc/egress-selector-config.yaml") F ->
  clear_of F ["/etc/egress-selector-config.yaml"] = true ->
  hoare (quiet d F w0) (genEgressSelectorConfig (CreateRuntimeCertFiles c))
        (fun _ w => quiet d F w0 w) (quiet_err d w0).
Proof.
  intros H1 Hcl. unfold genEgressSelectorConfig. norm_paths. cbv zeta.
  by apply q_write.
Qed.

Lemma q_genCloudConfig :
  In (FWritable "/etc/cloud-config.yaml") F ->
  clear_of F ["/etc/cloud-config.yaml"] = true ->
  hoare (quiet d F w0) (genCloudConfig (CreateRuntimeCertFiles c))
        (fun _ w => quiet d F w0 w) (quiet_err d w0).
Proof.
  intros H1 Hcl. unfold genCloudConfig. norm_paths. cbv zeta.
  by apply q_write.
Qed.

Lemma q_readTokens :
  In (FTable "/cred/passwd") F ->
  hoare (quiet d F w0) (readTokens (Runtime (CreateRuntimeCertFiles c)))
        (fun _ w => quiet d F w0 w) (quiet_err d w0).
Proof.
  intros H1. apply (q_forget _ _ _ _ (fun _ => True)).
  apply (q_step d F w0 _ [] _ (readTokens (Runtime (CreateRuntimeCertFiles c))));
    [done| |done|apply clear_of_nil| |done].
  - apply touches_readTokens.
  - intros w e w' [_ Hset] E. exfalso.
    pose proof (settled_In _ _ _ _ Hset H1) as Hk. cbn [holds] in Hk. fold d in Hk.
    unfold readTokens in E. norm_paths_in E. fold d in E.
    apply bind_Err_inv in E as [E|(tokens & w1 & _ & E)].
    { unfold look in E. destruct (passwd_Read w (d +:+ "/cred/passwd")); done. }
    apply bind_Err_inv in E as [E|(? & w2 & _ & E)].
    { destruct (Pass tokens "node") as [? []]; done. }
    apply bind_Err_inv in E as [E|(? & w3 & _ & E)]; [|done].
    destruct (Pass tokens "server") as [? []]; done.
Qed.

End LaterRunOf.

Lemma EnsureUser_Ok p name role pw : exists p', EnsureUser p name role pw = Ok p'.
Proof.
  unfold EnsureUser. destruct (names p !! name); [|eauto].
  destruct (decide _); eauto.
Qed.

Lemma migratePassword_Ok p : exists p', migratePassword p = Ok p'.
Proof.
  unfold migratePassword. destruct (_ && _)%bool; [apply EnsureUser_Ok|eauto].
Qed.

Lemma genUsers_settled c w :
  let p := DataDir c +:+ "/cred/passwd" in
  is_Ok (passwd_Read w p) = true ->
  exists w', genUsers (CreateRuntimeCertFiles c) w = (Ok tt, w')
             /\ is_Ok (passwd_Read w' p) = true.
Proof.
  intros p Hread. unfold genUsers. norm_paths. cbv zeta. fold p.
  pose proof (passwd_Read_not_denied _ _ Hread) as Hd.
  destruct (passwd_Read w p) as [p0|] eqn:Er; [|done].
  unfold bind at 1. unfold look at 1. rewrite Er.
  destruct (migratePassword_Ok p0) as (p1 & ->).
  unfold bind at 1. unfold of_result at 1.
  assert (Hsp : exists s w1, getServerPass p1 (CreateRuntimeCertFiles c) w = (Ok s, w1)
                             /\ files w1 = files w /\ denied w1 = denied w).
  { unfold getServerPass. destruct (decide _).
    - unfold util_Random, bind, rand_Read, ret. eexists _, _. split; [reflexivity|]. done.
    - eexists _, _. split; [reflexivity|]. done. }
  destruct Hsp as (s & w1 & Es & Ef & Ed).
  unfold bind at 1. rewrite Es.
  match goal with
  | |- context [EnsureUser p1 ?a ?b ?x] => destruct (EnsureUser_Ok p1 a b x) as (p2 & ->)
  end.
  unfold bind at 1. unfold of_result at 1.
  match goal with
  | |- context [EnsureUser p2 ?a ?b ?x] => destruct (EnsureUser_Ok p2 a b x) as (p3 & ->)
  end.
  unfold bind at 1. unfold of_result at 1.
  assert (Hr1 : is_Ok (passwd_Read w1 p) = true).
  { rewrite (passwd_Read_same p w w1); [by rewrite Er|]. split; [done|by rewrite Ef]. }
  unfold passwd_Write. destruct (changed p3).
  - unfold util_AtomicWrite. rewrite decide_False by (by rewrite Ed).
    eexists. split; [reflexivity|].
    unfold passwd_Read, read_data, lookup_path. simpl.
    rewrite decide_False by (by rewrite Ed). by rewrite lookup_insert_eq.
  - exists w1. done.
Qed.

Lemma q_genUsers c F w0 :
  In (FTable "/cred/passwd") F ->
  Forall (fun f => f = FTable "/cred/passwd"
                   \/ disjointb (footprint f) ["/cred/passwd"] = true) F ->
  hoare (quiet (DataDir c) F w0) (genUsers (CreateRuntimeCertFiles c))
        (fun _ w => quiet (DataDir c) F w0 w) (quiet_err (DataDir c) w0).
Proof.
  intros Hin Hall w r w' [[Hsep Hset] Hq] E. set (d := DataDir c) in *.
  pose proof (settled_In _ _ _ _ Hset Hin) as Hr. cbn [holds] in Hr.
  destruct (genUsers_settled c w Hr) as (w1 & E1 & Hr1).
  rewrite E1 in E. injection E as <- <-.
  pose proof (touches_genUsers c _ _ _ E1) as Htd. fold d in Htd.
  split; [split|].
  - by apply Htd.
  - unfold settled in *. rewrite Forall_forall in *. intros f Hf.
    destruct (Hall f Hf) as [->|Hdis]; [exact Hr1|].
    eapply holds_touched; [exact Htd|done|done|]. by apply Hset.
  - eapply touched_trans; [exact Hq|]. eapply touched_mono; [|exact Htd].
    by apply under_subset.
Qed.

Ltac infacts := cbn [In]; repeat first [left; reflexivity | right].

Ltac qatom :=
  lazymatch goal with
  | |- hoare (fun w => _ <> [] /\ _) (index0 _) _ _ => eapply q_index0
  | |- hoare (fun w => _ /\ _) _ _ _ =>
      apply q_pure; let Hp := fresh in intros Hp; try rewrite Hp; cbv beta iota
  | |- hoare _ (cleanupLegacyCerts _) _ _ => eapply q_cleanup; infacts
  | |- hoare _ (createServerSigningCertKey _) _ _ =>
      eapply q_serverCA; first [exact eq_refl | infacts]
  | |- hoare _ (createSigningCertKey _ _ _) _ _ => eapply q_CA; infacts
  | |- hoare _ (look (fun w => certutil_CertsFromFile w _)) _ _ => eapply q_certs; infacts
  | |- hoare _ (certutil_WriteCert _ _) _ _ =>
      eapply q_write; first [exact eq_refl | infacts]
  | |- hoare _ (createClientCertKey false _ _ _ _ _ _ _ _) _ _ => eapply q_leaf; infacts
  | |- hoare _ (certutil_LoadOrGenerateKeyFile _ false) _ _ => eapply q_key; infacts
  | |- hoare _ (genServiceAccount _) _ _ =>
      eapply q_genServiceAccount; first [exact eq_refl | infacts]
  | |- hoare _ (genUsers _) _ _ =>
      eapply q_genUsers;
      [ infacts
      | repeat first
          [ apply List.Forall_nil
          | apply List.Forall_cons; [first [left; reflexivity | right; exact eq_refl]|] ] ]
  | |- hoare _ (genEncryptedNetworkInfo _) _ _ => eapply q_genEncryptedNetworkInfo; infacts
  | |- hoare _ (genEncryptionConfigAndState _) _ _ =>
      eapply q_genEncryptionConfigAndState; first [assumption | infacts]
  | |- hoare _ (genEgressSelectorConfig _) _ _ =>
      eapply q_genEgressSelectorConfig; first [exact eq_refl | infacts]
  | |- hoare _ (genCloudConfig _) _ _ =>
      eapply q_genCloudConfig; first [exact eq_refl | infacts]
  | |- hoare _ (readTokens _) _ _ => eapply q_readTokens; infacts
  | |- hoare _ (ret tt) _ _ => eapply q_ret_unit
  end.

Ltac qopen :=
  lazymatch goal with
  | |- hoare _ (genCerts _) _ _ => unfold genCerts
  | |- hoare _ (genClientCerts _) _ _ => unfold genClientCerts; norm_paths; cbv zeta
  | |- hoare _ (genServerCerts _) _ _ => unfold genServerCerts; cbv zeta
  | |- hoare _ (genRequestHeaderCerts _) _ _ =>
      unfold genRequestHeaderCerts; norm_paths; cbv zeta
  | |- hoare _ (genETCDCerts _) _ _ =>
      unfold genETCDCerts; norm_paths; cbv zeta;
      repeat match goal with Hd : DisableETCD _ = _ |- _ => rewrite Hd end
  end.

Ltac qchain_step :=
  cbv beta;
  lazymatch goal with
  | |- hoare (fun w => _ <> [] /\ _) (bind (index0 _) _) _ _ =>
      eapply hoare_bind; [eapply q_index0 | intros ?]
  | |- hoare (fun w => _ /\ _) _ _ _ => qatom
  | |- hoare _ (bind (createServerSigningCertKey _) _) _ _ =>
      eapply hoare_bind; [qatom | intros ?; cbv beta; norm_paths]
  | |- hoare _ (bind _ _) _ _ => eapply hoare_bind; [|intros ?]
  | |- hoare _ _ _ _ => first [qopen | qatom]
  end.

Lemma later_run_quiet c w0 :
  hoare (quiet (DataDir c) (bootstrap_facts c) w0)
        (GenServerDeps (CreateRuntimeCertFiles c))
        (fun _ w => quiet (DataDir c) (bootstrap_facts c) w0 w)
        (quiet_err (DataDir c) w0).
Proof.
  unfold GenServerDeps, bootstrap_facts. cbv zeta.
  destruct (EncryptSecrets c) eqn:Hen; destruct (DisableETCD c) eqn:Hd;
    rewrite ?(genEncryptionConfigAndState_disabled c Hen);
    cbn [app]; repeat qchain_step.
Qed.

(** ** Certificates exist after their factory *)

Lemma createClientCertKey_exists regen cn org sans usage ca cakey cert key w b w' :
  createClientCertKey regen cn org sans usage ca cakey cert key w = (Ok b, w') ->
  exists_ w' [cert; key] = true.
Proof.
  unfold createClientCertKey. intros E.
  apply bind_Ok_inv in E as (regen' & w1 & [-> ->]%gets_Ok_inv & E).
  apply bind_Ok_inv in E as (present & w1 & [-> ->]%gets_Ok_inv & E).
  destruct (negb _ && _)%bool eqn:Eearly.
  { apply ret_Ok_inv in E as [_ ->]. by apply andb_true_iff in Eearly as [_ ?]. }
  apply bind_Ok_inv in E as (caKey & w1 & [_ ->]%look_Ok_inv & E).
  apply bind_Ok_inv in E as (caCerts & w1 & [_ ->]%look_Ok_inv & E).
  apply bind_Ok_inv in E as (kb & w1 & Ek & E).
  apply bind_Ok_inv in E as (k & w2 & [_ ->]%of_result_Ok_inv & E).
  apply bind_Ok_inv in E as (caCert0 & w2 & E0 & E).
  apply bind_Ok_inv in E as (newcert & w3 & Enew & E).
  apply bind_Ok_inv in E as ([] & w4 & Ew & [_ <-]%ret_Ok_inv).
  assert (w2 = w1) as ->.
  { destruct caCerts; [done|]. by apply ret_Ok_inv in E0 as [_ ->]. }
  assert (w3 = w1) as ->.
  { unfold certutil_NewSignedCert in Enew.
    destruct (decide _); [done|]. destruct (decide _); [done|].
    apply bind_Ok_inv in Enew as (now & w2 & [_ ->]%time_Now_Ok_inv & [_ ->]%ret_Ok_inv).
    done. }
  pose proof (touches_os_WriteFile [] [cert] cert _
                ltac:(left) (not_elem_of_nil _) _ _ _ Ew) as Ht.
  apply certutil_LoadOrGenerateKeyFile_Ok in Ek as [Ek _].
  apply os_WriteFile_Ok in Ew as [_ Ew].
  rewrite !exists_cons, exists_nil.
  rewrite (read_data_present _ _ _ Ew).
  rewrite (touched_present _ _ _ _ _ Ht (read_data_present _ _ _ Ek)). done.
Qed.

Lemma touches_genETCDCerts_disabled c :
  DisableETCD c = true ->
  touches [] (under (DataDir c)
                ["/tls/etcd/server-ca.crt"; "/tls/etcd/server-ca.key";
                 "/tls/etcd/peer-ca.crt"; "/tls/etcd/peer-ca.key";
                 "/tls/etcd/client.crt"; "/tls/etcd/client.key";
                 "/tls/etcd/peer-server-client.crt"; "/tls/etcd/peer-server-client.key"])
          (genETCDCerts (CreateRuntimeCertFiles c)).
Proof.
  intros Hd. unfold genETCDCerts. norm_paths. cbv zeta. rewrite Hd.
  repeat first
    [ apply touches_ret
    | apply touches_createSigningCertKey;
        [und|und|apply not_elem_of_nil|apply not_elem_of_nil]
    | apply touches_createClientCertKey;
        [und|und|apply not_elem_of_nil|apply not_elem_of_nil]
    | apply touches_bind; [|intros ?] ].
Qed.

(** ** The kubeconfig of a client role *)

Lemma written_inj w w' d1 d2 : written w w' d1 -> written w w' d2 -> d1 = d2.
Proof. unfold written. intros E1 E2. rewrite E1 in E2. by apply app_inv_tail in E2. Qed.

Lemma os_WriteFile_cases p d w r w' :
  os_WriteFile p d w = (r, w') ->
  (r = Ok tt /\ wlog w' = p :: wlog w) \/ (exists e, r = Err e /\ w' = w).
Proof.
  unfold os_WriteFile. destruct (decide _); intros [= <- <-]; [right; eauto|by left].
Qed.

(** The factory returns [false] without a change, fails after at most the key
    file was written, and returns [true] right after it wrote the
    certificate. *)
Lemma createClientCertKey_cases regen cn org sans usage ca cakey cert key w r w' :
  createClientCertKey regen cn org sans usage ca cakey cert key w = (r, w') ->
  match r with
  | Ok false => w' = w
  | Ok true => exists w1, touched [] [key] w w1 /\ wlog w' = cert :: wlog w1
  | Err _ => touched [] [key] w w'
  end.
Proof.
  unfold createClientCertKey. intros E.
  apply bind_inv in E as [(regen' & w1 & [_ ->]%gets_inv & E)|(e & [[=] _]%gets_inv & _)].
  apply bind_inv in E as [(present & w1 & [_ ->]%gets_inv & E)|(e & [[=] _]%gets_inv & _)].
  destruct (negb _ && _)%bool.
  { by injection E as <- <-. }
  apply bind_inv in E as [(caKey & w1 & [_ ->]%look_Ok_inv & E)|(e & E & ->)];
    [|exact (touches_look [] [key] _ _ _ _ E)].
  apply bind_inv in E as [(caCerts & w1 & [_ ->]%look_Ok_inv & E)|(e & E & ->)];
    [|exact (touches_look [] [key] _ _ _ _ E)].
  assert (Hkey : touches [] [key] (certutil_LoadOrGenerateKeyFile key regen')).
  { apply touches_certutil_LoadOrGenerateKeyFile; [left|apply not_elem_of_nil]. }
  apply bind_inv in E as [(kb & w1 & Ek%Hkey & E)|(e & E & ->)]; [|exact (Hkey _ _ _ E)].
  apply bind_inv in E as [(k & w2 & [_ ->]%of_result_Ok_inv & E)|(e & E & ->)].
  2: { exact (touched_trans _ _ _ _ _ Ek (touches_of_result [] [key] _ _ _ _ E)). }
  apply bind_inv in E as [(caCert0 & w2 & E0 & E)|(e & E & ->)].
  2: { exact (touched_trans _ _ _ _ _ Ek (touches_index0 [] [key] _ _ _ _ E)). }
  pose proof (touched_trans _ _ _ _ _ Ek (touches_index0 [] [key] _ _ _ _ E0)) as T2.
  apply bind_inv in E as [(newcert & w3 & Enew & E)|(e & E & ->)].
  2: { exact (touched_trans _ _ _ _ _ T2
                (touches_certutil_NewSignedCert [] [key] _ _ _ _ _ _ _ E)). }
  pose proof (touched_trans _ _ _ _ _ T2
                (touches_certutil_NewSignedCert [] [key] _ _ _ _ _ _ _ Enew)) as T3.
  apply bind_inv in E as [([] & w4 & Ew & [= <- <-])|(e & Ew & ->)].
  - apply os_WriteFile_cases in Ew as [[_ Hlog]|(e & [=] & _)]. by exists w3.
  - apply os_WriteFile_cases in Ew as [[[=] _]|(e' & _ & ->)]. exact T3.
Qed.

Lemma hoare_ret_weak {A} (P : World -> Prop) (a : A) (Q : A -> World -> Prop) E :
  (forall w, P w -> Q a w) -> hoare P (ret a) Q E.
Proof. intros HPQ w r w' HP [= <- <-]. by apply HPQ. Qed.

Lemma not_elem_of_besides_r a b l : b ∉ besides a b l.
Proof.
  unfold besides. intros Hin%list_elem_of_In%filter_In. destruct Hin as [_ Hf].
  rewrite String.eqb_refl, orb_true_r in Hf. done.
Qed.

Section KubeconfigRole.
Variables (d cs ks : string) (l : list string) (w0 : World).
Hypothesis Hcs : mem cs l = false.
Hypothesis Hks : mem ks l = false.
Hypothesis Hne : String.eqb cs ks = false.

Lemma role_idle_post ok w : role_idle d l w0 w -> role_post d cs ks l w0 ok w.
Proof.
  intros Ht. pose proof Ht as (_ & _ & (delta & Hw & Hsub) & _).
  exists delta. split; [done|].
  assert (Hc : d +:+ cs ∉ delta).
  { intros Hin%Hsub. by apply not_elem_of_under_mem in Hin. }
  assert (Hk : d +:+ ks ∉ delta).
  { intros Hin%Hsub. by apply not_elem_of_under_mem in Hin. }
  split; [by intros ?|]. split; [by intros _ ?|]. done.
Qed.

Lemma role_issued_post w : role_issued d cs ks w0 w -> role_post d cs ks l w0 false w.
Proof.
  intros (delta & Hw & Hc & Hk). exists delta.
  split; [done|]. split; [done|]. split; [done|]. by intros ?.
Qed.

Lemma role_done_post ok w : role_done d cs ks w0 w -> role_post d cs ks l w0 ok w.
Proof.
  intros (delta & Hw & Hc & Hk). exists delta.
  split; [done|]. split; [done|]. split; [done|]. by intros ?.
Qed.

Lemma hoare_role_idle {A} (m : M A) :
  touches (under d []) (under d l) m ->
  hoare (role_idle d l w0) m (fun _ => role_idle d l w0) (role_post d cs ks l w0 false).
Proof.
  intros Hm w r w' Hi E. pose proof (touched_trans _ _ _ _ _ Hi (Hm _ _ _ E)) as Ht.
  destruct r; [exact Ht|by apply role_idle_post].
Qed.

Lemma role_done_grows W w w' :
  role_done d cs ks w0 w -> touched (under d []) W w w' -> role_done d cs ks w0 w'.
Proof.
  intros (delta & Hw & Hc & Hk) (_ & _ & (delta' & Hw' & _) & _).
  exists (delta' ++ delta)%list. split.
  - unfold written in *. rewrite Hw', Hw. by rewrite app_assoc.
  - split; apply elem_of_app; by right.
Qed.

Lemma hoare_role_done {A} W (m : M A) :
  touches (under d []) W m ->
  hoare (role_done d cs ks w0) m (fun _ => role_done d cs ks w0) (role_post d cs ks l w0 false).
Proof.
  intros Hm w r w' Hi E. pose proof (role_done_grows _ _ _ Hi (Hm _ _ _ E)) as Ht.
  destruct r; [exact Ht|by apply role_done_post].
Qed.

Lemma hoare_role_factory regen cn org sans usage ca cakey keys :
  mem keys l = true ->
  hoare (role_idle d l w0)
        (createClientCertKey regen cn org sans usage ca cakey (d +:+ cs) (d +:+ keys))
        (fun b => if b then role_issued d cs ks w0 else role_idle d l w0)
        (role_post d cs ks l w0 false).
Proof.
  intros Hkey w r w' Hi E. apply createClientCertKey_cases in E.
  assert (Hmono : forall v v', touched [] [d +:+ keys] v v' ->
                               touched (under d []) (under d l) v v').
  { intros v v' T. eapply touched_mono; [|exact T].
    intros p ->%list_elem_of_singleton. by apply elem_of_under_mem. }
  destruct r as [[|]|e].
  - destruct E as (w1 & T1 & Hlog).
    pose proof (touched_trans _ _ _ _ _ Hi (Hmono _ _ T1)) as (_ & _ & (delta & Hw & Hsub) & _).
    exists ((d +:+ cs) :: delta). split; [|split].
    + unfold written in *. by rewrite Hlog, Hw.
    + left.
    + intros [E|Hin]%elem_of_cons.
      * apply append_inj in E. subst ks. by rewrite String.eqb_refl in Hne.
      * apply Hsub in Hin. by apply not_elem_of_under_mem in Hin.
  - by subst w'.
  - apply role_idle_post. exact (touched_trans _ _ _ _ _ Hi (Hmono _ _ E)).
Qed.

Lemma hoare_role_kubeconfig url ca cert key :
  hoare (role_issued d cs ks w0) (KubeConfig (d +:+ ks) url ca cert key)
        (fun _ => role_done d cs ks w0) (role_post d cs ks l w0 false).
Proof.
  intros w r w' Hi E. unfold KubeConfig in E.
  apply os_WriteFile_cases in E as [[-> Hlog]|(e & -> & ->)].
  - destruct Hi as (delta & Hw & Hc & _). exists ((d +:+ ks) :: delta).
    split; [unfold written in *; by rewrite Hlog, Hw|]. split; [by right|left].
  - by apply role_issued_post.
Qed.

End KubeconfigRole.

Ltac role_step :=
  lazymatch goal with
  | |- hoare (role_idle ?d _ _)
             (bind (createClientCertKey _ _ _ _ _ _ _ (?d +:+ ?cs) _) _)
             (fun _ => role_post ?d ?cs _ _ _ _) _ =>
      eapply hoare_bind;
      [ apply hoare_role_factory; exact eq_refl | intros [|]; cbv beta iota ]
  | |- hoare (role_issued _ _ _ _) (bind (KubeConfig _ _ _ _ _) _) _ _ =>
      eapply hoare_bind; [ apply hoare_role_kubeconfig | intros ?; cbv beta ]
  | |- hoare (role_idle _ _ _) (bind _ _) _ _ =>
      eapply hoare_bind;
      [ apply hoare_role_idle; [exact eq_refl|exact eq_refl|solve [touch]]
      | intros ?; cbv beta ]
  | |- hoare (role_done ?d _ _ _) (bind _ _) _ _ =>
      eapply hoare_bind;
      [ apply (hoare_role_done _ _ _ _ _ (under d client_files)); solve [touch]
      | intros ?; cbv beta ]
  | |- hoare (role_idle _ _ _) (ret _) _ _ =>
      apply hoare_ret_weak; intros ?; apply role_idle_post; exact eq_refl
  | |- hoare (role_done _ _ _ _) (ret _) _ _ =>
      apply hoare_ret_weak; intros ?; apply role_done_post
  end.

Lemma hoare_genClientCerts_role c cs ks w0 :
  (cs, ks) ∈ kubeconfig_remainders ->
  hoare (role_idle (DataDir c) (besides cs ks client_files) w0)
        (genClientCerts (CreateRuntimeCertFiles c))
        (fun _ => role_post (DataDir c) cs ks (besides cs ks client_files) w0 true)
        (role_post (DataDir c) cs ks (besides cs ks client_files) w0 false).
Proof.
  intros Hin. unfold kubeconfig_remainders in Hin.
  repeat (apply elem_of_cons in Hin as [[= -> ->]|Hin]); [..|by apply elem_of_nil in Hin];
    unfold genClientCerts; norm_paths; cbv zeta; repeat role_step.
Qed.

(** ** The credential table of a fresh data directory *)

Lemma length_string_of_list_ascii l :
  String.length (string_of_list_ascii l) = List.length l.
Proof. induction l as [|a l IH]; [done|]. cbn. by rewrite IH. Qed.

Lemma util_Random_run n w :
  exists bytes, String.length bytes = n
    /\ util_Random n w = (Ok (hex_EncodeToString bytes), set_rpos (rpos w + n)%nat w).
Proof.
  exists (string_of_list_ascii (map (entropy w) (seq (rpos w) n))). split; [|done].
  by rewrite length_string_of_list_ascii, length_map, length_seq.
Qed.

Lemma genUsers_fresh c w r w' :
  Token c = "" -> AgentToken c = "" ->
  lookup_path w (DataDir c +:+ "/cred/passwd") = Err ErrNotExist ->
  genUsers (CreateRuntimeCertFiles c) w = (r, w') ->
  exists bytes,
    String.length bytes = 16%nat
    /\ r = Ok tt
    /\ read_data w' (DataDir c +:+ "/cred/passwd")
       = Ok (FPasswd
               (<["server" := mkEntry "k3s:server" (hex_EncodeToString bytes)]>
                 (<["node" := mkEntry "k3s:agent"
                      (getNodePass (CreateRuntimeCertFiles c) (hex_EncodeToString bytes))]>
                    ∅))).
Proof.
  intros HT HA Habs E. unfold genUsers in E. norm_paths_in E. cbv zeta in E.
  set (p := DataDir c +:+ "/cred/passwd") in *.
  assert (Hread : passwd_Read w p = Ok (mkPasswd ∅ false)).
  { unfold passwd_Read, read_data. by rewrite Habs. }
  assert (Hden : p ∉ denied w).
  { unfold lookup_path in Habs. by destruct (decide (p ∈ denied w)). }
  unfold bind at 1 in E. unfold look at 1 in E. rewrite Hread in E.
  unfold bind at 1 in E. unfold of_result at 1 in E.
  assert (Hmig : migratePassword (mkPasswd ∅ false) = Ok (mkPasswd ∅ false)) by done.
  rewrite Hmig in E.
  destruct (util_Random_run 16 w) as (bytes & Hlen & Hrand).
  exists bytes. split; [done|].
  assert (Hsp : getServerPass (mkPasswd ∅ false) (CreateRuntimeCertFiles c) w
                = (Ok (hex_EncodeToString bytes), set_rpos (rpos w + 16)%nat w)).
  { unfold getServerPass. norm_paths. rewrite HT. cbv zeta.
    rewrite decide_True by done. exact Hrand. }
  unfold bind at 1 in E. rewrite Hsp in E.
  set (s := hex_EncodeToString bytes) in *.
  set (np := getNodePass (CreateRuntimeCertFiles c) s) in *.
  assert (Hnode : EnsureUser (mkPasswd ∅ false) "node" "k3s:agent" np
                  = Ok (mkPasswd (<["node" := mkEntry "k3s:agent" np]> ∅) true)).
  { unfold EnsureUser. cbn [names]. by rewrite lookup_empty. }
  rewrite Hnode in E. unfold bind at 1 in E. unfold of_result at 1 in E.
  assert (Hserver : EnsureUser (mkPasswd (<["node" := mkEntry "k3s:agent" np]> ∅) true)
                      "server" "k3s:server" s
                    = Ok (mkPasswd (<["server" := mkEntry "k3s:server" s]>
                                     (<["node" := mkEntry "k3s:agent" np]> ∅)) true)).
  { unfold EnsureUser. cbn [names].
    by rewrite lookup_insert_ne, lookup_empty by done. }
  rewrite Hserver in E. unfold bind at 1 in E. unfold of_result at 1 in E.
  unfold passwd_Write in E. cbn [changed names] in E.
  assert (Hok : r = Ok tt).
  { unfold util_AtomicWrite in E. cbn [denied set_rpos] in E.
    rewrite decide_False in E by done. by injection E as <- _. }
  subst r. split; [done|]. by apply util_AtomicWrite_Ok in E as [_ E].
Qed.

Lemma hoare_post {A} P (m : M A) (Q Q' : A -> World -> Prop) E :
  hoare P m Q E -> (forall a w, Q a w -> Q' a w) -> hoare P m Q' E.
Proof. intros Hm HQ. eapply hoare_conseq; [| exact HQ | | exact Hm]; auto. Qed.

Lemma hoare_leaf_skip d L F regen cn org sans usage ca cakey cert key :
  clear_of F [cert; key] = true -> disjointb [cert; key] L = true ->
  hoare (inv d L F)
        (createClientCertKey regen cn org sans usage (d +:+ ca) (d +:+ cakey)
                             (d +:+ cert) (d +:+ key))
        (fun _ => inv d L F) (fun _ => True).
Proof. intros Hcl HL. eapply (hoare_skip d L [cert; key]); [by apply touches_leaf|done]. Qed.

Lemma hoare_serverCA_skip c F :
  clear_of F ["/tls/server-ca.crt"; "/tls/server-ca.key"; "/tls/server-ca.nochain.crt"] = true ->
  hoare (inv (DataDir c) [] F) (createServerSigningCertKey (CreateRuntimeCertFiles c))
        (fun _ => inv (DataDir c) legacy_links F) (fun _ => True).
Proof.
  intros Hcl. eapply hoare_post; [by apply hoare_serverCA|].
  intros a w Hinv. by apply inv_drop, inv_drop in Hinv.
Qed.

Ltac frame_atom :=
  lazymatch goal with
  | |- hoare _ (createClientCertKey _ _ _ _ _ _ _ _ _) _ _ => eapply hoare_leaf_skip; side
  | |- _ => atom
  end.

Ltac frame_step :=
  cbv beta;
  lazymatch goal with
  | |- hoare _ (bind (createServerSigningCertKey _) _) _ _ =>
      eapply hoare_bind;
      [ eapply hoare_serverCA_skip; side | intros ?; cbv beta; norm_paths ]
  | |- hoare _ (bind _ _) _ _ => eapply hoare_bind; [|intros ?]
  | |- hoare _ _ _ _ => first [open_step | frame_atom]
  end.

(** The certificates are made without a file appearing at the place of the
    credential table. *)
Lemma genCerts_frame c :
  hoare (inv (DataDir c) [] [FAbsent "/cred/passwd"]) (genCerts (CreateRuntimeCertFiles c))
        (fun _ => inv (DataDir c) legacy_links [FAbsent "/cred/passwd"]) (fun _ => True).
Proof.
  destruct (DisableETCD c) eqn:Hd;
    (eapply hoare_post; [repeat frame_step|]);
    intros a w Hinv; cbv beta in Hinv;
    repeat lazymatch type of Hinv with
           | inv _ _ (_ :: _ :: _) _ => apply inv_drop in Hinv
           end;
    exact Hinv.
Qed.

Lemma touches_after_genUsers c :
  touches (under (DataDir c) legacy_links)
    (under (DataDir c)
       ["/cred/ipsec.psk"; "/cred/encryption-config.json"; "/cred/encryption-state.json";
        "/etc/egress-selector-config.yaml"; "/etc/cloud-config.yaml"])
    (genEncryptedNetworkInfo (CreateRuntimeCertFiles c) ;;;
     genEncryptionConfigAndState (CreateRuntimeCertFiles c) ;;;
     genEgressSelectorConfig (CreateRuntimeCertFiles c) ;;;
     genCloudConfig (CreateRuntimeCertFiles c) ;;;
     readTokens (Runtime (CreateRuntimeCertFiles c)))%m.
Proof.
  apply touches_bind; [|intros _].
  { eapply touches_mono; [apply under_subset|apply touches_genEncryptedNetworkInfo].
    exact eq_refl. }
  apply touches_bind; [|intros _].
  { destruct (EncryptSecrets c) eqn:Hen.
    - eapply touches_mono; [apply under_subset|by apply touches_genEncryptionConfigAndState].
      exact eq_refl.
    - rewrite (genEncryptionConfigAndState_disabled c Hen). apply touches_ret. }
  apply touches_bind; [|intros _].
  { eapply touches_mono; [apply under_subset|apply touches_genEgressSelectorConfig].
    exact eq_refl. }
  apply touches_bind; [|intros _].
  { eapply touches_mono; [apply under_subset|apply touches_genCloudConfig].
    exact eq_refl. }
  eapply touches_mono; [apply under_subset|apply touches_readTokens]. exact eq_refl.
Qed.
(** ** Claims on single functions *)

#[local] Arguments String.append : simpl never.

(** C5.  When the certificate file cannot be read or parsed, [expired] and
    [fieldsChanged] both answer [false]; with the regeneration flag unset and
    certificate and key files present, the leaf factory then reports that
    nothing was created and leaves the world as it is. *)
Theorem C5_unreadable_certificate_gives_no_signal
    (w : World) (certFile keyFile commonName : string) (organization : list string)
    (sans : option AltNames) (usages : list ExtKeyUsage)
    (caCertFile caKeyFile : string) (e : error) :
  certutil_CertsFromFile w certFile = Err e ->
  expired w certFile = false
  /\ fieldsChanged w certFile commonName organization sans caCertFile = false
  /\ (exists_ w [certFile; keyFile] = true ->
      createClientCertKey false commonName organization sans usages
        caCertFile caKeyFile certFile keyFile w = (Ok false, w)).
Proof.
  intros E. assert (Hexp : expired w certFile = false).
  { unfold expired. by rewrite E. }
  assert (Hfc : fieldsChanged w certFile commonName organization sans caCertFile = false).
  { unfold fieldsChanged. by rewrite E. }
  repeat split; [done..|]. intros Hex.
  unfold createClientCertKey, bind, gets. rewrite Hexp, Hfc, Hex. done.
Qed.

(** C7.  With secrets encryption enabled and a provider that is neither of the
    two supported ones, [genEncryptionConfigAndState] returns the
    configuration error and the world, log of writes included, is unchanged. *)
Theorem C7_unsupported_provider_rejected (controlConfig : Control) (w : World) :
  EncryptSecrets controlConfig = true ->
  EncryptProvider controlConfig <> secretsencrypt_AESCBCProvider ->
  EncryptProvider controlConfig <> secretsencrypt_SecretBoxProvider ->
  genEncryptionConfigAndState controlConfig w =
    (Err (ErrConfig ("unsupported secrets-encryption-key-type "
                     +:+ EncryptProvider controlConfig)), w).
Proof.
  intros Hen H1 H2. unfold genEncryptionConfigAndState. rewrite Hen. cbn [negb].
  unfold bind. rewrite decide_False by done. rewrite decide_False by done. done.
Qed.




(** C4.  For a certificate file that can be read, with first certificate
    [cert0]: an organization list that differs as a set from the desired one
    makes [fieldsChanged] answer true; so does a desired DNS name or IP address
    that the certificate does not carry; and when common name, organization
    set and issuer agree, [fieldsChanged] answers true exactly when some
    desired DNS name or IP address is missing, whatever further names the
    certificate carries. *)
Theorem C4_fieldsChanged_organization_exact_SAN_containment
    (w : World) (certFile commonName : string) (organization : list string)
    (sans : option AltNames) (caCertFile : string)
    (cert0 : Certificate) (rest : list Certificate) :
  certutil_CertsFromFile w certFile = Ok (cert0 :: rest) ->
  let want := default (mkAltNames [] []) sans in
  let san_missing :=
    (exists d, d ∈ an_DNSNames want /\ d ∉ DNSNames cert0)
    \/ (exists ip, ip ∈ an_IPs want /\ ip ∉ IPAddresses cert0) in
  let org_equal := forall o, o ∈ Subject_Organization cert0 <-> o ∈ organization in
  let issuer_matches :=
    forall ca0 cas, certutil_CertsFromFile w caCertFile = Ok (ca0 :: cas) ->
                    AuthorityKeyId cert0 = SubjectKeyId ca0 in
  let changed := fieldsChanged w certFile commonName organization sans caCertFile in
  (~ org_equal -> changed = true)
  /\ (san_missing -> changed = true)
  /\ (Subject_CommonName cert0 = commonName -> org_equal -> issuer_matches ->
      (changed = true <-> san_missing)).
Proof.
  intros E want san_missing org_equal issuer_matches changed.
  subst changed. unfold fieldsChanged. rewrite E. fold want.
  destruct (bool_decide (Subject_CommonName cert0 = commonName)) eqn:Ecn; simpl.
  2:{ apply bool_decide_eq_false in Ecn. repeat split; try done. }
  apply bool_decide_eq_true in Ecn.
  destruct (bool_decide (sets_NewString (Subject_Organization cert0)
                         = sets_NewString organization)) eqn:Eorg; simpl.
  2:{ apply bool_decide_eq_false in Eorg. rewrite sets_NewString_equal in Eorg.
      repeat split; try done. }
  apply bool_decide_eq_true in Eorg. rewrite sets_NewString_equal in Eorg.
  destruct (forallb _ (an_DNSNames want)) eqn:Edns; simpl.
  2:{ assert (Hm : san_missing).
      { left. apply not_true_iff_false in Edns. rewrite forallb_has_all in Edns.
        destruct (decide (Exists (fun d => d ∉ DNSNames cert0) (an_DNSNames want)))
          as [Hex|Hnex].
        - apply Exists_exists in Hex. destruct Hex as (d & Hin & Hn). eauto.
        - exfalso. apply Edns. intros d Hd.
          destruct (decide (d ∈ DNSNames cert0)) as [|Hn]; [done|].
          exfalso. apply Hnex. apply Exists_exists. eauto. }
      repeat split; try done. }
  rewrite forallb_has_all in Edns.
  destruct (existsb _ (an_IPs want)) eqn:Eips; simpl.
  { rewrite existsb_missing in Eips. assert (Hm : san_missing) by (by right).
    repeat split; try done. }
  assert (Hnm : ~ san_missing).
  { intros [(d & Hin & Hn)|Hip].
    - apply Hn, Edns, Hin.
    - rewrite <- existsb_missing in Hip. congruence. }
  split; [intros Hn; by destruct Hn|].
  split; [intros Hm; by destruct Hnm|].
  intros _ _ Hiss. split; [|intros Hm; by destruct Hnm].
  destruct (certutil_CertsFromFile w caCertFile) as [[|ca0 cas]|] eqn:Eca; try done.
  rewrite (Hiss ca0 cas eq_refl). rewrite bool_decide_eq_true_2 by done. done.
Qed.



(** C6.  With encryption enabled and a supported provider: when there is no
    non-empty configuration file, the function writes the serialised document
    whose provider list is the chosen provider followed by the identity
    provider, and a hash record that is "start-" followed by the hexadecimal
    SHA-256 of exactly these bytes; when a non-empty configuration file
    exists, a missing hash record is written from the bytes of that file and
    no other file changes, and otherwise the world is left as it is. *)
Theorem C6_encryption_config_and_hash_record (controlConfig : Control) (w : World) :
  let runtime := Runtime controlConfig in
  let provider := EncryptProvider controlConfig in
  let keyName := if decide (provider = secretsencrypt_AESCBCProvider)
                 then "aescbckey" else "secretboxkey" in
  EncryptSecrets controlConfig = true ->
  provider = secretsencrypt_AESCBCProvider \/ provider = secretsencrypt_SecretBoxProvider ->
  EncryptionConfig runtime <> EncryptionHash runtime ->
  (stat_nonempty w (EncryptionConfig runtime) = false ->
   EncryptionConfig runtime ∉ denied w -> EncryptionHash runtime ∉ denied w ->
   exists w' keyByte,
     let b := json_Marshal_encryption (encryption_document
                [chosen_provider provider
                   [ {| Name := keyName; Secret := base64_EncodeToString keyByte |} ];
                 identity_provider]) in
     genEncryptionConfigAndState controlConfig w = (Ok tt, w')
     /\ read_data w' (EncryptionConfig runtime) = Ok (FText b)
     /\ read_data w' (EncryptionHash runtime)
        = Ok (FText ("start-" +:+ hex_EncodeToString (sha256_Sum256 b))))
  /\ (stat_nonempty w (EncryptionConfig runtime) = true ->
      (os_Stat w (EncryptionHash runtime) = Err ErrNotExist ->
       exists w' cur,
         os_ReadFile w (EncryptionConfig runtime) = Ok cur
         /\ genEncryptionConfigAndState controlConfig w = (Ok tt, w')
         /\ read_data w' (EncryptionHash runtime)
            = Ok (FText ("start-" +:+ hex_EncodeToString (sha256_Sum256 cur)))
         /\ (forall p, p <> EncryptionHash runtime -> files w' !! p = files w !! p))
      /\ (os_Stat w (EncryptionHash runtime) <> Err ErrNotExist ->
          genEncryptionConfigAndState controlConfig w = (Ok tt, w))).
Proof.
  intros runtime provider keyName Hen Hsup Hne.
  assert (Hname : (if decide (provider = secretsencrypt_AESCBCProvider)
                   then ret "aescbckey"
                   else if decide (provider = secretsencrypt_SecretBoxProvider)
                        then ret "secretboxkey"
                        else fail (ErrConfig ("unsupported secrets-encryption-key-type "
                                              +:+ provider))) = ret (A:=string) keyName).
  { subst keyName. destruct (decide (provider = secretsencrypt_AESCBCProvider)); [done|].
    destruct Hsup as [? | Hs]; [done|]. by rewrite decide_True. }
  assert (Hprov : forall keys, encryption_providers provider keys
                               = [chosen_provider provider keys; identity_provider]).
  { intros keys. unfold encryption_providers, chosen_provider, identity_provider.
    destruct (decide (provider = secretsencrypt_AESCBCProvider)); [done|].
    destruct Hsup as [? | Hs]; [done|]. by rewrite decide_True. }
  split.
  - intros Hno Hd1 Hd2.
    set (keyByte := string_of_list_ascii (map (entropy w) (seq (rpos w) secretsencrypt_KeySize))).
    set (b := json_Marshal_encryption (encryption_document
                [chosen_provider provider
                   [ {| Name := keyName; Secret := base64_EncodeToString keyByte |} ];
                 identity_provider])).
    eexists _, keyByte. simpl. fold b.
    unfold genEncryptionConfigAndState. rewrite Hen. cbn [negb]. fold provider runtime.
    rewrite Hname. unfold bind at 1. unfold ret at 1.
    unfold bind at 1. unfold gets at 1. rewrite Hno.
    unfold bind at 1. unfold rand_Read at 1. fold keyByte.
    rewrite Hprov. fold (encryption_document
                [chosen_provider provider
                   [ {| Name := keyName; Secret := base64_EncodeToString keyByte |} ];
                 identity_provider]). fold b.
    unfold bind, util_AtomicWrite, os_WriteFile, encryption_hash. simpl.
    rewrite decide_False by done. simpl. rewrite decide_False by done.
    split; [reflexivity|].
    unfold read_data, lookup_path. simpl.
    rewrite !decide_False by done.
    split.
    + rewrite lookup_store_ne.
      * by rewrite lookup_insert_eq.
      * by apply not_eq_sym.
      * intros f g Ef Eg. rewrite lookup_insert_eq in Eg. injection Eg as <-. simpl.
        rewrite lookup_insert_ne in Ef by done.
        by apply fresh_inode_unused in Ef.
    + destruct (lookup_store_eq (EncryptionHash runtime)
                  (FText ("start-" +:+ hex_EncodeToString (sha256_Sum256 b)))
                  (<[EncryptionConfig runtime :=
                       (fresh (inodes_of (files w)), FText b)]> (files w)))
        as (i & Ei & _). by rewrite Ei.
  - intros Hyes. split.
    + intros Hst. destruct (stat_nonempty_read _ _ Hyes) as (cur & Hcur & _).
      destruct (os_Stat_NotExist _ _ Hst) as [Hd Habs].
      eexists _, cur. split; [done|].
      unfold genEncryptionConfigAndState. rewrite Hen. cbn [negb]. fold provider runtime.
      rewrite Hname. unfold bind at 1. unfold ret at 1.
      unfold bind at 1. unfold gets at 1. rewrite Hyes.
      unfold bind at 1. unfold gets at 1. rewrite Hst.
      unfold bind, look. rewrite Hcur. unfold os_WriteFile, encryption_hash.
      rewrite decide_False by done.
      split; [reflexivity|].
      unfold read_data, lookup_path. simpl. rewrite decide_False by done.
      unfold store. rewrite Habs. rewrite lookup_insert_eq. split; [done|].
      intros p Hp. by rewrite lookup_insert_ne.
    + intros Hst.
      unfold genEncryptionConfigAndState. rewrite Hen. cbn [negb]. fold provider runtime.
      rewrite Hname. unfold bind at 1. unfold ret at 1.
      unfold bind at 1. unfold gets at 1. rewrite Hyes.
      unfold bind, gets.
      destruct (os_Stat w (EncryptionHash runtime)) as [n|[]]; done.
Qed.






(** C9.  The cleanup removes the kube-proxy client certificate and the
    k3s-controller client certificate and nothing else; a file that is not
    there counts as removed; a removal that the system refuses ends the
    cleanup with that error; and [GenServerDeps] starts with the cleanup: an
    error of the cleanup is the result of the bootstrap, in the world the
    cleanup left, and otherwise the certificate generation starts from that
    world. *)
Theorem C9_cleanupLegacyCerts_first_and_exact (config : Control) (w : World) :
  let proxy := ClientKubeProxyCert (Runtime config) in
  let controller := ClientK3sControllerCert (Runtime config) in
  ((proxy ∉ denied w) -> (controller ∉ denied w) ->
   cleanupLegacyCerts config w
   = (Ok tt, set_files (delete controller (delete proxy (files w))) w))
  /\ (proxy ∈ denied w -> cleanupLegacyCerts config w = (Err ErrPermission, w))
  /\ ((proxy ∉ denied w) -> controller ∈ denied w ->
      cleanupLegacyCerts config w
      = (Err ErrPermission, set_files (delete proxy (files w)) w))
  /\ (forall e w1, cleanupLegacyCerts config w = (Err e, w1) ->
                   GenServerDeps config w = (Err e, w1))
  /\ (forall w1, cleanupLegacyCerts config w = (Ok tt, w1) ->
                 GenServerDeps config w
                 = (genCerts config ;;;
                    genServiceAccount (Runtime config) ;;;
                    genUsers config ;;;
                    genEncryptedNetworkInfo config ;;;
                    genEncryptionConfigAndState config ;;;
                    genEgressSelectorConfig config ;;;
                    genCloudConfig config ;;;
                    readTokens (Runtime config)) w1).
Proof.
  intros proxy controller.
  destruct (cleanupLegacyCerts_run config w) as (H1 & H2 & H3).
  split; [exact H1|]. split; [exact H2|]. split; [exact H3|]. split.
  - intros e w1 E. unfold GenServerDeps, bind. by rewrite E.
  - intros w1 E. unfold GenServerDeps. unfold bind at 1. by rewrite E.
Qed.

(** ** The credential table *)

#[local] Arguments String.append !s1 s2 : simpl nomatch.


#[local] Arguments String.append : simpl never.

(** ** The kubeconfig files *)

#[local] Arguments String.append !s1 s2 : simpl nomatch.


#[local] Arguments String.append : simpl never.

(** ** The etcd certificates *)

#[local] Arguments String.append !s1 s2 : simpl nomatch.

(** C10.  With [DisableETCD] set, a run of [genETCDCerts] opens for writing
    only the files of the etcd-server CA, the etcd-peer CA, the etcd client
    certificate and the peer-server-client certificate, never the etcd server
    certificate or its key, whose directory entries stay as they were when no
    hard links are around; when the run succeeds all eight files exist; and the
    run with etcd enabled does the same and then issues the etcd server
    certificate. *)
Theorem C10_DisableETCD_skips_only_server_certificate
    (c : Control) (w w' : World) (r : result unit) :
  let config := CreateRuntimeCertFiles c in
  let runtime := Runtime config in
  let enabled := CreateRuntimeCertFiles (with_DisableETCD c false) in
  DisableETCD c = true ->
  genETCDCerts config w = (r, w') ->
  (exists delta, written w w' delta
     /\ (forall p, p ∈ delta ->
           p ∈ [ETCDServerCA runtime; ETCDServerCAKey runtime;
                ETCDPeerCA runtime; ETCDPeerCAKey runtime;
                ClientETCDCert runtime; ClientETCDKey runtime;
                PeerServerClientETCDCert runtime; PeerServerClientETCDKey runtime])
     /\ (ServerETCDCert runtime ∉ delta) /\ (ServerETCDKey runtime ∉ delta))
  /\ (separated [] w ->
      files w' !! ServerETCDCert runtime = files w !! ServerETCDCert runtime
      /\ files w' !! ServerETCDKey runtime = files w !! ServerETCDKey runtime)
  /\ (r = Ok tt ->
      exists_ w' [ETCDServerCA runtime; ETCDServerCAKey runtime;
                  ETCDPeerCA runtime; ETCDPeerCAKey runtime;
                  ClientETCDCert runtime; ClientETCDKey runtime;
                  PeerServerClientETCDCert runtime; PeerServerClientETCDKey runtime] = true)
  /\ (match r with
      | Ok _ =>
          exists regen,
            genETCDCerts enabled w
            = (createClientCertKey regen "etcd-server" []
                 (Some (addSANs (mkAltNames ["kine.sock"] []) (SANs c)))
                 [ExtKeyUsageServerAuth; ExtKeyUsageClientAuth]
                 (ETCDServerCA runtime) (ETCDServerCAKey runtime)
                 (ServerETCDCert runtime) (ServerETCDKey runtime) ;;; ret tt) w'
      | Err e => genETCDCerts enabled w = (Err e, w')
      end).
Proof.
  intros config runtime enabled Hd E. subst config runtime enabled.
  pose proof (touches_genETCDCerts_disabled c Hd _ _ _ E)
    as (Hden & Hclock & (delta & Hw & Hsub) & Hmono & Hfr).
  set (d := DataDir c) in *.
  split; [|split; [|split]].
  - exists delta. split; [exact Hw|]. split; [exact Hsub|]. split.
    + intros Hin. apply Hsub in Hin. revert Hin. norm_paths. und.
    + intros Hin. apply Hsub in Hin. revert Hin. norm_paths. und.
  - intros Hsep. destruct (Hfr Hsep) as [_ Hfr']. split; apply Hfr'; norm_paths; und.
  - intros ->. unfold genETCDCerts in E. norm_paths_in E. cbv zeta in E.
    rewrite Hd in E. fold d in E.
    apply bind_Ok_inv in E as (regen1 & w1 & E1 & E).
    apply bind_Ok_inv in E as (b1 & w2 & E2 & E).
    apply bind_Ok_inv in E as (regen2 & w3 & E3 & E).
    apply bind_Ok_inv in E as (b2 & w4 & E4 & [_ <-]%ret_Ok_inv).
    pose proof (createSigningCertKey_Ok _ _ _ _ _ _ E1) as X1.
    pose proof (createClientCertKey_exists _ _ _ _ _ _ _ _ _ _ _ _ E2) as X2.
    pose proof (createSigningCertKey_Ok _ _ _ _ _ _ E3) as X3.
    pose proof (createClientCertKey_exists _ _ _ _ _ _ _ _ _ _ _ _ E4) as X4.
    assert (T2 : touched [] [d +:+ "/tls/etcd/client.crt"; d +:+ "/tls/etcd/client.key"] w1 w2).
    { eapply touches_createClientCertKey; [left|right; left|apply not_elem_of_nil..|exact E2]. }
    assert (T3 : touched [] [d +:+ "/tls/etcd/peer-ca.crt"; d +:+ "/tls/etcd/peer-ca.key"] w2 w3).
    { eapply touches_createSigningCertKey; [left|right; left|apply not_elem_of_nil..|exact E3]. }
    assert (T4 : touched [] [d +:+ "/tls/etcd/peer-server-client.crt";
                             d +:+ "/tls/etcd/peer-server-client.key"] w3 w').
    { eapply touches_createClientCertKey; [left|right; left|apply not_elem_of_nil..|exact E4]. }
    norm_paths. fold d.
    change [d +:+ "/tls/etcd/server-ca.crt"; d +:+ "/tls/etcd/server-ca.key";
            d +:+ "/tls/etcd/peer-ca.crt"; d +:+ "/tls/etcd/peer-ca.key";
            d +:+ "/tls/etcd/client.crt"; d +:+ "/tls/etcd/client.key";
            d +:+ "/tls/etcd/peer-server-client.crt";
            d +:+ "/tls/etcd/peer-server-client.key"]
      with ([d +:+ "/tls/etcd/server-ca.crt"; d +:+ "/tls/etcd/server-ca.key"]
            ++ [d +:+ "/tls/etcd/peer-ca.crt"; d +:+ "/tls/etcd/peer-ca.key"]
            ++ [d +:+ "/tls/etcd/client.crt"; d +:+ "/tls/etcd/client.key"]
            ++ [d +:+ "/tls/etcd/peer-server-client.crt";
                d +:+ "/tls/etcd/peer-server-client.key"])%list.
    rewrite !exists_app.
    rewrite (touched_exists _ _ _ _ _ T4 (touched_exists _ _ _ _ _ T3
               (touched_exists _ _ _ _ _ T2 X1))).
    rewrite (touched_exists _ _ _ _ _ T4 X3).
    rewrite (touched_exists _ _ _ _ _ T4 (touched_exists _ _ _ _ _ T3 X2)).
    by rewrite X4.
  - unfold genETCDCerts in *. norm_paths. norm_paths_in E. cbv zeta in *.
    cbn [with_DisableETCD DataDir SANs DisableETCD]. rewrite Hd in E. fold d in E |- *.
    unfold bind in E |- *.
    destruct (createSigningCertKey "etcd-server" _ _ w) as [[regen1|e1] w1];
      [|by injection E as <- <-].
    destruct (createClientCertKey regen1 "etcd-client" _ _ _ _ _ _ _ w1) as [[b1|e2] w2];
      [|by injection E as <- <-].
    destruct (createSigningCertKey "etcd-peer" _ _ w2) as [[regen2|e3] w3];
      [|by injection E as <- <-].
    destruct (createClientCertKey regen2 "etcd-peer" _ _ _ _ _ _ _ w3) as [[b2|e4] w4];
      [|by injection E as <- <-].
    injection E as <- <-. by exists regen2.
Qed.

#[local] Arguments String.append : simpl never.

(** ** The whole bootstrap *)

Lemma rewritten_paths_under c :
  rewritten_paths (Runtime (CreateRuntimeCertFiles c)) = under (DataDir c) rewritten.
Proof. reflexivity. Qed.

Lemma inv_restart d L F w : inv d L F w -> inv d L F (restart w).
Proof.
  intros [Hsep Hset]. split; [exact Hsep|].
  unfold settled in *. rewrite Forall_forall in *. intros f Hf.
  apply (holds_same d f w (restart w)); [|done|done|by apply Hset].
  intros p _. by split.
Qed.


(** * Further properties of the package *)

#[local] Arguments String.append !s1 s2 : simpl nomatch.

(** ** Alternative names *)

(** X1.  [addSANs] keeps the names that are there and appends every given
    name, in order: to the IP addresses when it parses as one, to the DNS
    names otherwise. *)
Theorem X1_addSANs_partitions_the_names (altNames : AltNames) (sans : list string) :
  an_DNSNames (addSANs altNames sans)
  = (an_DNSNames altNames ++ filter (fun san => net_ParseIP san = None) sans)%list
  /\ an_IPs (addSANs altNames sans) = (an_IPs altNames ++ omap net_ParseIP sans)%list.
Proof.
  unfold addSANs. revert altNames.
  induction sans as [|san sans IH]; intros altNames.
  - cbn. by rewrite !app_nil_r.
  - cbn [fold_left]. rewrite filter_cons.
    change (omap net_ParseIP (san :: sans))
      with (match net_ParseIP san with
            | Some ip => ip :: omap net_ParseIP sans
            | None => omap net_ParseIP sans
            end).
    destruct (net_ParseIP san) as [ip|] eqn:E.
    + destruct (IH (mkAltNames (an_DNSNames altNames) (an_IPs altNames ++ [ip])))
        as [-> ->].
      cbn [an_DNSNames an_IPs]. rewrite decide_False by done.
      split; [done|]. by rewrite <- app_assoc.
    + destruct (IH (mkAltNames (an_DNSNames altNames ++ [san]) (an_IPs altNames)))
        as [-> ->].
      cbn [an_DNSNames an_IPs]. rewrite decide_True by done.
      split; [|done]. by rewrite <- app_assoc.
Qed.

(** ** The file names of the runtime *)

Lemma NoDup_under d l : NoDup l -> NoDup (under d l).
Proof.
  induction 1 as [|s l Hs Hl IH]; [constructor|]. cbn. constructor; [|done].
  fold (under d l). by rewrite elem_of_under.
Qed.


(** ** The checks of an existing certificate *)

(** X3.  For a certificate file that can be read: a common name other than
    the desired one makes [fieldsChanged] answer true; and when common name,
    organization set and alternative names are as desired, it answers true
    exactly when the CA file can be read and the authority key identifier of
    the certificate is not the subject key identifier of the first CA
    certificate; a CA file that cannot be read never asks for a new
    certificate. *)
Theorem X3_fieldsChanged_common_name_and_issuer
    (w : World) (certFile commonName : string) (organization : list string)
    (sans : option AltNames) (caCertFile : string)
    (cert0 : Certificate) (rest : list Certificate) :
  certutil_CertsFromFile w certFile = Ok (cert0 :: rest) ->
  let want := default (mkAltNames [] []) sans in
  let changed := fieldsChanged w certFile commonName organization sans caCertFile in
  (Subject_CommonName cert0 <> commonName -> changed = true)
  /\ (Subject_CommonName cert0 = commonName ->
      (forall o, o ∈ Subject_Organization cert0 <-> o ∈ organization) ->
      (forall d, d ∈ an_DNSNames want -> d ∈ DNSNames cert0) ->
      (forall ip, ip ∈ an_IPs want -> ip ∈ IPAddresses cert0) ->
      (changed = true <->
       exists ca0 cas, certutil_CertsFromFile w caCertFile = Ok (ca0 :: cas)
                       /\ AuthorityKeyId cert0 <> SubjectKeyId ca0)).
Proof.
  intros E want changed. subst changed. unfold fieldsChanged. rewrite E. fold want.
  split.
  - intros Hcn. by rewrite bool_decide_eq_false_2 by done.
  - intros Hcn Horg Hdns Hips.
    rewrite bool_decide_eq_true_2 by done. cbn [negb].
    rewrite bool_decide_eq_true_2 by (by apply sets_NewString_equal). cbn [negb].
    rewrite (proj2 (forallb_has_all _ _) Hdns). cbn [negb].
    destruct (existsb _ (an_IPs want)) eqn:Eips.
    { apply existsb_missing in Eips as (ip & Hin & Hn). destruct Hn. by apply Hips. }
    destruct (certutil_CertsFromFile w caCertFile) as [[|ca0 cas]|e].
    + split; [done|]. by intros (? & ? & ? & _).
    + destruct (decide (AuthorityKeyId cert0 = SubjectKeyId ca0)) as [Heq|Hne].
      * rewrite bool_decide_eq_true_2 by done. split; [done|].
        by intros (? & ? & [= <- _] & ?).
      * rewrite bool_decide_eq_false_2 by done. split; [|done]. intros _. eauto.
    + split; [done|]. by intros (? & ? & ? & _).
Qed.

(** ** The credential table *)

Lemma length_hex_EncodeToString s :
  String.length (hex_EncodeToString s) = (2 * String.length s)%nat.
Proof. induction s as [|a s IH]; [done|]. cbn. rewrite IH. lia. Qed.

Lemma hex_EncodeToString_nonempty s : s <> "" -> hex_EncodeToString s <> "".
Proof. by destruct s. Qed.

Lemma getServerPass_cases
    (passwd : Passwd) (config : Control) (w : World) :
  exists s w',
    getServerPass passwd config w = (Ok s, w')
    /\ s <> ""
    /\ (if decide (Token config = "")
        then if decide ((Pass passwd "server").1 = "")
             then w' = set_rpos (rpos w + 16)%nat w
                  /\ exists bytes, String.length bytes = 16%nat
                                   /\ s = hex_EncodeToString bytes
             else s = (Pass passwd "server").1 /\ w' = w
        else s = Token config /\ w' = w).
Proof.
  unfold getServerPass. cbv zeta.
  destruct (decide (Token config = "")) as [Ht|Ht].
  - destruct (decide ((Pass passwd "server").1 = "")) as [Hp|Hp].
    + destruct (util_Random_run 16 w) as (bytes & Hlen & ->).
      eexists _, _. split; [done|]. split; [|split; [done|eauto]].
      apply hex_EncodeToString_nonempty. intros ->. done.
    + eexists _, _. split; [done|]. done.
  - rewrite decide_False by done. eexists _, _. split; [done|]. done.
Qed.

(** X4.  [getServerPass] answers the configured token when there is one, else
    the secret of the "server" entry when it is not empty, and only else the
    hexadecimal form of 16 bytes of the random source; it draws from the
    random source in the last case only, and its answer is never empty. *)
Theorem X4_getServerPass_precedence
    (passwd : Passwd) (config : Control) (w : World) :
  exists s w',
    getServerPass passwd config w = (Ok s, w')
    /\ s <> ""
    /\ (if decide (Token config = "")
        then if decide ((Pass passwd "server").1 = "")
             then w' = set_rpos (rpos w + 16)%nat w
                  /\ exists bytes, String.length bytes = 16%nat
                                   /\ s = hex_EncodeToString bytes
             else s = (Pass passwd "server").1 /\ w' = w
        else s = Token config /\ w' = w).
Proof. apply getServerPass_cases. Qed.

Lemma EnsureUser_lookup p name role pw p' :
  EnsureUser p name role pw = Ok p' ->
  names p' !! name = Some (mkEntry role pw)
  /\ (forall n, n <> name -> names p' !! n = names p !! n)
  /\ (changed p' = false -> p' = p).
Proof.
  unfold EnsureUser. destruct (names p !! name) as [e|] eqn:E.
  - destruct (decide (e = mkEntry role pw)) as [->|Hne]; intros [= <-].
    + done.
    + cbn. rewrite lookup_insert_eq. split; [done|]. split; [|done].
      intros n Hn. by rewrite lookup_insert_ne.
  - intros [= <-]. cbn. rewrite lookup_insert_eq. split; [done|]. split; [|done].
    intros n Hn. by rewrite lookup_insert_ne.
Qed.

(** X5.  [migratePassword] always succeeds; it changes the table only when the
    secret of "server" is empty and the secret of "node" is not, and then it
    gives "server" the secret of "node"; no other entry is touched, and
    afterwards a table with a secret for "node" has one for "server". *)
Theorem X5_migratePassword_copies_node_secret (p : Passwd) :
  exists p',
    migratePassword p = Ok p'
    /\ (forall n, n <> "server" -> names p' !! n = names p !! n)
    /\ (if (bool_decide ((Pass p "server").1 = "")
            && negb (bool_decide ((Pass p "node").1 = "")))%bool
        then names p' !! "server"
             = Some (mkEntry (version_Program +:+ ":server") (Pass p "node").1)
        else p' = p)
    /\ ((Pass p "node").1 <> "" -> (Pass p' "server").1 <> "").
Proof.
  unfold migratePassword. cbv zeta.
  destruct (bool_decide ((Pass p "server").1 = "")) eqn:Es;
    destruct (bool_decide ((Pass p "node").1 = "")) eqn:En; cbn [andb negb].
  - exists p. apply bool_decide_eq_true in En. done.
  - destruct (EnsureUser_Ok p "server" (version_Program +:+ ":server") (Pass p "node").1)
      as (p' & E).
    exists p'. split; [done|].
    apply EnsureUser_lookup in E as (E1 & E2 & _).
    split; [done|]. split; [done|]. intros Hn. unfold Pass at 1. by rewrite E1.
  - exists p. apply bool_decide_eq_true in En. done.
  - exists p. apply bool_decide_eq_false in Es. done.
Qed.

(** ** The certificate factories *)

(** X6.  [createSigningCertKey] is idempotent: after a call that succeeded, a
    second call finds certificate and key, answers [false] and changes
    nothing. *)
Theorem X6_createSigningCertKey_idempotent
    (prefix certFile keyFile : string) (w w' : World) (b : bool) :
  createSigningCertKey prefix certFile keyFile w = (Ok b, w') ->
  createSigningCertKey prefix certFile keyFile w' = (Ok false, w').
Proof.
  intros E%createSigningCertKey_Ok. unfold createSigningCertKey, bind, gets.
  by rewrite E.
Qed.

(** X7.  When the key of a CA is there and its certificate is not,
    [createSigningCertKey] keeps the key: it writes only the certificate, a
    self-signed CA certificate for that key, named after the prefix and the
    time of the call; every other directory entry stays as it was. *)
Theorem X7_createSigningCertKey_keeps_an_existing_key
    (prefix certFile keyFile : string) (w : World) (keyData : FileData) (k : PrivateKey) :
  read_data w keyFile = Ok keyData ->
  certutil_ParsePrivateKeyPEM keyData = Ok k ->
  files w !! certFile = None ->
  certFile ∉ denied w ->
  let cert :=
    {| Subject_CommonName := prefix +:+ "-ca@" +:+ pretty (clock w);
       Subject_Organization := []; DNSNames := []; IPAddresses := [];
       NotAfter := clock w + ca_validity; ExtKeyUsages := []; IsCA := true;
       SubjectKeyId := key_id k; AuthorityKeyId := "" |} in
  createSigningCertKey prefix certFile keyFile w
  = (Ok true,
     log_write certFile
       (set_files (<[certFile := (fresh (inodes_of (files w)), certutil_EncodeCertPEM cert)]>
                     (files w)) w)).
Proof.
  intros Hkey Hparse Hcert Hden cert.
  unfold createSigningCertKey.
  assert (Hex : exists_ w [certFile; keyFile] = false).
  { rewrite exists_cons. unfold lookup_path. rewrite decide_False by done.
    by rewrite Hcert. }
  unfold bind at 1. unfold gets at 1. rewrite Hex.
  unfold bind at 1. unfold certutil_LoadOrGenerateKeyFile. rewrite Hkey, Hparse.
  cbn [is_Ok fst]. unfold bind at 1. unfold of_result at 1. rewrite Hparse.
  unfold bind at 1. unfold time_Now at 1.
  unfold bind at 1. unfold certutil_NewSelfSignedCACert, bind, time_Now, ret.
  unfold certutil_WriteCert, os_WriteFile. rewrite decide_False by done.
  unfold store. by rewrite Hcert.
Qed.

(** X8.  [createClientCertKey] is idempotent: after a call that succeeded,
    with or without issuing, a second call without the regeneration flag finds
    the certificate in order, answers [false] and changes nothing.  (The
    lifetime of a certificate is longer than the renewal window, the three
    files are different and no two files are hard links of each other.) *)
Theorem X8_createClientCertKey_idempotent
    (regen : bool) (cn : string) (org : list string) (sans : option AltNames)
    (usage : list ExtKeyUsage) (ca cakey cert key : string) (w w' : World) (b : bool) :
  CertificateRenewDays * 86400 < cert_validity ->
  separated [] w ->
  cert <> key -> ca <> cert -> ca <> key ->
  createClientCertKey regen cn org sans usage ca cakey cert key w = (Ok b, w') ->
  createClientCertKey false cn org sans usage ca cakey cert key w' = (Ok false, w').
Proof.
  intros Hvalid Hsep Hck Hcac Hcak E.
  destruct (createClientCertKey_Ok [] _ _ _ _ _ _ _ _ _ _ _ _ E Hsep
              (not_elem_of_nil _) (not_elem_of_nil _) Hck Hcac Hcak Hvalid)
    as (H1 & H2 & H3).
  unfold createClientCertKey, bind, gets. by rewrite H1, H2, H3.
Qed.

(** X9.  With the regeneration flag [createClientCertKey] never keeps what is
    there: when it succeeds it answers [true], and it has written a new key
    and then the certificate, and no other file. *)
Theorem X9_createClientCertKey_forced_writes_key_and_certificate
    (cn : string) (org : list string) (sans : option AltNames)
    (usage : list ExtKeyUsage) (ca cakey cert key : string) (w w' : World) (b : bool) :
  createClientCertKey true cn org sans usage ca cakey cert key w = (Ok b, w') ->
  b = true /\ written w w' [cert; key].
Proof.
  unfold createClientCertKey. intros E.
  apply bind_Ok_inv in E as (regen' & w1 & [-> ->]%gets_Ok_inv & E).
  apply bind_Ok_inv in E as (present & w1 & [-> ->]%gets_Ok_inv & E).
  cbn [orb negb andb] in E.
  apply bind_Ok_inv in E as (caKey & w1 & [_ ->]%look_Ok_inv & E).
  apply bind_Ok_inv in E as (caCerts & w1 & [_ ->]%look_Ok_inv & E).
  apply bind_Ok_inv in E as (kb & w1 & Ek & E).
  apply bind_Ok_inv in E as (k & w2 & [_ ->]%of_result_Ok_inv & E).
  apply bind_Ok_inv in E as (caCert0 & w2 & E0 & E).
  apply bind_Ok_inv in E as (newcert & w3 & Enew & E).
  apply bind_Ok_inv in E as ([] & w4 & Ew & [<- <-]%ret_Ok_inv).
  split; [done|].
  assert (w2 = w1) as ->.
  { destruct caCerts; [done|]. by apply ret_Ok_inv in E0 as [_ ->]. }
  assert (w3 = w1) as ->.
  { unfold certutil_NewSignedCert in Enew.
    destruct (decide _); [done|]. destruct (decide _); [done|].
    by apply bind_Ok_inv in Enew as (now & w2 & [_ ->]%time_Now_Ok_inv & [_ ->]%ret_Ok_inv). }
  apply os_WriteFile_cases in Ew as [[_ Hlog]|(e & [=] & _)].
  unfold certutil_LoadOrGenerateKeyFile in Ek.
  apply bind_Ok_inv in Ek as (k0 & w2 & [= _ <-] & Ek).
  apply bind_Ok_inv in Ek as ([] & w3 & Ewk & [_ <-]%ret_Ok_inv).
  apply os_WriteFile_cases in Ewk as [[_ Hlogk]|(e & [=] & _)].
  unfold written. rewrite Hlog, Hlogk. done.
Qed.

(** X10.  When a certificate has to be issued and the key of the CA cannot be
    read, [createClientCertKey] fails with the error of that read, before it
    reads the CA certificate and before it makes a key: nothing is changed.
    With a readable CA key and an unreadable CA certificate it fails in the
    same way with the error of the second read. *)
Theorem X10_createClientCertKey_needs_the_CA
    (regen : bool) (cn : string) (org : list string) (sans : option AltNames)
    (usage : list ExtKeyUsage) (ca cakey cert key : string) (w : World) :
  (regen || expired w cert || fieldsChanged w cert cn org sans ca
   || negb (exists_ w [cert; key]))%bool = true ->
  (forall e, certutil_PrivateKeyFromFile w cakey = Err e ->
             createClientCertKey regen cn org sans usage ca cakey cert key w = (Err e, w))
  /\ (forall caKey e,
        certutil_PrivateKeyFromFile w cakey = Ok caKey ->
        certutil_CertsFromFile w ca = Err e ->
        createClientCertKey regen cn org sans usage ca cakey cert key w = (Err e, w)).
Proof.
  intros Hneed.
  assert (Hgo : (negb (regen || expired w cert || fieldsChanged w cert cn org sans ca)
                 && exists_ w [cert; key])%bool = false).
  { destruct (exists_ w [cert; key]); [|by rewrite andb_false_r].
    rewrite andb_true_r. cbn [negb] in Hneed. rewrite orb_false_r in Hneed.
    by rewrite Hneed. }
  split.
  - intros e Ekey. unfold createClientCertKey, bind, gets, look.
    by rewrite Hgo, Ekey.
  - intros caKey e Ekey Eca. unfold createClientCertKey, bind, gets, look.
    by rewrite Hgo, Ekey, Eca.
Qed.

(** ** The pre-shared key of the network *)

Lemma hex_digit_no_space n : is_space (hex_digit n) = false.
Proof.
  destruct n as [|p]; [done|].
  do 4 (destruct p as [p|p|]; try done).
Qed.

Lemma hex_EncodeToString_no_space s : no_space (hex_EncodeToString s) = true.
Proof.
  induction s as [|a s IH]; [done|]. cbn [hex_EncodeToString no_space].
  by rewrite !hex_digit_no_space, IH.
Qed.

Lemma trim_right_newline s : no_space s = true -> trim_right (s +:+ nl) = s.
Proof.
  induction s as [|a s IH]; [done|]. cbn [no_space String.append trim_right].
  intros [Ha Hs]%andb_true_iff. rewrite (IH Hs).
  apply negb_true_iff in Ha. rewrite Ha. by destruct s.
Qed.

Lemma strings_TrimSpace_newline s :
  no_space s = true -> strings_TrimSpace (s +:+ nl) = s.
Proof.
  intros Hs. unfold strings_TrimSpace.
  destruct s as [|a s]; [done|].
  pose proof Hs as [Ha _]%andb_true_iff. apply negb_true_iff in Ha.
  cbn [String.append trim_left]. rewrite Ha.
  by apply (trim_right_newline (String a s)).
Qed.

Lemma length_append_newline s : (0 < String.length (s +:+ nl))%nat.
Proof. destruct s; cbn; lia. Qed.

Lemma genEncryptedNetworkInfo_Ok
    (controlConfig : Control) (w w1 : World) :
  genEncryptedNetworkInfo controlConfig w = (Ok tt, w1) ->
  (exists content,
     os_ReadFile w1 (IPSECKey (Runtime controlConfig)) = Ok content
     /\ IPSECPSK w1 = strings_TrimSpace content)
  /\ genEncryptedNetworkInfo controlConfig w1 = (Ok tt, w1).
Proof.
  unfold genEncryptedNetworkInfo. cbv zeta.
  set (p := IPSECKey (Runtime controlConfig)). intros E.
  apply bind_Ok_inv in E as (present & w0 & [-> ->]%gets_Ok_inv & E).
  destruct (stat_nonempty w p) eqn:Est.
  - apply bind_Ok_inv in E as (psk & w0 & [Eread ->]%look_Ok_inv & E).
    injection E as <-.
    assert (Est' : stat_nonempty
                     (mkWorld (files w) (denied w) (clock w) (entropy w) (rpos w) (wlog w)
                        (strings_TrimSpace psk) (rt_AgentToken w) (rt_ServerToken w)) p
                   = true) by exact Est.
    split; [exists psk; by split|].
    unfold bind at 1. unfold gets at 1. rewrite Est'.
    unfold bind, look.
    change (os_ReadFile _ p) with (os_ReadFile w p). by rewrite Eread.
  - apply bind_Ok_inv in E as (psk & wr & Er & E).
    apply bind_Ok_inv in E as ([] & ws & [= <-] & E).
    destruct (util_Random_run ipsecTokenSize w) as (bytes & _ & Er').
    rewrite Er' in Er. injection Er as <- <-.
    set (psk := hex_EncodeToString bytes) in *.
    unfold os_WriteFile in E. cbn [denied set_rpos] in E.
    destruct (decide (p ∈ denied w)) as [|Hden]; [done|]. injection E as <-.
    destruct (lookup_store_eq p (FText (psk +:+ nl)) (files w)) as (i & Hi & _).
    assert (Hread : os_ReadFile
                      (log_write p
                         (set_files (store p (FText (psk +:+ nl)) (files w))
                            (mkWorld (files w) (denied w) (clock w) (entropy w)
                               (rpos w + ipsecTokenSize)%nat (wlog w) psk
                               (rt_AgentToken w) (rt_ServerToken w)))) p
                    = Ok (psk +:+ nl)).
    { unfold os_ReadFile, read_data, lookup_path. cbn [denied files log_write set_files].
      rewrite decide_False by done. by rewrite Hi. }
    assert (Htrim : strings_TrimSpace (psk +:+ nl) = psk).
    { apply strings_TrimSpace_newline, hex_EncodeToString_no_space. }
    split; [exists (psk +:+ nl); by split|].
    unfold bind at 1. unfold gets at 1.
    assert (Hst : stat_nonempty
                    (log_write p
                       (set_files (store p (FText (psk +:+ nl)) (files w))
                          (mkWorld (files w) (denied w) (clock w) (entropy w)
                             (rpos w + ipsecTokenSize)%nat (wlog w) psk
                             (rt_AgentToken w) (rt_ServerToken w)))) p = true).
    { unfold stat_nonempty, os_Stat, lookup_path. cbn [denied files log_write set_files].
      rewrite decide_False by done. rewrite Hi. cbn [snd file_bytes].
      apply bool_decide_eq_true. apply length_append_newline. }
    rewrite Hst. unfold bind, look. rewrite Hread, Htrim. done.
Qed.


(** ** The users of the credential table *)

Lemma passwd_Read_Ok w file p :
  passwd_Read w file = Ok p ->
  changed p = false
  /\ (read_data w file = Ok (FPasswd (names p))
      \/ (read_data w file = Err ErrNotExist /\ names p = ∅)).
Proof.
  unfold passwd_Read. destruct (read_data w file) as [[| |]|[]]; try done.
  - intros [= <-]. split; [done|]. by left.
  - intros [= <-]. split; [done|]. by right.
Qed.

Lemma passwd_Read_table w file table :
  read_data w file = Ok (FPasswd table) -> passwd_Read w file = Ok (mkPasswd table false).
Proof. unfold passwd_Read. by intros ->. Qed.

Lemma migratePassword_unchanged p p' :
  migratePassword p = Ok p' -> changed p' = false -> p' = p.
Proof.
  unfold migratePassword. cbv zeta. destruct (_ && _)%bool.
  - intros E Hc. by apply EnsureUser_lookup in E as (_ & _ & ->).
  - by intros [= <-].
Qed.

Lemma migratePassword_settled p :
  (Pass p "server").1 <> "" -> migratePassword p = Ok p.
Proof.
  intros Hs. unfold migratePassword. cbv zeta.
  by rewrite bool_decide_eq_false_2 by done.
Qed.

Lemma EnsureUser_settled p name role pw :
  names p !! name = Some (mkEntry role pw) -> EnsureUser p name role pw = Ok p.
Proof. intros E. unfold EnsureUser. rewrite E. by rewrite decide_True. Qed.

(** After [genUsers] succeeded the file holds a table with both users; the
    secret of the server is not empty and is the configured token when there
    is one. *)
Lemma genUsers_Ok config w w1 :
  genUsers config w = (Ok tt, w1) ->
  exists table sp,
    read_data w1 (PasswdFile (Runtime config)) = Ok (FPasswd table)
    /\ sp <> ""
    /\ (Token config <> "" -> sp = Token config)
    /\ table !! "server" = Some (mkEntry (version_Program +:+ ":server") sp)
    /\ table !! "node"
       = Some (mkEntry (version_Program +:+ ":agent") (getNodePass config sp)).
Proof.
  unfold genUsers. cbv zeta. set (file := PasswdFile (Runtime config)). intros E.
  apply bind_Ok_inv in E as (p0 & w0 & [Eread ->]%look_Ok_inv & E).
  apply bind_Ok_inv in E as (p1 & w0 & [Emig ->]%of_result_Ok_inv & E).
  apply bind_Ok_inv in E as (sp & ws & Esp & E).
  apply bind_Ok_inv in E as (p2 & w0 & [Enode ->]%of_result_Ok_inv & E).
  apply bind_Ok_inv in E as (p3 & w0 & [Eserver ->]%of_result_Ok_inv & E).
  destruct (getServerPass_cases p1 config w) as (sp' & ws' & Esp' & Hne & Hcases).
  rewrite Esp in Esp'. injection Esp' as <- <-.
  set (np := getNodePass config sp) in *.
  apply EnsureUser_lookup in Enode as (Hn2 & _ & Hc2).
  apply EnsureUser_lookup in Eserver as (Hs3 & Hother & Hc3).
  assert (Hn3 : names p3 !! "node" = Some (mkEntry (version_Program +:+ ":agent") np)).
  { by rewrite Hother. }
  assert (Hdisk : files ws = files w /\ denied ws = denied w).
  { destruct (decide (Token config = "")); [destruct (decide _)|];
      destruct Hcases as [Hc1 Hc1']; by subst. }
  exists (names p3), sp. split; [|split; [done|split; [|done]]].
  - unfold passwd_Write in E. destruct (changed p3) eqn:Hch.
    + by apply util_AtomicWrite_Ok in E as [_ E].
    + injection E as <-.
      assert (p3 = p2) as -> by (by apply Hc3).
      assert (p2 = p1) as -> by (by apply Hc2).
      assert (p1 = p0) as -> by (by apply migratePassword_unchanged).
      apply passwd_Read_Ok in Eread as [_ [Er|[_ Hempty]]].
      * unfold read_data, lookup_path in *. destruct Hdisk as [-> ->]. exact Er.
      * rewrite Hempty in Hs3. by rewrite lookup_empty in Hs3.
  - intros Ht. destruct (decide (Token config = "")); [done|]. by destruct Hcases.
Qed.

(** X12.  [genUsers] is idempotent: after a call that succeeded, with the
    same configuration a second call finds both users in the table with the
    secrets it would give them, draws nothing from the random source and does
    not write the file. *)
Theorem X12_genUsers_idempotent (config : Control) (w w1 : World) :
  genUsers config w = (Ok tt, w1) ->
  genUsers config w1 = (Ok tt, w1).
Proof.
  intros E. destruct (genUsers_Ok config w w1 E) as (table & sp & Hread & Hne & Ht & Hs & Hn).
  unfold genUsers. cbv zeta. set (file := PasswdFile (Runtime config)) in *.
  set (q0 := mkPasswd table false).
  assert (Hpass : (Pass q0 "server").1 = sp).
  { unfold Pass. cbn [names q0]. by rewrite Hs. }
  assert (Esp1 : getServerPass q0 config w1 = (Ok sp, w1)).
  { unfold getServerPass. cbv zeta. rewrite Hpass.
    destruct (decide (Token config = "")) as [Ht'|Ht'].
    - by rewrite decide_False by done.
    - rewrite <- (Ht Ht'). by rewrite decide_False by done. }
  unfold bind at 1. unfold look at 1. rewrite (passwd_Read_table _ _ _ Hread). fold q0.
  unfold bind at 1. unfold of_result at 1.
  rewrite (migratePassword_settled q0) by (by rewrite Hpass).
  unfold bind at 1. rewrite Esp1.
  unfold bind at 1. unfold of_result at 1.
  rewrite (EnsureUser_settled q0 "node") by exact Hn.
  unfold bind at 1. unfold of_result at 1.
  rewrite (EnsureUser_settled q0 "server") by exact Hs.
  done.
Qed.

(** ** What a bootstrap leaves alone *)

Lemma touched_confined L W w w' : touched L W w w' -> confined W w w'.
Proof. intros (H1 & H2 & H3 & H4 & _). by repeat split. Qed.

Lemma touches_confines {A} L W (m : M A) : touches L W m -> confines W m.
Proof. intros Hm w r w' E. eapply touched_confined, Hm, E. Qed.

Lemma confined_refl W w : confined W w w.
Proof. apply (touched_confined [] W), touched_refl. Qed.

Lemma confined_trans W w1 w2 w3 :
  confined W w1 w2 -> confined W w2 w3 -> confined W w1 w3.
Proof.
  intros (Hd1 & Hc1 & (d1 & Hw1 & Hs1) & Hm1) (Hd2 & Hc2 & (d2 & Hw2 & Hs2) & Hm2).
  split; [congruence|]. split; [congruence|]. split; [|auto].
  exists (d2 ++ d1)%list. split.
  - unfold written in *. rewrite Hw2, Hw1. by rewrite app_assoc.
  - intros p [?|?]%elem_of_app; auto.
Qed.

Lemma confines_bind {A B} W (m : M A) (k : A -> M B) :
  confines W m -> (forall a, confines W (k a)) -> confines W (bind m k).
Proof.
  intros Hm Hk w r w' E. apply bind_inv in E as [(a & w1 & E1 & E2)|(e & E1 & _)].
  - eapply confined_trans; [eapply Hm; eauto|eapply Hk; eauto].
  - eapply Hm; eauto.
Qed.

Lemma confines_under {A} d L l W (m : M A) :
  forallb (fun s => mem s W) l = true ->
  touches L (under d l) m -> confines (under d W) m.
Proof.
  intros Hsub Hm. eapply touches_confines, touches_mono; [|exact Hm].
  by apply under_subset.
Qed.

Lemma confines_createServerSigningCertKey c enc :
  confines (under (DataDir c) (bootstrap_remainders enc))
           (createServerSigningCertKey (CreateRuntimeCertFiles c)).
Proof.
  unfold createServerSigningCertKey. norm_paths. cbv zeta.
  apply confines_bind; [eapply touches_confines, (touches_gets [])|].
  intros [|].
  - apply (touches_confines (under (DataDir c) legacy_links)).
    destruct enc;
      repeat first
        [ apply touches_ret
        | apply touches_os_Link; [und|und|und]
        | apply touches_bind; [|intros ?] ].
  - apply (touches_confines (under (DataDir c) [])). destruct enc; touch.
Qed.

Lemma confines_genCerts c enc :
  confines (under (DataDir c) (bootstrap_remainders enc))
           (genCerts (CreateRuntimeCertFiles c)).
Proof.
  unfold genCerts. apply confines_bind; [|intros _].
  { apply (touches_confines (under (DataDir c) [])).
    unfold genClientCerts. norm_paths. cbv zeta. destruct enc; touch. }
  apply confines_bind; [|intros _].
  { unfold genServerCerts. cbv zeta.
    apply confines_bind; [apply confines_createServerSigningCertKey|]. intros regen.
    apply (touches_confines (under (DataDir c) [])). norm_paths. destruct enc; touch. }
  apply confines_bind; [|intros _].
  { apply (touches_confines (under (DataDir c) [])).
    unfold genRequestHeaderCerts. norm_paths. cbv zeta. destruct enc; touch. }
  apply (touches_confines (under (DataDir c) [])).
  unfold genETCDCerts. norm_paths. cbv zeta. destruct enc; touch.
Qed.

Lemma confines_after_genCerts c :
  confines (under (DataDir c) (bootstrap_remainders (EncryptSecrets c)))
    (genServiceAccount (Runtime (CreateRuntimeCertFiles c)) ;;;
     genUsers (CreateRuntimeCertFiles c) ;;;
     genEncryptedNetworkInfo (CreateRuntimeCertFiles c) ;;;
     genEncryptionConfigAndState (CreateRuntimeCertFiles c) ;;;
     genEgressSelectorConfig (CreateRuntimeCertFiles c) ;;;
     genCloudConfig (CreateRuntimeCertFiles c) ;;;
     readTokens (Runtime (CreateRuntimeCertFiles c))).
Proof.
  destruct (EncryptSecrets c) eqn:Hen.
  - repeat (apply confines_bind; [|intros _]);
      first [ eapply confines_under; [|apply touches_genServiceAccount]; exact eq_refl
            | eapply confines_under; [|apply touches_genUsers]; exact eq_refl
            | eapply confines_under; [|apply touches_genEncryptedNetworkInfo]; exact eq_refl
            | eapply confines_under; [|by apply touches_genEncryptionConfigAndState];
              exact eq_refl
            | eapply confines_under; [|apply touches_genEgressSelectorConfig]; exact eq_refl
            | eapply confines_under; [|apply touches_genCloudConfig]; exact eq_refl
            | eapply confines_under; [|apply touches_readTokens]; exact eq_refl ].
  - rewrite (genEncryptionConfigAndState_disabled c Hen).
    repeat (apply confines_bind; [|intros _]);
      first [ eapply confines_under; [|apply touches_genServiceAccount]; exact eq_refl
            | eapply confines_under; [|apply touches_genUsers]; exact eq_refl
            | eapply confines_under; [|apply touches_genEncryptedNetworkInfo]; exact eq_refl
            | eapply touches_confines, (touches_ret [])
            | eapply confines_under; [|apply touches_genEgressSelectorConfig]; exact eq_refl
            | eapply confines_under; [|apply touches_genCloudConfig]; exact eq_refl
            | eapply confines_under; [|apply touches_readTokens]; exact eq_refl ].
Qed.

Lemma cleanupLegacyCerts_keeps config w r w' :
  cleanupLegacyCerts config w = (r, w') ->
  denied w' = denied w /\ clock w' = clock w /\ wlog w' = wlog w
  /\ (forall p, p <> ClientKubeProxyCert (Runtime config) ->
                 p <> ClientK3sControllerCert (Runtime config) ->
                 files w' !! p = files w !! p).
Proof.
  intros E. destruct (cleanupLegacyCerts_run config w) as (H1 & H2 & H3).
  cbv zeta in H1, H2, H3.
  destruct (decide (ClientKubeProxyCert (Runtime config) ∈ denied w)) as [Hd1|Hd1].
  { rewrite H2 in E by done. by injection E as _ <-. }
  destruct (decide (ClientK3sControllerCert (Runtime config) ∈ denied w)) as [Hd2|Hd2].
  { rewrite H3 in E by done. injection E as _ <-. repeat split; try done.
    intros p Hp _. cbn. by rewrite lookup_delete_ne. }
  rewrite H1 in E by done. injection E as _ <-. repeat split; try done.
  intros p Hp1 Hp2. cbn. by rewrite !lookup_delete_ne.
Qed.

(** The whole bootstrap: the removal of the legacy certificates, and then a
    run that is confined to the files of the bootstrap. *)
Lemma GenServerDeps_confined c w r w' :
  GenServerDeps (CreateRuntimeCertFiles c) w = (r, w') ->
  exists w0,
    (denied w0 = denied w /\ clock w0 = clock w /\ wlog w0 = wlog w
     /\ (forall p, p <> ClientKubeProxyCert (Runtime (CreateRuntimeCertFiles c)) ->
                    p <> ClientK3sControllerCert (Runtime (CreateRuntimeCertFiles c)) ->
                    files w0 !! p = files w !! p))
    /\ confined (under (DataDir c) (bootstrap_remainders (EncryptSecrets c))) w0 w'.
Proof.
  unfold GenServerDeps. cbv zeta. intros E.
  apply bind_inv in E as [([] & w0 & Ecl & E)|(e & Ecl & _)].
  - exists w0. split; [by eapply cleanupLegacyCerts_keeps|].
    revert E. apply confines_bind; [apply confines_genCerts|intros _].
    apply confines_after_genCerts.
  - exists w'. split; [by eapply cleanupLegacyCerts_keeps|]. apply confined_refl.
Qed.


(** X14.  A bootstrap removes nothing but the two legacy certificates: every
    other file that was there before the run is there after it, also when the
    run fails; and the run changes neither what the operating system refuses
    nor the clock. *)
Theorem X14_GenServerDeps_removes_only_the_legacy_certificates
    (c : Control) (w w' : World) (r : result unit) :
  let config := CreateRuntimeCertFiles c in
  let runtime := Runtime config in
  GenServerDeps config w = (r, w') ->
  denied w' = denied w
  /\ clock w' = clock w
  /\ (forall p, p <> ClientKubeProxyCert runtime ->
                 p <> ClientK3sControllerCert runtime ->
                 is_Some (files w !! p) -> is_Some (files w' !! p)).
Proof.
  intros config runtime E. subst config runtime.
  destruct (GenServerDeps_confined c w r w' E)
    as (w0 & (Hd0 & Hc0 & _ & Hf0) & (Hd & Hc & _ & Hm)).
  split; [congruence|]. split; [congruence|].
  intros p Hp1 Hp2 Hs. apply Hm. by rewrite Hf0.
Qed.

(** ** The tokens of the runtime *)

Lemma genUsers_absent config w r w' :
  lookup_path w (PasswdFile (Runtime config)) = Err ErrNotExist ->
  genUsers config w = (r, w') ->
  exists sp,
    r = Ok tt
    /\ sp <> ""
    /\ (Token config <> "" -> sp = Token config)
    /\ read_data w' (PasswdFile (Runtime config))
       = Ok (FPasswd
               (<["server" := mkEntry (version_Program +:+ ":server") sp]>
                 (<["node" := mkEntry (version_Program +:+ ":agent") (getNodePass config sp)]>
                    ∅))).
Proof.
  intros Habs E. unfold genUsers in E. cbv zeta in E.
  set (p := PasswdFile (Runtime config)) in *.
  assert (Hread : passwd_Read w p = Ok (mkPasswd ∅ false)).
  { unfold passwd_Read, read_data. by rewrite Habs. }
  assert (Hden : p ∉ denied w).
  { unfold lookup_path in Habs. by destruct (decide (p ∈ denied w)). }
  unfold bind at 1 in E. unfold look at 1 in E. rewrite Hread in E.
  unfold bind at 1 in E. unfold of_result at 1 in E.
  assert (Hmig : migratePassword (mkPasswd ∅ false) = Ok (mkPasswd ∅ false)) by done.
  rewrite Hmig in E.
  destruct (getServerPass_cases (mkPasswd ∅ false) config w)
    as (sp & ws & Esp & Hne & Hcases).
  exists sp. unfold bind at 1 in E. rewrite Esp in E.
  set (np := getNodePass config sp) in *.
  assert (Hnode : EnsureUser (mkPasswd ∅ false) "node" (version_Program +:+ ":agent") np
                  = Ok (mkPasswd (<["node" := mkEntry (version_Program +:+ ":agent") np]> ∅)
                          true)).
  { unfold EnsureUser. cbn [names]. by rewrite lookup_empty. }
  rewrite Hnode in E. unfold bind at 1 in E. unfold of_result at 1 in E.
  assert (Hserver :
            EnsureUser (mkPasswd (<["node" := mkEntry (version_Program +:+ ":agent") np]> ∅)
                          true)
              "server" (version_Program +:+ ":server") sp
            = Ok (mkPasswd (<["server" := mkEntry (version_Program +:+ ":server") sp]>
                             (<["node" := mkEntry (version_Program +:+ ":agent") np]> ∅))
                    true)).
  { unfold EnsureUser. cbn [names]. by rewrite lookup_insert_ne, lookup_empty by done. }
  rewrite Hserver in E. unfold bind at 1 in E. unfold of_result at 1 in E.
  unfold passwd_Write in E. cbn [changed names] in E.
  assert (Hden' : p ∉ denied ws).
  { destruct (decide (Token config = "")); [destruct (decide _)|];
      destruct Hcases as [Hc1 Hc2]; by subst. }
  assert (Hok : r = Ok tt).
  { unfold util_AtomicWrite in E. rewrite decide_False in E by done. by injection E as <- _. }
  subst r. split; [done|]. split; [done|]. split.
  - intros Ht. destruct (decide (Token config = "")); [done|]. by destruct Hcases.
  - by apply util_AtomicWrite_Ok in E as [_ E].
Qed.

Lemma readTokens_Ok runtime w w' :
  readTokens runtime w = (Ok tt, w') ->
  exists p,
    passwd_Read w (PasswdFile runtime) = Ok p
    /\ files w' = files w /\ denied w' = denied w
    /\ rt_AgentToken w'
       = (if (Pass p "node").2 then "node:" +:+ (Pass p "node").1 else rt_AgentToken w)
    /\ rt_ServerToken w'
       = (if (Pass p "server").2 then "server:" +:+ (Pass p "server").1
          else rt_ServerToken w).
Proof.
  unfold readTokens. intros E.
  apply bind_Ok_inv in E as (p & w0 & [Eread ->]%look_Ok_inv & E).
  exists p. split; [done|].
  apply bind_Ok_inv in E as ([] & w1 & E1 & E).
  apply bind_Ok_inv in E as ([] & w2 & E2 & [_ <-]%ret_Ok_inv).
  destruct (Pass p "node") as [nodeToken [|]];
    destruct (Pass p "server") as [serverToken [|]];
    injection E1 as <-; injection E2 as <-; done.
Qed.

(** X15.  After a successful bootstrap on an empty data directory the runtime
    carries both tokens, and they are the secrets of the credential table:
    the server token is "server:" and the server secret, which is the
    configured token when there is one and never empty; the agent token is
    "node:" and the secret that [getNodePass] takes from the configured agent
    token or else from the server secret. *)
Theorem X15_bootstrap_publishes_the_tokens (c : Control) (w0 w1 : World) :
  let config := CreateRuntimeCertFiles c in
  files w0 = ∅ ->
  PasswdFile (Runtime config) ∉ denied w0 ->
  GenServerDeps config w0 = (Ok tt, w1) ->
  exists sp,
    sp <> ""
    /\ (Token c <> "" -> sp = Token c)
    /\ rt_ServerToken w1 = "server:" +:+ sp
    /\ rt_AgentToken w1 = "node:" +:+ getNodePass config sp
    /\ (AgentToken c <> "" -> rt_AgentToken w1 = "node:" +:+ AgentToken c).
Proof.
  intros config Hfiles Hden E. subst config.
  unfold GenServerDeps in E. cbv zeta in E.
  apply bind_Ok_inv in E as ([] & wa & Ecl & E).
  apply cleanupLegacyCerts_Ok in Ecl as (_ & _ & ->).
  assert (Hwa : set_files (delete (ClientK3sControllerCert (Runtime (CreateRuntimeCertFiles c)))
                 (delete (ClientKubeProxyCert (Runtime (CreateRuntimeCertFiles c)))
                    (files w0))) w0 = w0).
  { rewrite Hfiles, !delete_empty, <- Hfiles. apply set_files_id. }
  rewrite Hwa in E. clear Hwa.
  assert (Hinv0 : inv (DataDir c) [] [FAbsent "/cred/passwd"] w0).
  { split.
    - intros p q f g Ep. by rewrite Hfiles, lookup_empty in Ep.
    - constructor; [|constructor]. cbn [holds]. unfold lookup_path.
      rewrite decide_False by exact Hden. by rewrite Hfiles, lookup_empty. }
  apply bind_Ok_inv in E as ([] & wb & Ecerts & E).
  pose proof (genCerts_frame c _ _ _ Hinv0 Ecerts) as Hinv1. cbv beta iota in Hinv1.
  apply bind_Ok_inv in E as ([] & wc & Esa & E).
  pose proof (hoare_genServiceAccount c [FAbsent "/cred/passwd"] eq_refl _ _ _ Hinv1 Esa)
    as Hinv2.
  cbv beta iota in Hinv2. apply inv_drop, inv_drop in Hinv2. destruct Hinv2 as [Hsep Habs].
  apply Forall_inv in Habs. cbn [holds] in Habs.
  apply bind_Ok_inv in E as ([] & wd & Eu & E).
  destruct (genUsers_absent (CreateRuntimeCertFiles c) _ _ _ Habs Eu)
    as (sp & _ & Hne & Htoken & Hread).
  destruct (touches_genUsers c _ _ _ Eu) as (_ & _ & _ & _ & Hf).
  destruct (Hf Hsep) as [Hsep' _].
  pose proof (touches_after_genUsers c _ _ _ E) as Ts.
  assert (Hsame : same_at (DataDir c +:+ "/cred/passwd") wd w1).
  { eapply touched_same_at; [exact Ts|exact Hsep'|und]. }
  change (PasswdFile (Runtime (CreateRuntimeCertFiles c)))
    with (DataDir c +:+ "/cred/passwd") in Hread.
  rewrite <- (read_data_same _ _ _ Hsame) in Hread.
  apply bind_Ok_inv in E as ([] & w2 & _ & E).
  apply bind_Ok_inv in E as ([] & w3 & _ & E).
  apply bind_Ok_inv in E as ([] & w4 & _ & E).
  apply bind_Ok_inv in E as ([] & w5 & _ & E).
  apply readTokens_Ok in E as (p & Ep & Hfs & Hds & Hagent & Hserver).
  assert (Ep' : passwd_Read w5 (DataDir c +:+ "/cred/passwd")
                = Ok (mkPasswd
                        (<["server" := mkEntry (version_Program +:+ ":server") sp]>
                           (<["node" := mkEntry (version_Program +:+ ":agent")
                                (getNodePass (CreateRuntimeCertFiles c) sp)]> ∅)) false)).
  { apply passwd_Read_table. unfold read_data, lookup_path in *.
    rewrite <- Hfs, <- Hds. exact Hread. }
  change (PasswdFile (Runtime (CreateRuntimeCertFiles c)))
    with (DataDir c +:+ "/cred/passwd") in Ep.
  rewrite Ep' in Ep. injection Ep as <-.
  unfold Pass in Hagent, Hserver. cbn [names] in Hagent, Hserver.
  rewrite lookup_insert_eq in Hserver.
  rewrite lookup_insert_ne, lookup_insert_eq in Hagent by done.
  cbn [fst snd e_passwd] in Hagent, Hserver.
  exists sp. split; [done|]. split; [exact Htoken|]. split; [exact Hserver|].
  split; [exact Hagent|].
  intros Ha. rewrite Hagent. unfold getNodePass.
  change (AgentToken (CreateRuntimeCertFiles c)) with (AgentToken c).
  by rewrite decide_False by done.
Qed.

(** ** The key of the service accounts *)

(** X16.  After [genServiceAccount] succeeded, the file of the current key
    holds exactly one key, the first key of the service key file; and a
    service key file that was there is left as it was: only a missing one is
    made.  (The two files are different and no two files are hard links of
    each other.) *)
Theorem X16_genServiceAccount_publishes_the_first_key
    (runtime : ControlRuntime) (w w' : World) :
  ServiceKey runtime <> ServiceCurrentKey runtime ->
  separated [] w ->
  genServiceAccount runtime w = (Ok tt, w') ->
  exists k,
    certutil_PrivateKeyFromFile w' (ServiceKey runtime) = Ok k
    /\ read_data w' (ServiceCurrentKey runtime) = Ok (certutil_EncodePrivateKeyPEM k)
    /\ (is_Some (files w !! ServiceKey runtime) ->
        files w' !! ServiceKey runtime = files w !! ServiceKey runtime).
Proof.
  intros Hne Hsep E. unfold genServiceAccount in E.
  set (sk := ServiceKey runtime) in *. set (cur := ServiceCurrentKey runtime) in *.
  apply bind_Ok_inv in E as (st & w0 & [-> ->]%gets_Ok_inv & E).
  apply bind_Ok_inv in E as ([] & w2 & Emake & E).
  apply bind_Ok_inv in E as (k & w3 & [Ek ->]%look_Ok_inv & Ew).
  assert (T1 : touched [] [sk] w w2 /\ (is_Some (files w !! sk) -> w2 = w)).
  { destruct (os_Stat w sk) as [n|[]] eqn:Est; try done.
    - injection Emake as <-. split; [apply touched_refl|done].
    - split.
      + revert Emake. apply touches_bind; [apply touches_rand_Read|intros k0].
        apply touches_os_WriteFile; [left|apply not_elem_of_nil].
      + apply os_Stat_NotExist in Est as [_ Hnone]. rewrite Hnone. by intros [? ?]. }
  destruct T1 as [T1 Hkeep].
  destruct T1 as (_ & _ & _ & _ & Hf1). destruct (Hf1 Hsep) as [Hsep2 _].
  pose proof (touches_os_WriteFile [] [cur] cur _ ltac:(left) (not_elem_of_nil _) _ _ _ Ew)
    as T2.
  assert (Hsame : same_at sk w2 w').
  { eapply touched_same_at; [exact T2|exact Hsep2|].
    intros ->%list_elem_of_singleton. done. }
  exists k. split; [by rewrite (certutil_PrivateKeyFromFile_same _ _ _ Hsame)|].
  split; [by apply os_WriteFile_Ok in Ew as [_ Ew]|].
  intros Hs. rewrite <- (Hkeep Hs). apply Hsame.
Qed.

(** ** The single certificate of the client CA *)

(** X17.  After [genClientCerts] succeeded, the file for the signer of the
    controller manager holds exactly one certificate, the first certificate
    of the client CA file, however long the chain in that file is.  (No two
    files are hard links of each other.) *)
Theorem X17_genClientCerts_publishes_a_single_CA_certificate
    (c : Control) (w w' : World) :
  let config := CreateRuntimeCertFiles c in
  separated [] w ->
  genClientCerts config w = (Ok tt, w') ->
  exists ca0 chain,
    certutil_CertsFromFile w' (ClientCA (Runtime config)) = Ok (ca0 :: chain)
    /\ certutil_CertsFromFile w' (SigningClientCA (Runtime config)) = Ok [ca0].
Proof.
  intros config Hsep E. subst config. unfold genClientCerts in E.
  norm_paths_in E. cbv zeta in E. norm_paths. set (d := DataDir c) in *.
  apply bind_Ok_inv in E as (regen & w1 & Eca & E).
  apply bind_Ok_inv in E as (certs & w0 & [Ecerts ->]%look_Ok_inv & E).
  apply bind_Ok_inv in E as (ca0 & w0 & E0 & E).
  destruct certs as [|ca0' chain]; [done|]. apply ret_Ok_inv in E0 as [<- ->].
  apply bind_Ok_inv in E as ([] & w2 & Ew & E).
  assert (T0 : touched (under d []) (under d ["/tls/client-ca.crt"; "/tls/client-ca.key"])
                 w w1).
  { revert Eca. apply touches_createSigningCertKey; und. }
  destruct T0 as (_ & _ & _ & _ & Hf0). destruct (Hf0 Hsep) as [Hsep1 _].
  assert (T1 : touched (under d []) (under d ["/tls/client-ca.nochain.crt"]) w1 w2).
  { revert Ew. apply touches_os_WriteFile; und. }
  pose proof T1 as (_ & _ & _ & _ & Hf1). destruct (Hf1 Hsep1) as [Hsep2 _].
  assert (T2 : touched (under d [])
                 (under d (besides "/tls/client-ca.crt" "/tls/client-ca.nochain.crt"
                             client_files)) w2 w').
  { revert E. match goal with |- ?m w2 = _ -> _ =>
      assert (Hrest : touches (under d [])
                        (under d (besides "/tls/client-ca.crt" "/tls/client-ca.nochain.crt"
                                    client_files)) m) by touch
    end.
    apply Hrest. }
  assert (Hca : same_at (d +:+ "/tls/client-ca.crt") w1 w').
  { destruct (touched_same_at _ _ _ _ (d +:+ "/tls/client-ca.crt") T1 Hsep1 ltac:(und))
      as [Hd1 Hx1].
    destruct (touched_same_at _ _ _ _ (d +:+ "/tls/client-ca.crt") T2 Hsep2 ltac:(und))
      as [Hd2 Hx2].
    split; congruence. }
  assert (Hno : same_at (d +:+ "/tls/client-ca.nochain.crt") w2 w').
  { eapply touched_same_at; [exact T2|exact Hsep2|und]. }
  exists ca0, chain. split.
  - by rewrite (certutil_CertsFromFile_same _ _ _ Hca).
  - rewrite (certutil_CertsFromFile_same _ _ _ Hno).
    apply os_WriteFile_Ok in Ew as [_ Ew]. unfold certutil_CertsFromFile. by rewrite Ew.
Qed.

(** ** The files of a finished bootstrap *)

Lemma confined_exists W w w' ps :
  confined W w w' -> exists_ w ps = true -> exists_ w' ps = true.
Proof.
  intros (Hd & _ & _ & Hm). induction ps as [|p ps IH]; [done|].
  rewrite !exists_cons. intros [H1 H2]%andb_true_iff. rewrite (IH H2), andb_true_r.
  unfold lookup_path in *. rewrite Hd. destruct (decide (p ∈ denied w)); [done|].
  destruct (files w !! p) eqn:E; [|done].
  by destruct (Hm p) as [g ->]; [rewrite E|].
Qed.

Lemma present_subset d F F' w :
  forallb (fun s => mem s F') F = true -> present d F' w -> present d F w.
Proof.
  unfold present, exists_. rewrite !forallb_forall. intros Hsub HF' p Hp.
  apply HF'. apply list_elem_of_In. apply (under_subset d F F').
  - by apply forallb_forall.
  - by apply list_elem_of_In.
Qed.

Lemma read_data_exists w p x : read_data w p = Ok x -> exists_ w [p] = true.
Proof. intros E. rewrite exists_cons, exists_nil. by rewrite (read_data_present _ _ _ E). Qed.

Section Present.
Variable d : string.
Variable F : list string.

Lemma pe_step {A} W (new : list string) (m : M A) :
  confines W m ->
  (forall w a w', m w = (Ok a, w') -> exists_ w' (under d new) = true) ->
  hoare (present d F) m (fun _ => present d (new ++ F)) (fun _ => True).
Proof.
  intros Hm Hnew w r w' HF E. destruct r as [a|]; [|done].
  unfold present. change (under d (new ++ F)) with (map (String.append d) (new ++ F)).
  rewrite map_app. fold (under d new) (under d F). rewrite exists_app.
  rewrite (Hnew _ _ _ E). by rewrite (confined_exists _ _ _ _ (Hm _ _ _ E) HF).
Qed.

Lemma pe_skip {A} W (m : M A) :
  confines W m -> hoare (present d F) m (fun _ => present d F) (fun _ => True).
Proof. intros Hm. by apply (pe_step W [] m). Qed.

Lemma pe_pure {A} (m : M A) :
  touches (under d []) (under d []) m ->
  hoare (present d F) m (fun _ => present d F) (fun _ => True).
Proof. intros Hm. eapply pe_skip, touches_confines, Hm. Qed.

Lemma pe_CA prefix c k :
  hoare (present d F) (createSigningCertKey prefix (d +:+ c) (d +:+ k))
        (fun _ => present d ([c; k] ++ F)) (fun _ => True).
Proof.
  apply (pe_step (under d [c; k])).
  - apply (touches_confines []).
    apply touches_createSigningCertKey;
      first [apply not_elem_of_nil | apply elem_of_under; set_solver].
  - intros w a w' E. by eapply createSigningCertKey_Ok.
Qed.

Lemma pe_leaf regen cn org sans usage ca cakey cert key :
  hoare (present d F)
        (createClientCertKey regen cn org sans usage ca cakey (d +:+ cert) (d +:+ key))
        (fun _ => present d ([cert; key] ++ F)) (fun _ => True).
Proof.
  apply (pe_step (under d [cert; key])).
  - apply (touches_confines []).
    apply touches_createClientCertKey;
      first [apply not_elem_of_nil | apply elem_of_under; set_solver].
  - intros w a w' E. by eapply createClientCertKey_exists.
Qed.

Lemma pe_key p force :
  hoare (present d F) (certutil_LoadOrGenerateKeyFile (d +:+ p) force)
        (fun _ => present d ([p] ++ F)) (fun _ => True).
Proof.
  apply (pe_step (under d [p])).
  - apply (touches_confines []).
    apply touches_certutil_LoadOrGenerateKeyFile; [left|apply not_elem_of_nil].
  - intros w a w' E. apply certutil_LoadOrGenerateKeyFile_Ok in E as [E _].
    by eapply read_data_exists.
Qed.

Lemma pe_write p data :
  hoare (present d F) (os_WriteFile (d +:+ p) data)
        (fun _ => present d ([p] ++ F)) (fun _ => True).
Proof.
  apply (pe_step (under d [p])).
  - apply (touches_confines []). apply touches_os_WriteFile; [left|apply not_elem_of_nil].
  - intros w [] w' E. apply os_WriteFile_Ok in E as [_ E]. by eapply read_data_exists.
Qed.

Lemma pe_if_KubeConfig (b : bool) kc url ca cert key :
  hoare (present d F) (if b then KubeConfig (d +:+ kc) url ca cert key else ret tt)
        (fun _ => present d F) (fun _ => True).
Proof.
  apply (pe_skip (under d [kc])), (touches_confines []).
  destruct b; [|apply touches_ret].
  apply touches_KubeConfig; [left|apply not_elem_of_nil].
Qed.

End Present.

Lemma pe_serverCA c F :
  hoare (present (DataDir c) F) (createServerSigningCertKey (CreateRuntimeCertFiles c))
        (fun _ => present (DataDir c) (["/tls/server-ca.crt"; "/tls/server-ca.key"] ++ F))
        (fun _ => True).
Proof.
  apply (pe_step _ _ _ _ _ (confines_createServerSigningCertKey c true)).
  intros w a w'. unfold createServerSigningCertKey. norm_paths. cbv zeta.
  set (d := DataDir c). intros E.
  apply bind_Ok_inv in E as (legacy & w0 & [-> ->]%gets_Ok_inv & E).
  destruct (_ && _)%bool.
  - apply bind_Ok_inv in E as ([] & w1 & E1 & E).
    apply bind_Ok_inv in E as ([] & w2 & E2 & [_ <-]%ret_Ok_inv).
    apply os_Link_Ok in E1 as (f1 & _ & _ & Hd1 & ->).
    apply os_Link_Ok in E2 as (f2 & _ & _ & Hd2 & ->).
    cbn [denied files set_files] in *.
    change (under d ["/tls/server-ca.crt"; "/tls/server-ca.key"])
      with [d +:+ "/tls/server-ca.crt"; d +:+ "/tls/server-ca.key"].
    rewrite !exists_cons, exists_nil. unfold lookup_path. cbn [denied files set_files].
    rewrite !decide_False by done.
    rewrite lookup_insert_eq.
    rewrite lookup_insert_ne by (apply not_eq_sym, under_ne; exact eq_refl).
    by rewrite lookup_insert_eq.
  - apply bind_Ok_inv in E as (regen & w1 & Eca%createSigningCertKey_Ok & E).
    apply bind_Ok_inv in E as (certs & w0 & [_ ->]%look_Ok_inv & E).
    apply bind_Ok_inv in E as (cert0 & w2 & E0 & E).
    apply bind_Ok_inv in E as ([] & w3 & Ew & [_ <-]%ret_Ok_inv).
    assert (w2 = w1) as ->.
    { destruct certs; [done|]. by apply ret_Ok_inv in E0 as [_ ->]. }
    eapply touched_exists; [|exact Eca].
    eapply (touches_os_WriteFile [] [_]); [left|apply not_elem_of_nil|exact Ew].
Qed.

Lemma pe_genServiceAccount c F :
  hoare (present (DataDir c) F) (genServiceAccount (Runtime (CreateRuntimeCertFiles c)))
        (fun _ => present (DataDir c)
                    (["/tls/service.key"; "/tls/service.current.key"] ++ F))
        (fun _ => True).
Proof.
  eapply pe_step; [eapply touches_confines, touches_genServiceAccount|].
  intros w [] w'. unfold genServiceAccount. norm_paths. set (d := DataDir c). intros E.
  apply bind_Ok_inv in E as (st & w0 & _ & E).
  apply bind_Ok_inv in E as ([] & w2 & _ & E).
  apply bind_Ok_inv in E as (k & w3 & [Ek ->]%look_Ok_inv & Ew).
  change (under d ["/tls/service.key"; "/tls/service.current.key"])
    with ([d +:+ "/tls/service.key"] ++ [d +:+ "/tls/service.current.key"])%list.
  rewrite exists_app.
  assert (Hk : exists_ w2 [d +:+ "/tls/service.key"] = true).
  { unfold certutil_PrivateKeyFromFile in Ek.
    destruct (read_data w2 (d +:+ "/tls/service.key")) eqn:Er; [|done].
    by eapply read_data_exists. }
  rewrite (touched_exists [] [d +:+ "/tls/service.current.key"] w2 w' _
             (touches_os_WriteFile _ _ _ _ ltac:(left) (not_elem_of_nil _) _ _ _ Ew) Hk).
  apply os_WriteFile_Ok in Ew as [_ Ew]. by rewrite (read_data_exists _ _ _ Ew).
Qed.

Lemma pe_genUsers c F :
  hoare (present (DataDir c) F) (genUsers (CreateRuntimeCertFiles c))
        (fun _ => present (DataDir c) (["/cred/passwd"] ++ F)) (fun _ => True).
Proof.
  eapply pe_step; [eapply touches_confines, touches_genUsers|].
  intros w [] w' E. apply genUsers_Ok in E as (table & sp & E & _).
  by eapply read_data_exists.
Qed.

Lemma pe_genEncryptedNetworkInfo c F :
  hoare (present (DataDir c) F) (genEncryptedNetworkInfo (CreateRuntimeCertFiles c))
        (fun _ => present (DataDir c) (["/cred/ipsec.psk"] ++ F)) (fun _ => True).
Proof.
  eapply pe_step; [eapply touches_confines, touches_genEncryptedNetworkInfo|].
  intros w [] w' E. apply genEncryptedNetworkInfo_Ok in E as [(content & E & _) _].
  unfold os_ReadFile in E.
  destruct (read_data w' (IPSECKey (Runtime (CreateRuntimeCertFiles c)))) eqn:Er; [|done].
  by eapply read_data_exists.
Qed.

Lemma pe_genEncryptionConfigAndState c F :
  hoare (present (DataDir c) F) (genEncryptionConfigAndState (CreateRuntimeCertFiles c))
        (fun _ => present (DataDir c) F) (fun _ => True).
Proof.
  destruct (EncryptSecrets c) eqn:Hen.
  - eapply pe_skip, touches_confines. by apply touches_genEncryptionConfigAndState.
  - rewrite (genEncryptionConfigAndState_disabled c Hen). apply hoare_ret.
Qed.

Lemma pe_genEgressSelectorConfig c F :
  hoare (present (DataDir c) F) (genEgressSelectorConfig (CreateRuntimeCertFiles c))
        (fun _ => present (DataDir c) (["/etc/egress-selector-config.yaml"] ++ F))
        (fun _ => True).
Proof. unfold genEgressSelectorConfig. norm_paths. cbv zeta. apply pe_write. Qed.

Lemma pe_genCloudConfig c F :
  hoare (present (DataDir c) F) (genCloudConfig (CreateRuntimeCertFiles c))
        (fun _ => present (DataDir c) (["/etc/cloud-config.yaml"] ++ F)) (fun _ => True).
Proof. unfold genCloudConfig. norm_paths. cbv zeta. apply pe_write. Qed.

Lemma pe_readTokens c F :
  hoare (present (DataDir c) F) (readTokens (Runtime (CreateRuntimeCertFiles c)))
        (fun _ => present (DataDir c) F) (fun _ => True).
Proof. eapply pe_skip, touches_confines, touches_readTokens. Qed.

Lemma pe_cleanup c :
  hoare (present (DataDir c) []) (cleanupLegacyCerts (CreateRuntimeCertFiles c))
        (fun _ => present (DataDir c) []) (fun _ => True).
Proof. intros w r w' _ _. by destruct r. Qed.

Ltac pe_atom :=
  lazymatch goal with
  | |- hoare _ (cleanupLegacyCerts _) _ _ => apply pe_cleanup
  | |- hoare _ (createSigningCertKey _ _ _) _ _ => apply pe_CA
  | |- hoare _ (look _) _ _ => apply pe_pure, touches_look
  | |- hoare _ (index0 _) _ _ => apply pe_pure, touches_index0
  | |- hoare _ (certutil_WriteCert _ _) _ _ => apply pe_write
  | |- hoare _ (createClientCertKey _ _ _ _ _ _ _ _ _) _ _ => apply pe_leaf
  | |- hoare _ (if _ then KubeConfig _ _ _ _ _ else ret tt) _ _ => apply pe_if_KubeConfig
  | |- hoare _ (certutil_LoadOrGenerateKeyFile _ _) _ _ => apply pe_key
  | |- hoare _ (genServiceAccount _) _ _ => apply pe_genServiceAccount
  | |- hoare _ (genUsers _) _ _ => apply pe_genUsers
  | |- hoare _ (genEncryptedNetworkInfo _) _ _ => apply pe_genEncryptedNetworkInfo
  | |- hoare _ (genEncryptionConfigAndState _) _ _ => apply pe_genEncryptionConfigAndState
  | |- hoare _ (genEgressSelectorConfig _) _ _ => apply pe_genEgressSelectorConfig
  | |- hoare _ (genCloudConfig _) _ _ => apply pe_genCloudConfig
  | |- hoare _ (readTokens _) _ _ => apply pe_readTokens
  | |- hoare _ (ret tt) _ _ => apply hoare_ret_unit
  end.

Ltac pe_chain :=
  cbv beta;
  lazymatch goal with
  | |- hoare _ (bind (createServerSigningCertKey _) _) _ _ =>
      eapply hoare_bind; [ apply pe_serverCA | intros ?; cbv beta; norm_paths ]
  | |- hoare _ (bind _ _) _ _ => eapply hoare_bind; [|intros ?]
  | |- hoare _ _ _ _ => first [open_step | pe_atom]
  end.

Lemma present_GenServerDeps c :
  hoare (present (DataDir c) []) (GenServerDeps (CreateRuntimeCertFiles c))
        (fun _ => present (DataDir c) (pki_remainders (negb (DisableETCD c))))
        (fun _ => True).
Proof.
  unfold GenServerDeps. cbv zeta.
  destruct (DisableETCD c) eqn:Hd;
    (eapply hoare_post; [repeat pe_chain|]);
    intros a w Hacc; cbv beta in Hacc;
    (eapply present_subset; [|exact Hacc]); exact eq_refl.
Qed.

(** X18.  After a successful bootstrap the files the server is configured
    with are all there: the five CAs with their keys, every client and serving
    certificate with its key, the keys of kubelet, kube-proxy and controller,
    the service account keys, the credential table, the pre-shared key and the
    two configuration files; the certificate of the etcd server when etcd is
    not disabled.  No condition on the data directory before the run is
    needed. *)
Theorem X18_bootstrap_leaves_its_products_in_place (c : Control) (w w' : World) :
  let config := CreateRuntimeCertFiles c in
  GenServerDeps config w = (Ok tt, w') ->
  exists_ w' (bootstrap_products (Runtime config) (negb (DisableETCD c))) = true.
Proof.
  intros config E. subst config.
  pose proof (present_GenServerDeps c w (Ok tt) w' eq_refl E) as Hp.
  cbv beta iota in Hp. unfold present in Hp.
  destruct (DisableETCD c); exact Hp.
Qed.

(** ** The encryption configuration *)

(** X19.  [genEncryptionConfigAndState] is idempotent: after a call that
    succeeded a second call finds the configuration and its hash record,
    draws no key and writes nothing.  (A serialised configuration is never
    the empty string.) *)
Theorem X19_genEncryptionConfigAndState_idempotent
    (controlConfig : Control) (w w1 : World) :
  (forall x, json_Marshal_encryption x <> "") ->
  genEncryptionConfigAndState controlConfig w = (Ok tt, w1) ->
  genEncryptionConfigAndState controlConfig w1 = (Ok tt, w1).
Proof.
  intros Hjson. unfold genEncryptionConfigAndState. cbv zeta.
  destruct (EncryptSecrets controlConfig); cbn [negb]; [|by intros [= <-]].
  set (cfg := EncryptionConfig (Runtime controlConfig)).
  set (hash := EncryptionHash (Runtime controlConfig)).
  intros E.
  apply bind_Ok_inv in E as (keyName & w0 & Ename & E).
  assert (w0 = w) as ->.
  { destruct (decide _); [by injection Ename as _ <-|].
    destruct (decide _); [by injection Ename as _ <-|done]. }
  assert (Ename1 : forall v, exists n,
            (if decide (EncryptProvider controlConfig = secretsencrypt_AESCBCProvider)
             then ret "aescbckey"
             else if decide (EncryptProvider controlConfig = secretsencrypt_SecretBoxProvider)
                  then ret "secretboxkey"
                  else fail (ErrConfig ("unsupported secrets-encryption-key-type "
                                        +:+ EncryptProvider controlConfig))) v
            = (Ok n, v)).
  { intros v. destruct (decide _); [by eexists|]. destruct (decide _); [by eexists|done]. }
  destruct (Ename1 w1) as (n1 & En1). unfold bind at 1. rewrite En1. clear Ename Ename1 En1.
  apply bind_Ok_inv in E as (present & w0 & [-> ->]%gets_Ok_inv & E).
  assert (Hgoal : stat_nonempty w1 cfg = true /\ os_Stat w1 hash <> Err ErrNotExist).
  { destruct (stat_nonempty w cfg) eqn:Hpresent.
    - apply bind_Ok_inv in E as (st & w0 & [-> ->]%gets_Ok_inv & E).
      destruct (os_Stat w hash) as [n|e] eqn:Est.
      + injection E as <-. by rewrite Est.
      + destruct e; try (injection E as <-; by rewrite Est).
        apply bind_Ok_inv in E as (cur & w0 & [_ ->]%look_Ok_inv & E).
        split.
        * pose proof (touches_os_WriteFile [] [hash] hash _ ltac:(left)
                        (not_elem_of_nil _) _ _ _ E) as (Hd & _ & _ & Hm & _).
          unfold stat_nonempty, os_Stat, lookup_path in *. rewrite Hd.
          destruct (decide (cfg ∈ denied w)); [done|].
          destruct (files w !! cfg) as [f|] eqn:Ef; [|done].
          unfold os_WriteFile in E. destruct (decide (hash ∈ denied w)); [done|].
          injection E as <-. cbn [files log_write set_files].
          unfold store. destruct (files w !! hash) as [h|] eqn:Eh.
          -- rewrite lookup_fmap, Ef. cbn. destruct (decide (f.1 = h.1)); [|done].
             cbn. apply bool_decide_eq_true. cbn. lia.
          -- destruct (decide (hash = cfg)) as [Heq|Hneq]; [congruence|].
             by rewrite lookup_insert_ne, Ef.
        * apply os_WriteFile_Ok in E as [_ E]. unfold os_Stat, read_data in *.
          by destruct (lookup_path w1 hash).
    - apply bind_Ok_inv in E as (keyByte & w2 & Erand & E).
      apply bind_Ok_inv in E as ([] & w3 & Ecfg & E).
      pose proof (touches_os_WriteFile [] [hash] hash _ ltac:(left)
                    (not_elem_of_nil _) _ _ _ E) as (Hd & _ & _ & Hm & _).
      split.
      + apply util_AtomicWrite_Ok in Ecfg as [Hden Ecfg].
        unfold read_data, lookup_path in Ecfg.
        destruct (decide (cfg ∈ denied w3)) as [|Hd3]; [done|].
        destruct (files w3 !! cfg) as [f|] eqn:Ef; [|done]. injection Ecfg as Ef2.
        unfold stat_nonempty, os_Stat, lookup_path. rewrite Hd.
        rewrite decide_False by done.
        unfold os_WriteFile in E. destruct (decide (hash ∈ denied w3)); [done|].
        injection E as <-. cbn [files log_write set_files].
        unfold store. destruct (files w3 !! hash) as [h|] eqn:Eh.
        * rewrite lookup_fmap, Ef. cbn. destruct (decide (f.1 = h.1)).
          -- cbn. apply bool_decide_eq_true. cbn. lia.
          -- cbn. rewrite Ef2. cbn. apply bool_decide_eq_true.
             by apply length_nonempty.
        * destruct (decide (hash = cfg)) as [Heq|Hneq]; [congruence|].
          rewrite lookup_insert_ne, Ef by done. cbn. rewrite Ef2. cbn.
          apply bool_decide_eq_true. by apply length_nonempty.
      + apply os_WriteFile_Ok in E as [_ E]. unfold os_Stat, read_data in *.
        by destruct (lookup_path w1 hash). }
  unfold bind at 1. unfold gets at 1.
  destruct Hgoal as [Hc Hh]. rewrite Hc.
  unfold bind, gets. by destruct (os_Stat w1 hash) as [?|[]].
Qed.

(** ** When a certificate is issued *)

Lemma createClientCertKey_decision regen cn org sans usage ca cakey cert key w b w' :
  createClientCertKey regen cn org sans usage ca cakey cert key w = (Ok b, w') ->
  b = (regen || expired w cert || fieldsChanged w cert cn org sans ca
       || negb (exists_ w [cert; key]))%bool.
Proof.
  unfold createClientCertKey. intros E.
  apply bind_Ok_inv in E as (regen' & w1 & [-> ->]%gets_Ok_inv & E).
  apply bind_Ok_inv in E as (present & w1 & [-> ->]%gets_Ok_inv & E).
  destruct (negb _ && exists_ w [cert; key])%bool eqn:Eskip.
  - apply ret_Ok_inv in E as [-> _].
    apply andb_true_iff in Eskip as [E1 E2]. apply negb_true_iff in E1.
    by rewrite E1, E2.
  - apply bind_Ok_inv in E as (caKey & w1 & _ & E).
    apply bind_Ok_inv in E as (caCerts & w2 & _ & E).
    apply bind_Ok_inv in E as (kb & w3 & _ & E).
    apply bind_Ok_inv in E as (k & w4 & _ & E).
    apply bind_Ok_inv in E as (caCert0 & w5 & _ & E).
    apply bind_Ok_inv in E as (newcert & w6 & _ & E).
    apply bind_Ok_inv in E as ([] & w7 & _ & [-> _]%ret_Ok_inv).
    destruct (exists_ w [cert; key]); [|by rewrite orb_true_r].
    rewrite andb_true_r in Eskip. apply negb_false_iff in Eskip. by rewrite Eskip.
Qed.

Lemma fieldsChanged_issuer w certFile cn org sans caCertFile cert0 rest ca0 cas :
  certutil_CertsFromFile w certFile = Ok (cert0 :: rest) ->
  certutil_CertsFromFile w caCertFile = Ok (ca0 :: cas) ->
  AuthorityKeyId cert0 <> SubjectKeyId ca0 ->
  fieldsChanged w certFile cn org sans caCertFile = true.
Proof.
  intros Ec Eca Hne. unfold fieldsChanged. rewrite Ec, Eca.
  repeat (match goal with |- (if ?b then true else _) = true => destruct b; [done|] end).
  by rewrite bool_decide_eq_false_2.
Qed.

(** X20.  When [createClientCertKey] succeeds, its answer tells whether it
    issued a certificate, and it issued one exactly when it was asked to
    regenerate, the certificate ends within the renewal window, the desired
    fields differ from those of the certificate, or the certificate or its key
    is missing. *)
Theorem X20_createClientCertKey_issues_exactly_for_a_reason
    (regen : bool) (cn : string) (org : list string) (sans : option AltNames)
    (usage : list ExtKeyUsage) (ca cakey cert key : string) (w w' : World) (b : bool)
    (delta : list string) :
  createClientCertKey regen cn org sans usage ca cakey cert key w = (Ok b, w') ->
  written w w' delta ->
  b = (regen || expired w cert || fieldsChanged w cert cn org sans ca
       || negb (exists_ w [cert; key]))%bool
  /\ (b = true <-> cert ∈ delta).
Proof.
  intros E Hw. split; [by eapply createClientCertKey_decision|].
  apply createClientCertKey_cases in E. destruct b.
  - destruct E as (w1 & (_ & _ & (d1 & Hw1 & _) & _) & Hlog).
    assert (delta = cert :: d1) as ->.
    { apply (written_inj w w'); [done|]. unfold written in *. by rewrite Hlog, Hw1. }
    split; [intros _; left|done].
  - subst w'. assert (delta = []) as -> by (by apply (written_inj w w)).
    split; [done|]. by intros ?%elem_of_nil.
Qed.

(** X21.  A certificate of a replaced CA is not kept: when the authority key
    identifier of the certificate is not the subject key identifier of the
    first certificate of the CA file, a successful [createClientCertKey]
    has issued a new certificate, also without the regeneration flag. *)
Theorem X21_createClientCertKey_reissues_after_a_CA_change
    (regen : bool) (cn : string) (org : list string) (sans : option AltNames)
    (usage : list ExtKeyUsage) (ca cakey cert key : string) (w w' : World) (b : bool)
    (cert0 ca0 : Certificate) (rest cas : list Certificate) :
  certutil_CertsFromFile w cert = Ok (cert0 :: rest) ->
  certutil_CertsFromFile w ca = Ok (ca0 :: cas) ->
  AuthorityKeyId cert0 <> SubjectKeyId ca0 ->
  createClientCertKey regen cn org sans usage ca cakey cert key w = (Ok b, w') ->
  b = true /\ wlog w' <> wlog w.
Proof.
  intros Ec Eca Hne E.
  pose proof (createClientCertKey_decision _ _ _ _ _ _ _ _ _ _ _ _ E) as Hb.
  rewrite (fieldsChanged_issuer _ _ _ _ _ _ _ _ _ _ Ec Eca Hne) in Hb.
  rewrite orb_true_r in Hb. cbn [orb] in Hb. split; [exact Hb|]. subst b.
  apply createClientCertKey_cases in E as (w1 & (_ & _ & (d1 & Hw1 & _) & _) & Hlog).
  rewrite Hlog, Hw1. intros Heq.
  assert (Hlen : List.length (cert :: d1 ++ wlog w) = List.length (wlog w)) by by rewrite Heq.
  cbn in Hlen. rewrite length_app in Hlen. lia.
Qed.

End Properties.

(** ** The claims on concrete inputs *)

#[local] Existing Instance ref_libs.

Lemma C5_unreadable_certificate_witness :
  expired ex_world_junk "/d/tls/leaf.crt" = false
  /\ fieldsChanged ex_world_junk "/d/tls/leaf.crt" "kube-apiserver" [] None "/d/tls/ca.crt"
     = false
  /\ (exists_ ex_world_junk ["/d/tls/leaf.crt"; "/d/tls/leaf.key"] = true ->
      createClientCertKey false "kube-apiserver" [] None [ExtKeyUsageServerAuth]
        "/d/tls/ca.crt" "/d/tls/ca.key" "/d/tls/leaf.crt" "/d/tls/leaf.key" ex_world_junk
      = (Ok false, ex_world_junk)).
Proof.
  apply (C5_unreadable_certificate_gives_no_signal ex_world_junk "/d/tls/leaf.crt"
           "/d/tls/leaf.key" "kube-apiserver" [] None [ExtKeyUsageServerAuth]
           "/d/tls/ca.crt" "/d/tls/ca.key"
           (ErrData "data does not contain any valid certificates")).
  vm_compute. reflexivity.
Defined.

Lemma C7_unsupported_provider_witness :
  genEncryptionConfigAndState (ex_config true "aesgcm") ex_fresh
  = (Err (ErrConfig "unsupported secrets-encryption-key-type aesgcm"), ex_fresh).
Proof.
  apply (C7_unsupported_provider_rejected (ex_config true "aesgcm") ex_fresh).
  - reflexivity.
  - vm_compute. discriminate.
  - vm_compute. discriminate.
Defined.

Lemma C4_fieldsChanged_witness :
  let changed := fieldsChanged ex_world_leaf "/d/tls/leaf.crt" "kube-apiserver"
                   ["o2"; "o1"; "o1"] (Some (mkAltNames ["kubernetes"] ["10.0.0.1"]))
                   "/d/tls/ca.crt" in
  let san_missing :=
    (exists d, d ∈ ["kubernetes"] /\ d ∉ DNSNames ex_leaf)
    \/ (exists ip, ip ∈ ["10.0.0.1"] /\ ip ∉ IPAddresses ex_leaf) in
  changed = false /\ ~ san_missing.
Proof.
  intros changed san_missing.
  destruct (C4_fieldsChanged_organization_exact_SAN_containment
              ex_world_leaf "/d/tls/leaf.crt" "kube-apiserver" ["o2"; "o1"; "o1"]
              (Some (mkAltNames ["kubernetes"] ["10.0.0.1"])) "/d/tls/ca.crt"
              ex_leaf [ex_ca] eq_refl) as (_ & _ & Hiff).
  split; [vm_compute; reflexivity|].
  intros Hm. apply Hiff in Hm.
  - vm_compute in Hm. discriminate.
  - reflexivity.
  - intros o. simpl. rewrite !elem_of_cons, !elem_of_nil. tauto.
  - intros ca0 cas E. vm_compute in E. by injection E as <- _.
Defined.

Lemma C6_encryption_config_witness :
  exists w' keyByte,
    let b := json_Marshal_encryption (encryption_document
               [chosen_provider "aescbc"
                  [ {| Name := "aescbckey"; Secret := base64_EncodeToString keyByte |} ];
                identity_provider]) in
    genEncryptionConfigAndState (ex_config true "aescbc") ex_fresh = (Ok tt, w')
    /\ read_data w' "/d/cred/encryption-config.json" = Ok (FText b)
    /\ read_data w' "/d/cred/encryption-state.json"
       = Ok (FText ("start-" +:+ hex_EncodeToString (sha256_Sum256 b))).
Proof.
  destruct (C6_encryption_config_and_hash_record (ex_config true "aescbc") ex_fresh)
    as [Hfirst _].
  - reflexivity.
  - left. reflexivity.
  - vm_compute. discriminate.
  - apply Hfirst.
    + vm_compute. reflexivity.
    + vm_compute. set_solver.
    + vm_compute. set_solver.
Defined.



Lemma C9_cleanup_witness :
  cleanupLegacyCerts (ex_config false "") ex_world_legacy = (Ok tt, ex_world_legacy)
  /\ GenServerDeps (ex_config false "") ex_world_legacy
     = (genCerts (ex_config false "") ;;;
        genServiceAccount (Runtime (ex_config false "")) ;;;
        genUsers (ex_config false "") ;;;
        genEncryptedNetworkInfo (ex_config false "") ;;;
        genEncryptionConfigAndState (ex_config false "") ;;;
        genEgressSelectorConfig (ex_config false "") ;;;
        genCloudConfig (ex_config false "") ;;;
        readTokens (Runtime (ex_config false "")))%m ex_world_legacy.
Proof.
  destruct (C9_cleanupLegacyCerts_first_and_exact (ex_config false "") ex_world_legacy)
    as (Hok & _ & _ & _ & Hnext).
  assert (E : cleanupLegacyCerts (ex_config false "") ex_world_legacy
              = (Ok tt, ex_world_legacy)).
  { rewrite Hok.
    - vm_compute. reflexivity.
    - vm_compute. set_solver.
    - vm_compute. set_solver. }
  split; [exact E|]. apply Hnext. exact E.
Defined.



Lemma C10_DisableETCD_witness :
  let runtime := Runtime (CreateRuntimeCertFiles ex_noetcd) in
  DisableETCD ex_noetcd = true
  /\ ex_noetcd_run.1 = Ok tt
  /\ exists_ ex_noetcd_run.2
       [ETCDServerCA runtime; ETCDServerCAKey runtime;
        ETCDPeerCA runtime; ETCDPeerCAKey runtime;
        ClientETCDCert runtime; ClientETCDKey runtime;
        PeerServerClientETCDCert runtime; PeerServerClientETCDKey runtime] = true
  /\ files ex_noetcd_run.2 !! ServerETCDCert runtime = None
  /\ files ex_noetcd_run.2 !! ServerETCDKey runtime = None.
Proof.
  intros runtime.
  assert (Hrun : genETCDCerts (CreateRuntimeCertFiles ex_noetcd) ex_fresh
                 = (ex_noetcd_run.1, ex_noetcd_run.2)).
  { unfold ex_noetcd_run. by destruct (genETCDCerts _ _). }
  destruct (C10_DisableETCD_skips_only_server_certificate
              ex_noetcd ex_fresh ex_noetcd_run.2 ex_noetcd_run.1 eq_refl Hrun)
    as (_ & Hframe & Hexists & _).
  assert (Hok : ex_noetcd_run.1 = Ok tt) by (vm_compute; reflexivity).
  destruct Hframe as [Hc Hk].
  { intros p q f g Ep. vm_compute in Ep. discriminate. }
  split; [reflexivity|]. split; [exact Hok|]. split; [exact (Hexists Hok)|].
  split; [exact (eq_trans Hc eq_refl)|exact (eq_trans Hk eq_refl)].
Defined.




(** ** The further properties on concrete inputs *)

Lemma ex_fresh_separated : separated [] ex_fresh.
Proof. intros p q f g Ep. vm_compute in Ep. discriminate. Defined.

Lemma X3_fieldsChanged_witness :
  fieldsChanged ex_world_leaf "/d/tls/leaf.crt" "kube-scheduler" ["o1"; "o2"]
    None "/d/tls/ca.crt" = true.
Proof.
  destruct (X3_fieldsChanged_common_name_and_issuer
              ex_world_leaf "/d/tls/leaf.crt" "kube-scheduler" ["o1"; "o2"]
              None "/d/tls/ca.crt" ex_leaf [ex_ca] eq_refl) as [Hcn _].
  apply Hcn. vm_compute. discriminate.
Defined.

Lemma X6_createSigningCertKey_witness :
  createSigningCertKey "k3s-server" "/d/tls/ca.crt" "/d/tls/ca.key" ex_ca_made.2
  = (Ok false, ex_ca_made.2).
Proof.
  apply (X6_createSigningCertKey_idempotent "k3s-server" "/d/tls/ca.crt" "/d/tls/ca.key"
           ex_fresh ex_ca_made.2 true).
  vm_compute. reflexivity.
Defined.

Lemma X7_createSigningCertKey_witness :
  let cert :=
    {| Subject_CommonName := "k3s-server" +:+ "-ca@" +:+ pretty (clock ex_world_key);
       Subject_Organization := []; DNSNames := []; IPAddresses := [];
       NotAfter := clock ex_world_key + ca_validity; ExtKeyUsages := []; IsCA := true;
       SubjectKeyId := key_id "ca-key"; AuthorityKeyId := "" |} in
  createSigningCertKey "k3s-server" "/d/tls/ca.crt" "/d/tls/ca.key" ex_world_key
  = (Ok true,
     log_write "/d/tls/ca.crt"
       (set_files (<["/d/tls/ca.crt" := (fresh (inodes_of (files ex_world_key)),
                                         certutil_EncodeCertPEM cert)]>
                     (files ex_world_key)) ex_world_key)).
Proof.
  apply (X7_createSigningCertKey_keeps_an_existing_key
           "k3s-server" "/d/tls/ca.crt" "/d/tls/ca.key" ex_world_key
           (FPEM [KeyBlock "ca-key"]) "ca-key").
  - vm_compute. reflexivity.
  - reflexivity.
  - vm_compute. reflexivity.
  - vm_compute. set_solver.
Defined.

Lemma ex_ca_made_separated : separated [] ex_ca_made.2.
Proof.
  assert (E : createSigningCertKey "k3s-server" "/d/tls/ca.crt" "/d/tls/ca.key" ex_fresh
              = (ex_ca_made.1, ex_ca_made.2)).
  { unfold ex_ca_made. by destruct (createSigningCertKey _ _ _ _). }
  destruct (touches_createSigningCertKey [] ["/d/tls/ca.crt"; "/d/tls/ca.key"]
              "k3s-server" "/d/tls/ca.crt" "/d/tls/ca.key"
              ltac:(left) ltac:(right; left) (not_elem_of_nil _) (not_elem_of_nil _)
              _ _ _ E) as (_ & _ & _ & _ & Hf).
  by destruct (Hf ex_fresh_separated).
Defined.

Lemma X8_createClientCertKey_witness :
  createClientCertKey false "kube-apiserver" [] None [ExtKeyUsageServerAuth]
    "/d/tls/ca.crt" "/d/tls/ca.key" "/d/tls/leaf.crt" "/d/tls/leaf.key" ex_leaf_made.2
  = (Ok false, ex_leaf_made.2).
Proof.
  apply (X8_createClientCertKey_idempotent false "kube-apiserver" [] None
           [ExtKeyUsageServerAuth] "/d/tls/ca.crt" "/d/tls/ca.key" "/d/tls/leaf.crt"
           "/d/tls/leaf.key" ex_ca_made.2 ex_leaf_made.2 true).
  - vm_compute. reflexivity.
  - exact ex_ca_made_separated.
  - discriminate.
  - discriminate.
  - discriminate.
  - vm_compute. reflexivity.
Defined.

Lemma X9_createClientCertKey_witness :
  let run := createClientCertKey true "kube-apiserver" [] None [ExtKeyUsageServerAuth]
               "/d/tls/ca.crt" "/d/tls/ca.key" "/d/tls/leaf.crt" "/d/tls/leaf.key"
               ex_leaf_made.2 in
  run.1 = Ok true
  /\ written ex_leaf_made.2 run.2 ["/d/tls/leaf.crt"; "/d/tls/leaf.key"].
Proof.
  intros run.
  assert (E : createClientCertKey true "kube-apiserver" [] None [ExtKeyUsageServerAuth]
                "/d/tls/ca.crt" "/d/tls/ca.key" "/d/tls/leaf.crt" "/d/tls/leaf.key"
                ex_leaf_made.2 = (Ok true, run.2)).
  { vm_compute. reflexivity. }
  destruct (X9_createClientCertKey_forced_writes_key_and_certificate _ _ _ _ _ _ _ _ _ _ _ E)
    as [_ Hw].
  split; [vm_compute; reflexivity|exact Hw].
Defined.

Lemma X10_createClientCertKey_witness :
  createClientCertKey false "kube-apiserver" [] None [ExtKeyUsageServerAuth]
    "/d/tls/ca.crt" "/d/tls/ca.key" "/d/tls/leaf.crt" "/d/tls/leaf.key" ex_fresh
  = (Err ErrNotExist, ex_fresh).
Proof.
  destruct (X10_createClientCertKey_needs_the_CA false "kube-apiserver" [] None
              [ExtKeyUsageServerAuth] "/d/tls/ca.crt" "/d/tls/ca.key" "/d/tls/leaf.crt"
              "/d/tls/leaf.key" ex_fresh) as [Hkey _].
  - vm_compute. reflexivity.
  - apply Hkey. vm_compute. reflexivity.
Defined.


Lemma X12_genUsers_witness :
  genUsers (ex_config false "") ex_users_made.2 = (Ok tt, ex_users_made.2).
Proof.
  apply (X12_genUsers_idempotent (ex_config false "") ex_fresh).
  vm_compute. reflexivity.
Defined.

Lemma ex_first_run_eq :
  GenServerDeps (CreateRuntimeCertFiles ex_control) ex_fresh = (Ok tt, ex_first_run.2).
Proof. vm_compute. reflexivity. Defined.


Lemma X14_GenServerDeps_witness :
  denied ex_legacy_run.2 = denied ex_world_legacy
  /\ clock ex_legacy_run.2 = clock ex_world_legacy
  /\ (forall p, p <> ClientKubeProxyCert (Runtime (CreateRuntimeCertFiles ex_control)) ->
                p <> ClientK3sControllerCert (Runtime (CreateRuntimeCertFiles ex_control)) ->
                is_Some (files ex_world_legacy !! p) ->
                is_Some (files ex_legacy_run.2 !! p)).
Proof.
  apply (X14_GenServerDeps_removes_only_the_legacy_certificates
           ex_control ex_world_legacy ex_legacy_run.2 ex_legacy_run.1).
  unfold ex_legacy_run. by destruct (GenServerDeps _ _).
Defined.

Lemma X15_bootstrap_tokens_witness :
  exists sp,
    sp <> ""
    /\ (Token ex_control <> "" -> sp = Token ex_control)
    /\ rt_ServerToken ex_first_run.2 = "server:" +:+ sp
    /\ rt_AgentToken ex_first_run.2
       = "node:" +:+ getNodePass (CreateRuntimeCertFiles ex_control) sp
    /\ (AgentToken ex_control <> "" ->
        rt_AgentToken ex_first_run.2 = "node:" +:+ AgentToken ex_control).
Proof.
  apply (X15_bootstrap_publishes_the_tokens ex_control ex_fresh ex_first_run.2).
  - reflexivity.
  - vm_compute. set_solver.
  - exact ex_first_run_eq.
Defined.

Lemma X16_genServiceAccount_witness :
  exists k,
    certutil_PrivateKeyFromFile ex_service_made.2 (ServiceKey (Runtime (ex_config false "")))
    = Ok k
    /\ read_data ex_service_made.2 (ServiceCurrentKey (Runtime (ex_config false "")))
       = Ok (certutil_EncodePrivateKeyPEM k)
    /\ (is_Some (files ex_fresh !! ServiceKey (Runtime (ex_config false ""))) ->
        files ex_service_made.2 !! ServiceKey (Runtime (ex_config false ""))
        = files ex_fresh !! ServiceKey (Runtime (ex_config false ""))).
Proof.
  apply (X16_genServiceAccount_publishes_the_first_key (Runtime (ex_config false ""))
           ex_fresh ex_service_made.2).
  - discriminate.
  - exact ex_fresh_separated.
  - vm_compute. reflexivity.
Defined.

Lemma X17_genClientCerts_witness :
  exists ca0 chain,
    certutil_CertsFromFile ex_client_certs_made.2
      (ClientCA (Runtime (CreateRuntimeCertFiles ex_control))) = Ok (ca0 :: chain)
    /\ certutil_CertsFromFile ex_client_certs_made.2
         (SigningClientCA (Runtime (CreateRuntimeCertFiles ex_control))) = Ok [ca0].
Proof.
  apply (X17_genClientCerts_publishes_a_single_CA_certificate ex_control ex_fresh
           ex_client_certs_made.2).
  - exact ex_fresh_separated.
  - vm_compute. reflexivity.
Defined.

Lemma X18_bootstrap_products_witness :
  exists_ ex_first_run.2
    (bootstrap_products (Runtime (CreateRuntimeCertFiles ex_control))
       (negb (DisableETCD ex_control))) = true.
Proof.
  apply (X18_bootstrap_leaves_its_products_in_place ex_control ex_fresh ex_first_run.2).
  exact ex_first_run_eq.
Defined.

Lemma X19_genEncryptionConfigAndState_witness :
  genEncryptionConfigAndState (ex_config true "aescbc") ex_encryption_made.2
  = (Ok tt, ex_encryption_made.2).
Proof.
  apply (X19_genEncryptionConfigAndState_idempotent (ex_config true "aescbc") ex_fresh).
  - intros x. vm_compute. discriminate.
  - vm_compute. reflexivity.
Defined.

Lemma X20_createClientCertKey_witness :
  true = (false || expired ex_ca_made.2 "/d/tls/leaf.crt"
          || fieldsChanged ex_ca_made.2 "/d/tls/leaf.crt" "kube-apiserver" [] None
               "/d/tls/ca.crt"
          || negb (exists_ ex_ca_made.2 ["/d/tls/leaf.crt"; "/d/tls/leaf.key"]))%bool
  /\ (true = true <-> "/d/tls/leaf.crt" ∈ ["/d/tls/leaf.crt"; "/d/tls/leaf.key"]).
Proof.
  apply (X20_createClientCertKey_issues_exactly_for_a_reason
           false "kube-apiserver" [] None [ExtKeyUsageServerAuth]
           "/d/tls/ca.crt" "/d/tls/ca.key" "/d/tls/leaf.crt" "/d/tls/leaf.key"
           ex_ca_made.2 ex_leaf_made.2 true ["/d/tls/leaf.crt"; "/d/tls/leaf.key"]).
  - vm_compute. reflexivity.
  - vm_compute. reflexivity.
Defined.

Lemma X21_createClientCertKey_witness :
  true = true /\ wlog ex_reissued.2 <> wlog ex_world_replaced.
Proof.
  apply (X21_createClientCertKey_reissues_after_a_CA_change
           false "kube-apiserver" ["o1"; "o2"]
           (Some (mkAltNames ["kubernetes"] ["10.0.0.1"])) [ExtKeyUsageServerAuth]
           "/d/tls/ca.crt" "/d/tls/ca.key" "/d/tls/leaf.crt" "/d/tls/leaf.key"
           ex_world_replaced ex_reissued.2 true ex_leaf ex_ca_new [ex_ca] []).
  - vm_compute. reflexivity.
  - vm_compute. reflexivity.
  - discriminate.
  - vm_compute. reflexivity.
Defined.
